(** * CompliLedger frontend and test runner: a shallow embedding

    The development follows the TypeScript sources of the proof of concept:

    - [Js]        the fragment of JavaScript values the portal manipulates
                  (strings, truthiness, [String(x)], JSON data);
    - [Eff]       a writer-with-exceptions monad for the effects of one
                  asynchronous function (events emitted, value or throw);
    - [Browser]   what the page asks of the browser: timers, [fetch],
                  console, toasts, windows;
    - [Api]       [lib/api.ts]: [req], [reqForm] and the exported groups;
    - [Portal]    [pages/CompanyPortal.tsx]: the component state,
                  [startAnalysis], [loadFindings] and the polling effect;
    - [ExportPdf] [pages/CompanyPortal.tsx]: [exportPdf];
    - [Upload], [Session] [pages/CompanyPortal.tsx]: the upload handlers
                  and the sessions of the page;
    - [Wallet]    [hooks/useWallet.ts];
    - [Runner]    [tests/run_api_test.sh].

    Strings are sequences of code units, modelled by [string], and case
    conversion acts on the letters A to Z; JSON numbers are modelled by
    integers (the code only compares them with 1 and 2 and prints them).
    What the environment decides (how a request settles, which id a timer
    gets, whether the browser allows popups, how the wallet answers) is an
    argument of the function that depends on it. *)

From Stdlib Require Import String Ascii List ZArith Lia Bool Arith DecimalString.
Import ListNotations.

Set Warnings "-register-all".

Local Open Scope list_scope.
Local Open Scope string_scope.

(* ================================================================== *)
(** ** JavaScript values *)
(* ================================================================== *)

Module Js.

(** The double quote character, spliced into string constants. *)
Definition dq : string := String "034"%char EmptyString.

(** [s.length > 0], the truthiness of a string. *)
Definition nonempty (s : string) : bool :=
  match s with EmptyString => false | String _ _ => true end.

(** [s.includes(search)] *)
Fixpoint includes (s search : string) : bool :=
  if prefix search s then true
  else match s with
       | EmptyString => false
       | String _ rest => includes rest search
       end.

Definition lower_char (c : ascii) : ascii :=
  let n := nat_of_ascii c in
  if (65 <=? n)%nat && (n <=? 90)%nat then ascii_of_nat (n + 32) else c.

(** [s.toLowerCase()] *)
Fixpoint toLowerCase (s : string) : string :=
  match s with
  | EmptyString => EmptyString
  | String c rest => String (lower_char c) (toLowerCase rest)
  end.

(** [s.slice(0, n)] *)
Fixpoint slice0 (n : nat) (s : string) : string :=
  match n, s with
  | S k, String c rest => String c (slice0 k rest)
  | _, _ => EmptyString
  end.

(** [String(n)] for an integer [n]. *)
Definition show_int (n : Z) : string := NilEmpty.string_of_int (Z.to_int n).

(** [xs.join(sep)] on an array of strings. *)
Definition join (sep : string) (xs : list string) : string := String.concat sep xs.

(** The values that reach the portal: parsed JSON, plus [undefined] for
    absent properties. An object is its list of own properties. *)
Inductive value : Type :=
| VUndefined
| VNull
| VBool (b : bool)
| VNum (n : Z)
| VStr (s : string)
| VArr (items : list value)
| VObj (fields : list (string * value)).

Definition truthy (v : value) : bool :=
  match v with
  | VUndefined | VNull => false
  | VBool b => b
  | VNum n => negb (n =? 0)%Z
  | VStr s => nonempty s
  | VArr _ | VObj _ => true
  end.

(** [a || b] *)
Definition or (a b : value) : value := if truthy a then a else b.

Fixpoint own (k : string) (fields : list (string * value)) : option value :=
  match fields with
  | [] => None
  | (k', v) :: rest => if String.eqb k k' then Some v else own k rest
  end.

(** [v?.k] for a property name [k] that no prototype defines. *)
Definition prop (k : string) (v : value) : value :=
  match v with
  | VObj fields => match own k fields with Some x => x | None => VUndefined end
  | _ => VUndefined
  end.

(** [String(v)]; [None] stands for the [TypeError] raised when an object
    carries an own, hence non-callable, [toString] property. *)
Fixpoint toString (v : value) : option string :=
  match v with
  | VUndefined => Some "undefined"
  | VNull => Some "null"
  | VBool true => Some "true"
  | VBool false => Some "false"
  | VNum n => Some (show_int n)
  | VStr s => Some s
  | VArr items =>
      let fix each (l : list value) : option (list string) :=
        match l with
        | [] => Some []
        | x :: rest =>
            let sx := match x with
                      | VUndefined | VNull => Some EmptyString
                      | _ => toString x
                      end in
            match sx, each rest with
            | Some a, Some r => Some (a :: r)
            | _, _ => None
            end
        end in
      option_map (join ",") (each items)
  | VObj fields =>
      match own "toString" fields with
      | Some _ => None
      | None => Some "[object Object]"
      end
  end.

(** [v.toString()] *)
Definition call_toString (v : value) : option string :=
  match v with
  | VUndefined | VNull => None
  | _ => toString v
  end.

(** [Array.isArray(v) ? v : []] *)
Definition array_or_empty (v : value) : list value :=
  match v with VArr items => items | _ => [] end.

End Js.

(* ================================================================== *)
(** ** Effects of one asynchronous function *)
(* ================================================================== *)

Module Eff.

(** A thrown value: [name] and [message] of an [Error] object. *)
Record exn : Type := Exn { exn_name : string; exn_message : string }.

(** [String(e)] for an [Error] object [e]. *)
Definition show_exn (e : exn) : string :=
  if Js.nonempty (exn_message e)
  then exn_name e ++ ": " ++ exn_message e
  else exn_name e.

Inductive result (A : Type) : Type :=
| Ok (a : A)
| Throw (e : exn).
Arguments Ok {A} a.
Arguments Throw {A} e.

Section Monad.
Context {Ev : Type}.

(** A computation emits events, in order, and completes or throws. *)
Definition M (A : Type) : Type := (list Ev * result A)%type.

Definition ret {A} (a : A) : M A := ([], Ok a).
Definition throw {A} (e : exn) : M A := ([], Throw e).
Definition emit (ev : Ev) : M unit := ([ev], Ok tt).

Definition bind {A B} (m : M A) (k : A -> M B) : M B :=
  match m with
  | (t, Ok a) => let '(t', r) := k a in ((t ++ t')%list, r)
  | (t, Throw e) => (t, Throw e)
  end.

(** [try { m } catch (e) { h e }] *)
Definition try_catch {A} (m : M A) (h : exn -> M A) : M A :=
  match m with
  | (t, Ok a) => (t, Ok a)
  | (t, Throw e) => let '(t', r) := h e in ((t ++ t')%list, r)
  end.

(** [try { m } finally { f }] for a cleanup [f] that does not throw. *)
Definition finally {A} (m : M A) (f : list Ev) : M A :=
  let '(t, r) := m in ((t ++ f)%list, r).

Definition trace {A} (m : M A) : list Ev := fst m.
Definition outcome {A} (m : M A) : result A := snd m.

End Monad.

Declare Scope eff_scope.
Delimit Scope eff_scope with eff.
Notation "x <- m ;; k" := (bind m (fun x => k))
  (at level 61, m at next level, right associativity) : eff_scope.
Notation "m ;;; k" := (bind m (fun _ => k))
  (at level 61, right associativity) : eff_scope.

End Eff.

(* ================================================================== *)
(** ** The browser interface seen by the frontend *)
(* ================================================================== *)

Module Browser.

Inductive form_value : Type :=
| FormText (s : string)
| FormFile (filename : string).

(** A [FormData] object: the appended entries, in order. *)
Definition form_data : Type := list (string * form_value).

Inductive body : Type :=
| BodyString (s : string)
| BodyForm (fd : form_data).

(** The second argument of [fetch]; [None] is an absent property. A signal
    is named by the number of its [AbortController]. *)
Record init : Type := Init {
  init_method : option string;
  init_headers : option (list (string * string));
  init_body : option body;
  init_signal : option nat
}.

Definition no_init : init := Init None None None None.

Record request : Type := Request { rq_url : string; rq_init : init }.

(** What the page schedules with [setTimeout]. *)
Inductive callback : Type :=
| Abort (controller : nat)
| PollTick.

Inductive event : Type :=
| SetTimeout (id : nat) (cb : callback) (ms : Z)
| ClearTimeout (id : nat)
| Fetch (rq : request)
| ConsoleDebug (tag : string)
| ConsoleError (tag : string) (fields : list (string * string))
| Toast (title description : string) (destructive : bool)
| WindowOpen (url target features : string)
| DocumentOpen
| DocumentWrite (html : string)
| DocumentClose.

(** A [Response]: status line, [content-type] header, and what reading the
    body as text or as JSON yields (reading may reject). *)
Record response : Type := Response {
  status : Z;
  statusText : string;
  contentType : option string;
  text : Eff.result string;
  json : Eff.result Js.value
}.

(** [res.ok] *)
Definition ok (res : response) : bool :=
  ((200 <=? status res) && (status res <=? 299))%Z.

Inductive fetch_outcome : Type :=
| FetchRejects (e : Eff.exn)
| FetchResolves (res : response).

(** What the runtime supplies to one call of the API client: the timer id
    returned by [setTimeout], the fresh [AbortController], and the fate of
    the request. *)
Record call_env : Type := CallEnv {
  timer : nat;
  controller : nat;
  net : fetch_outcome
}.

Definition is_timer (ev : event) : bool :=
  match ev with SetTimeout _ _ _ | ClearTimeout _ => true | _ => false end.

(** The requests handed to [fetch] in a trace. *)
Fixpoint fetches (t : list event) : list request :=
  match t with
  | [] => []
  | Fetch rq :: rest => rq :: fetches rest
  | _ :: rest => fetches rest
  end.

(** The error logs of a trace. *)
Fixpoint errors_logged (t : list event) : list (list (string * string)) :=
  match t with
  | [] => []
  | ConsoleError _ fields :: rest => fields :: errors_logged rest
  | _ :: rest => errors_logged rest
  end.

End Browser.

(* ================================================================== *)
(** ** lib/api.ts *)
(* ================================================================== *)

Module Api.
Import Eff Browser.
Local Open Scope eff_scope.

Definition upper_char (c : ascii) : ascii :=
  let n := nat_of_ascii c in
  if (97 <=? n)%nat && (n <=? 122)%nat then ascii_of_nat (n - 32) else c.

(** [s.toUpperCase()] *)
Fixpoint toUpperCase (s : string) : string :=
  match s with
  | EmptyString => EmptyString
  | String c rest => String (upper_char c) (toUpperCase rest)
  end.

(** [await p] for a promise settled as [r]. *)
Definition await {A} (r : result A) : M (Ev := event) A := ([], r).

(** [await fetch(url, init)] *)
Definition fetch (url : string) (i : init) (o : fetch_outcome) : M response :=
  emit (Fetch (Request url i)) ;;;
  match o with
  | FetchResolves res => ret res
  | FetchRejects e => throw e
  end.

(** [await res.text().catch(() => '')] *)
Definition text_or_empty (res : response) : string :=
  match text res with Ok t => t | Throw _ => EmptyString end.

(** The message of the error thrown for a response that is not [ok]:
    [`${res.status} ${res.statusText}${text ? `: ${text}` : ''}`]. *)
Definition error_message (res : response) (txt : string) : string :=
  Js.show_int (status res) ++ " " ++ statusText res
  ++ (if Js.nonempty txt then ": " ++ txt else EmptyString).

Definition error_fields (res : response) (txt : string) : list (string * string) :=
  [("status", Js.show_int (status res));
   ("statusText", statusText res);
   ("body", Js.slice0 500 txt)].

(** The shape of the trace of a call: the timer is armed first, with the
    delay [ms] and the abort of the call's controller as callback; it is
    cleared last; in between no timer is touched and exactly one request
    leaves, to [url], carrying the signal of that controller. *)
Definition guarded (ms : Z) (url : string) (env : call_env) (t : list event) : Prop :=
  exists mid rq,
    t = (SetTimeout (timer env) (Abort (controller env)) ms
           :: mid ++ [ClearTimeout (timer env)])%list
    /\ filter is_timer mid = []
    /\ fetches mid = [rq]
    /\ rq_url rq = url
    /\ init_signal (rq_init rq) = Some (controller env).

(** The [signal] property of the optional [init] argument, if any. *)
Definition signal_of (i : option init) : option nat :=
  match i with Some x => init_signal x | None => None end.

Section Client.

(** [import.meta.env.VITE_API_BASE_URL || 'http://localhost:8000'] *)
Variable BASE_URL : string.
Variable encodeURIComponent : string -> string.
Variable JSON_stringify : Js.value -> string.

(** [{ headers: {'Content-Type': 'application/json', ...(init?.headers || {})},
      signal: controller.signal, ...init }]: a property of [init] that is
    present replaces the one written before the spread. *)
Definition req_init (ctl : nat) (i : option init) : init :=
  let own_headers := match i with Some x => init_headers x | None => None end in
  let merged :=
    (("Content-Type", "application/json")
       :: match own_headers with Some h => h | None => [] end)%list in
  match i with
  | None => Init None (Some merged) None (Some ctl)
  | Some x =>
      Init (init_method x)
           (Some (match init_headers x with Some h => h | None => merged end))
           (init_body x)
           (Some (match init_signal x with Some s => s | None => ctl end))
  end.

Definition req (path : string) (i : option init) (env : call_env) : M Js.value :=
  emit (SetTimeout (timer env) (Abort (controller env)) 20000%Z) ;;;
  finally
    (let url := BASE_URL ++ path in
     let method :=
       toUpperCase (match i with
                    | Some (Init (Some m) _ _ _) => if Js.nonempty m then m else "GET"
                    | _ => "GET"
                    end) in
     emit (ConsoleDebug "[api] request") ;;;
     res <- fetch url (req_init (controller env) i) (net env) ;;
     if negb (ok res) then
       let txt := text_or_empty res in
       emit (ConsoleError "[api] response error"
               (("method", method) :: ("path", path) :: error_fields res txt)) ;;;
       throw (Exn "Error" (error_message res txt))
     else
       let ct := match contentType res with Some c => c | None => EmptyString end in
       out <- (if Js.includes ct "application/json"
               then await (json res)
               else (t <- await (text res) ;; ret (Js.VStr t))) ;;
       emit (ConsoleDebug "[api] response ok") ;;;
       ret out)
    [ClearTimeout (timer env)].

(** [{ method: 'POST', body: form, signal: controller.signal, ...(init || {}) }] *)
Definition reqForm_init (ctl : nat) (form : form_data) (i : option init) : init :=
  match i with
  | None => Init (Some "POST") None (Some (BodyForm form)) (Some ctl)
  | Some x =>
      Init (Some (match init_method x with Some m => m | None => "POST" end))
           (init_headers x)
           (Some (match init_body x with Some b => b | None => BodyForm form end))
           (Some (match init_signal x with Some s => s | None => ctl end))
  end.

Definition reqForm (path : string) (form : form_data) (i : option init)
    (env : call_env) : M Js.value :=
  emit (SetTimeout (timer env) (Abort (controller env)) 30000%Z) ;;;
  finally
    (let url := BASE_URL ++ path in
     emit (ConsoleDebug "[api] request(form)") ;;;
     res <- fetch url (reqForm_init (controller env) form i) (net env) ;;
     if negb (ok res) then
       let txt := text_or_empty res in
       emit (ConsoleError "[api] response error(form)"
               (("path", path) :: error_fields res txt)) ;;;
       throw (Exn "Error" (error_message res txt))
     else
       emit (ConsoleDebug "[api] response ok(form)") ;;;
       await (json res))
    [ClearTimeout (timer env)].

(** *** The exported groups of operations *)

Inductive operation : Type :=
| AuditorStatus (artifactHash : string)
| AuditorReports (artifactHash : string)
| AuditorAttest (body : Js.value)
| AuditorListAttestations (artifactHash : string)
| ControlsFamilies
| ControlsList (query family : string) (page limit : Z)
| ControlsRecommend (artifact_text : string) (limit : Z)
| IpfsResolve (cid : string)
| ArtifactsUpload (filename : string) (description : option string)
| ArtifactsList
| ArtifactsProfiles
| VerificationSubmit (artifact_id profile_id wallet_address : string)
| VerificationStatus (artifact_hash : string)
| VerificationReports (artifact_hash : string).

Definition post_json (payload : Js.value) : option init :=
  Some (Init (Some "POST") None (Some (BodyString (JSON_stringify payload))) None).

Definition upload_form (filename : string) (description : option string) : form_data :=
  (("file", FormFile filename)
     :: match description with
        | Some d => if Js.nonempty d then [("description", FormText d)] else []
        | None => []
        end)%list.

Definition submit_form (artifact_id profile_id wallet_address : string) : form_data :=
  [("artifact_id", FormText artifact_id);
   ("profile_id", FormText profile_id);
   ("wallet_address", FormText wallet_address)].

Definition perform (op : operation) (env : call_env) : M Js.value :=
  match op with
  | AuditorStatus h => req ("/api/v1/auditor/status/" ++ h) None env
  | AuditorReports h => req ("/api/v1/auditor/reports/" ++ h) None env
  | AuditorAttest b => req "/api/v1/auditor/attestations" (post_json b) env
  | AuditorListAttestations h => req ("/api/v1/auditor/attestations/" ++ h) None env
  | ControlsFamilies => req "/api/v1/controls/families" None env
  | ControlsList query family page limit =>
      req ("/api/v1/controls?query=" ++ encodeURIComponent query
           ++ "&family=" ++ encodeURIComponent family
           ++ "&page=" ++ Js.show_int page
           ++ "&limit=" ++ Js.show_int limit) None env
  | ControlsRecommend t limit =>
      req "/api/v1/controls/recommend"
          (post_json (Js.VObj [("artifact_text", Js.VStr t); ("limit", Js.VNum limit)]))
          env
  | IpfsResolve cid => req ("/api/v1/ipfs/resolve/" ++ cid) None env
  | ArtifactsUpload f d => reqForm "/api/v1/artifacts/upload" (upload_form f d) None env
  | ArtifactsList => req "/api/v1/artifacts/" None env
  | ArtifactsProfiles => req "/api/v1/artifacts/profiles" None env
  | VerificationSubmit a p w =>
      reqForm "/api/v1/verification/submit" (submit_form a p w) None env
  | VerificationStatus h => req ("/api/v1/verification/status/" ++ h) None env
  | VerificationReports h => req ("/api/v1/verification/reports/" ++ h) None env
  end.

(** Whether the operation goes through [reqForm] (multipart) or [req]. *)
Definition multipart (op : operation) : bool :=
  match op with
  | ArtifactsUpload _ _ | VerificationSubmit _ _ _ => true
  | _ => false
  end.

(** The property names of the object literal [verificationApi]. *)
Inductive verification_member : Type := MSubmit | MStatus | MReports.

Definition verificationApi : list (string * verification_member) :=
  [("submit", MSubmit); ("status", MStatus); ("reports", MReports)].

Fixpoint member {A} (name : string) (obj : list (string * A)) : option A :=
  match obj with
  | [] => None
  | (k, v) :: rest => if String.eqb name k then Some v else member name rest
  end.

(** A string parameter that the caller did not pass reads [undefined], and
    [FormData.append] and template literals turn it into that word. *)
Definition arg (n : nat) (args : list string) : string := nth n args "undefined".

(** [verificationApi.name(...args)]: calling a property the object does not
    have raises a [TypeError] before anything is sent. *)
Definition call_verificationApi (name : string) (args : list string)
    (env : call_env) : M Js.value :=
  match member name verificationApi with
  | None => throw (Exn "TypeError" ("verificationApi." ++ name ++ " is not a function"))
  | Some MSubmit => perform (VerificationSubmit (arg 0 args) (arg 1 args) (arg 2 args)) env
  | Some MStatus => perform (VerificationStatus (arg 0 args)) env
  | Some MReports => perform (VerificationReports (arg 0 args)) env
  end.

End Client.

End Api.

(* ================================================================== *)
(** ** pages/CompanyPortal.tsx: component state, submission, polling *)
(* ================================================================== *)

Module Portal.
Import Eff Browser.
Local Open Scope eff_scope.

Inductive vstatus : Type := Pending | Verified | Failed.

Definition vstatus_eqb (a b : vstatus) : bool :=
  match a, b with
  | Pending, Pending | Verified, Verified | Failed, Failed => true
  | _, _ => false
  end.

(** The [useState] cells of the component that the modelled functions read
    or write. [oscalLinks] and [statusData] hold untyped backend data. *)
Record state : Type := State {
  artifactId : option string;
  artifactHash : option string;
  complianceStandard : string;
  analysisProgress : Z;
  isAnalyzing : bool;
  complianceScore : option Z;
  verificationStatus : option vstatus;
  statusData : Js.value;
  shouldPoll : bool;
  findings : list Js.value;
  controlsPassed : option Z;
  controlsFailed : option Z;
  oscalLinks : Js.value
}.

(** The state of a freshly mounted component. *)
Definition initial : state :=
  State None None EmptyString 0 false None None Js.VNull false [] None None Js.VNull.

Definition setArtifactHash (v : option string) (s : state) : state :=
  State (artifactId s) v (complianceStandard s) (analysisProgress s) (isAnalyzing s)
        (complianceScore s) (verificationStatus s) (statusData s) (shouldPoll s)
        (findings s) (controlsPassed s) (controlsFailed s) (oscalLinks s).

Definition setAnalysisProgress (v : Z) (s : state) : state :=
  State (artifactId s) (artifactHash s) (complianceStandard s) v (isAnalyzing s)
        (complianceScore s) (verificationStatus s) (statusData s) (shouldPoll s)
        (findings s) (controlsPassed s) (controlsFailed s) (oscalLinks s).

Definition setIsAnalyzing (v : bool) (s : state) : state :=
  State (artifactId s) (artifactHash s) (complianceStandard s) (analysisProgress s) v
        (complianceScore s) (verificationStatus s) (statusData s) (shouldPoll s)
        (findings s) (controlsPassed s) (controlsFailed s) (oscalLinks s).

Definition setComplianceScore (v : option Z) (s : state) : state :=
  State (artifactId s) (artifactHash s) (complianceStandard s) (analysisProgress s)
        (isAnalyzing s) v (verificationStatus s) (statusData s) (shouldPoll s)
        (findings s) (controlsPassed s) (controlsFailed s) (oscalLinks s).

Definition setVerificationStatus (v : option vstatus) (s : state) : state :=
  State (artifactId s) (artifactHash s) (complianceStandard s) (analysisProgress s)
        (isAnalyzing s) (complianceScore s) v (statusData s) (shouldPoll s)
        (findings s) (controlsPassed s) (controlsFailed s) (oscalLinks s).

Definition setStatusData (v : Js.value) (s : state) : state :=
  State (artifactId s) (artifactHash s) (complianceStandard s) (analysisProgress s)
        (isAnalyzing s) (complianceScore s) (verificationStatus s) v (shouldPoll s)
        (findings s) (controlsPassed s) (controlsFailed s) (oscalLinks s).

Definition setShouldPoll (v : bool) (s : state) : state :=
  State (artifactId s) (artifactHash s) (complianceStandard s) (analysisProgress s)
        (isAnalyzing s) (complianceScore s) (verificationStatus s) (statusData s) v
        (findings s) (controlsPassed s) (controlsFailed s) (oscalLinks s).

Definition setFindings (v : list Js.value) (s : state) : state :=
  State (artifactId s) (artifactHash s) (complianceStandard s) (analysisProgress s)
        (isAnalyzing s) (complianceScore s) (verificationStatus s) (statusData s)
        (shouldPoll s) v (controlsPassed s) (controlsFailed s) (oscalLinks s).

Definition setControlsPassed (v : option Z) (s : state) : state :=
  State (artifactId s) (artifactHash s) (complianceStandard s) (analysisProgress s)
        (isAnalyzing s) (complianceScore s) (verificationStatus s) (statusData s)
        (shouldPoll s) (findings s) v (controlsFailed s) (oscalLinks s).

Definition setControlsFailed (v : option Z) (s : state) : state :=
  State (artifactId s) (artifactHash s) (complianceStandard s) (analysisProgress s)
        (isAnalyzing s) (complianceScore s) (verificationStatus s) (statusData s)
        (shouldPoll s) (findings s) (controlsPassed s) v (oscalLinks s).

Definition setOscalLinks (v : Js.value) (s : state) : state :=
  State (artifactId s) (artifactHash s) (complianceStandard s) (analysisProgress s)
        (isAnalyzing s) (complianceScore s) (verificationStatus s) (statusData s)
        (shouldPoll s) (findings s) (controlsPassed s) (controlsFailed s) v.

(** The state variable [artifactHash] is declared [string | null]; a
    backend value is stored when it is a non-empty string. *)
Definition as_hash (v : Js.value) : option string :=
  match v with
  | Js.VStr h => if Js.nonempty h then Some h else None
  | _ => None
  end.

(** [!x] for [x : string | null]. *)
Definition missing (x : option string) : bool :=
  match x with Some v => negb (Js.nonempty v) | None => true end.

(** *** startAnalysis *)

Section Submission.
Variable BASE_URL : string.
Variable encodeURIComponent : string -> string.
Variable JSON_stringify : Js.value -> string.

(** The statements of the [try] block that follow the awaited call. Reading
    [res.artifact_hash] of [null] or [undefined] throws. *)
Definition after_submit (res : Js.value) (s : state) : state * M unit :=
  let s1 := setVerificationStatus (Some Pending)
              (setIsAnalyzing false (setAnalysisProgress 100 s)) in
  match res with
  | Js.VNull | Js.VUndefined =>
      (s1, throw (Exn "TypeError" "Cannot read properties of null"))
  | _ =>
      let h := Js.prop "artifact_hash" res in
      let s2 := if Js.truthy h
                then match as_hash h with
                     | Some x => setArtifactHash (Some x) s1
                     | None => s1
                     end
                else s1 in
      (setShouldPoll true s2,
       emit (ConsoleDebug "[ui] verification started") ;;;
       emit (Toast "Verification started"
               "Processing: AI → IPFS → Algorand. Status will update automatically."
               false))
  end.

(** The [catch] block. *)
Definition submit_failed (e : exn) (s : state) : state * list event :=
  (setVerificationStatus (Some Failed) (setIsAnalyzing false s),
   [ConsoleError "[ui] startAnalysis failed" [];
    Toast "Verification failed" (show_exn e) true]).

Definition startAnalysis (s : state) (env : call_env) : state * list event :=
  match artifactId s with
  | Some aid =>
      if negb (Js.nonempty aid) || negb (Js.nonempty (complianceStandard s))
      then (s, [Toast "Missing requirements"
                  "Please upload and parse an artifact, and select a profile" true])
      else
        let s0 := setAnalysisProgress 0 (setIsAnalyzing true s) in
        let call :=
          emit (ConsoleDebug "[ui] startAnalysis") ;;;
          Api.call_verificationApi BASE_URL encodeURIComponent JSON_stringify
            "submitByArtifact" [aid; complianceStandard s] env in
        match call with
        | (t, Ok res) =>
            match after_submit res s0 with
            | (s1, (t', Ok _)) => (s1, (t ++ t')%list)
            | (s1, (t', Throw e)) =>
                let '(s2, t'') := submit_failed e s1 in (s2, (t ++ t' ++ t'')%list)
            end
        | (t, Throw e) =>
            let '(s2, t'') := submit_failed e s0 in (s2, (t ++ t'')%list)
        end
  | None =>
      (s, [Toast "Missing requirements"
             "Please upload and parse an artifact, and select a profile" true])
  end.

End Submission.

(** *** loadFindings *)

(** What the backend and the gateway supply to one call of [loadFindings]:
    the settlement of [verificationApi.reports(h)] and of the block that
    fetches the assessment results ([null] when no document was read). *)
Record findings_env : Type := FindingsEnv {
  reports : result Js.value;
  data : result Js.value
}.

Definition set_number (set : option Z -> state -> state) (v : Js.value) (s : state) : state :=
  match v with Js.VNum n => set (Some n) s | _ => s end.

Definition loadFindings (hash : option string) (env : findings_env) (s : state) : state :=
  let h := if missing hash then artifactHash s else hash in
  if missing h then s
  else match reports env with
       | Throw _ => s
       | Ok rep =>
           let links :=
             Js.or (if Js.truthy rep
                    then Js.or (Js.prop "verified" rep) (Js.prop "initial" rep)
                    else rep) Js.VNull in
           if negb (Js.truthy links) then s
           else
             let s1 := setOscalLinks links s in
             match data env with
             | Throw _ => s1
             | Ok d =>
                 if negb (Js.truthy d) then s1
                 else
                   let results := Js.or (Js.prop "results" d) d in
                   let f := Js.array_or_empty (Js.prop "findings" results) in
                   set_number setControlsFailed (Js.prop "controls_failed" results)
                     (set_number setControlsPassed (Js.prop "controls_passed" results)
                        (set_number setComplianceScore (Js.prop "score" results)
                           (setFindings f s1)))
             end
       end.

(** *** The status polling effect *)

(** [typeof s?.status_code === 'number' ? s.status_code : undefined] *)
Definition status_code (s : Js.value) : option Z :=
  match Js.prop "status_code" s with Js.VNum n => Some n | _ => None end.

(** [(s?.status || '').toString().toLowerCase()]; [None] when [toString]
    throws. *)
Definition status_text (s : Js.value) : option string :=
  option_map Js.toLowerCase
    (Js.call_toString (Js.or (Js.prop "status" s) (Js.VStr EmptyString))).

(** [code === n] *)
Definition code_is (n : Z) (code : option Z) : bool :=
  match code with Some c => (c =? n)%Z | None => false end.

Definition normalize (code : option Z) (text : string) : vstatus :=
  if code_is 1 code || Js.includes text "verified" || Js.includes text "success"
  then Verified
  else if code_is 2 code || Js.includes text "fail" then Failed
  else Pending.

(** What the effect closure captured from the render that created it. *)
Record closure : Type := Closure {
  c_artifactHash : string;
  c_verificationStatus : option vstatus
}.

Definition status_is (v : vstatus) (o : option vstatus) : bool :=
  match o with Some x => vstatus_eqb x v | None => false end.

(** [verificationStatus === 'verified' || verificationStatus === 'failed'
     || code === 1 || code === 2], on the captured [verificationStatus]. *)
Definition terminal (cl : closure) (code : option Z) : bool :=
  status_is Verified (c_verificationStatus cl)
  || status_is Failed (c_verificationStatus cl)
  || code_is 1 code || code_is 2 code.

(** [attempts <= 3 ? 3000 : 8000] *)
Definition backoff (attempts : nat) : Z :=
  if (attempts <=? 3)%nat then 3000%Z else 8000%Z.

(** Where the loop stands: a timeout is pending, a status request is in
    flight, or nothing is scheduled. *)
Inductive phase : Type :=
| Armed (id : nat) (ms : Z)
| Awaiting
| Idle.

(** The variables of one run of the effect, with the clock (milliseconds)
    and the next timer id of the browser; timer ids are positive, so a
    stored id is truthy. *)
Record poller : Type := Poller {
  now : Z;
  attempts : nat;
  pollingRef : option nat;
  stage : phase;
  fresh : nat;
  view : state
}.

Inductive entry : Type :=
| StatusRequest (hash : string)
| TimeoutSet (id : nat) (ms : Z)
| TimeoutCleared (id : nat)
| FindingsRequest (hash : string).

Definition log : Type := list (Z * entry).

Inductive input : Type :=
| TimerFires
| Settles (latency : Z) (r : result Js.value) (fenv : findings_env)
| Cleanup.

(** [if (pollingRef.current) { clearTimeout(pollingRef.current);
     pollingRef.current = null; }] *)
Definition clear_ref (p : poller) : poller * log :=
  match pollingRef p with
  | Some id =>
      (Poller (now p) (attempts p) None
              (match stage p with
               | Armed id' ms => if (id =? id')%nat then Idle else Armed id' ms
               | ph => ph
               end)
              (fresh p) (view p),
       [(now p, TimeoutCleared id)])
  | None => (p, [])
  end.

(** [attempts += 1; pollingRef.current = window.setTimeout(tick, delay)] *)
Definition reschedule (p : poller) : poller * log :=
  let n := S (attempts p) in
  let id := fresh p in
  (Poller (now p) n (Some id) (Armed id (backoff n)) (S id) (view p),
   [(now p, TimeoutSet id (backoff n))]).

Definition with_view (v : state) (p : poller) : poller :=
  Poller (now p) (attempts p) (pollingRef p) (stage p) (fresh p) v.

(** [tick] up to its [await]: the status request leaves. *)
Definition tick_begin (cl : closure) (p : poller) : poller * log :=
  (Poller (now p) (attempts p) (pollingRef p) Awaiting (fresh p) (view p),
   [(now p, StatusRequest (c_artifactHash cl))]).

(** [tick] from its [await] on, the request having settled as [r]. *)
Definition tick_resume (cl : closure) (r : result Js.value) (fenv : findings_env)
    (p : poller) : poller * log :=
  match r with
  | Throw _ => reschedule p
  | Ok s =>
      let v1 := setStatusData s (view p) in
      let code := status_code s in
      match status_text s with
      | None => reschedule (with_view v1 p)
      | Some text =>
          let v2 := setVerificationStatus (Some (normalize code text)) v1 in
          if terminal cl code then
            let '(p1, l1) := clear_ref (with_view v2 p) in
            let v3 := setShouldPoll false (view p1) in
            let v4 := loadFindings (Some (c_artifactHash cl)) fenv v3 in
            (Poller (now p1) (attempts p1) (pollingRef p1) Idle (fresh p1) v4,
             (l1 ++ [(now p1, FindingsRequest (c_artifactHash cl))])%list)
          else reschedule (with_view v2 p)
      end
  end.

Definition advance (d : Z) (p : poller) : poller :=
  Poller (now p + d) (attempts p) (pollingRef p) (stage p) (fresh p) (view p).

(** One input to the loop. A timeout expires when its delay has elapsed,
    an answer arrives [latency] milliseconds after its request left, and
    an input that does not apply to the stage of the loop changes
    nothing. *)
Definition step (cl : closure) (p : poller) (i : input) : poller * log :=
  match i, stage p with
  | TimerFires, Armed _ ms => tick_begin cl (advance ms p)
  | Settles latency r fenv, Awaiting => tick_resume cl r fenv (advance latency p)
  | Cleanup, _ => clear_ref p
  | _, _ => (p, [])
  end.

Fixpoint run (cl : closure) (p : poller) (inputs : list input) : poller * log :=
  match inputs with
  | [] => (p, [])
  | i :: rest =>
      let '(p1, l1) := step cl p i in
      let '(p2, l2) := run cl p1 rest in
      (p2, (l1 ++ l2)%list)
  end.

(** The body of the effect, run after a render in which [artifactHash] or
    [shouldPoll] changed: [None] when the guard returns early. *)
Definition effect (t0 : Z) (ref : option nat) (next : nat) (s : state)
    : option (closure * poller * log) :=
  match artifactHash s with
  | Some h =>
      if negb (Js.nonempty h) || negb (shouldPoll s) then None
      else
        let cl := Closure h (verificationStatus s) in
        let '(p0, l0) := clear_ref (Poller t0 0 ref Idle next s) in
        let '(p1, l1) := tick_begin cl p0 in
        Some (cl, p1, (l0 ++ l1)%list)
  | None => None
  end.

(** The times at which status requests leave. *)
Fixpoint request_times (l : log) : list Z :=
  match l with
  | [] => []
  | (t, StatusRequest _) :: rest => t :: request_times rest
  | _ :: rest => request_times rest
  end.

(** A loop that is answered [n] times and whose timers all expire. *)
Definition answers (rs : list (Z * result Js.value * findings_env)) : list input :=
  flat_map (fun x => [Settles (fst (fst x)) (snd (fst x)) (snd x); TimerFires]) rs.

(** The delays of the timeouts set. *)
Fixpoint delays (l : log) : list Z :=
  match l with
  | [] => []
  | (_, TimeoutSet _ ms) :: rest => ms :: delays rest
  | _ :: rest => delays rest
  end.

(** The polling policy in the words of the specification: the request
    that follows the [n]-th one leaves 3 seconds after the [n]-th was
    answered when [n <= 3], and 8 seconds after it otherwise; [lats] are
    the times the backend takes to answer. *)
Fixpoint spec_following (n : nat) (t : Z) (lats : list Z) : list Z :=
  match lats with
  | [] => []
  | l :: rest =>
      let t' := (t + l + (if (n <=? 3)%nat then 3000 else 8000))%Z in
      t' :: spec_following (S n) t' rest
  end.

(** The first request leaves immediately, at [t0]. *)
Definition spec_schedule (t0 : Z) (lats : list Z) : list Z :=
  t0 :: spec_following 1 t0 lats.

(** Whether [tick] takes its early [return] on the settlement [r]. *)
Definition stops (cl : closure) (r : result Js.value) : bool :=
  match r with
  | Throw _ => false
  | Ok s => match status_text s with
            | None => false
            | Some _ => terminal cl (status_code s)
            end
  end.

End Portal.

(* ================================================================== *)
(** ** pages/CompanyPortal.tsx: the printable export *)
(* ================================================================== *)

Module ExportPdf.
Import Eff Browser Portal.

(** The literal parts of the two template strings of [exportPdf], in the
    order in which they occur. *)

Definition page_0 : string :=
  "<!doctype html>
  <html>
    <head>
      <meta charset="
  ++ Js.dq
  ++ "utf-8"
  ++ Js.dq
  ++ " />
      <meta name="
  ++ Js.dq
  ++ "viewport"
  ++ Js.dq
  ++ " content="
  ++ Js.dq
  ++ "width=device-width, initial-scale=1"
  ++ Js.dq
  ++ " />
      <title>".

Definition page_1 : string :=
  "</title>
      <style>
        body { font-family: -apple-system, BlinkMacSystemFont, 'Segoe UI', Roboto, Oxygen, Ubuntu, 'Helvetica Neue', Arial, sans-serif; padding: 24px; color: #111827; }
        h1 { margin: 0 0 8px; font-size: 22px; }
        h2 { margin: 16px 0 8px; font-size: 16px; }
        .muted { color: #6b7280; font-size: 12px; }
        .section { margin-top: 16px; }
        .kpis { display: flex; gap: 16px; margin-top: 8px; }
        .kpi { border: 1px solid #e5e7eb; border-radius: 8px; padding: 12px; min-width: 140px; }
        .kpi .value { font-size: 20px; font-weight: 700; }
        .kpi.pass { color: #10b981; }
        .kpi.fail { color: #ef4444; }
        .finding { border: 1px solid #e5e7eb; border-radius: 8px; padding: 12px; margin-top: 8px; }
        .sev { padding: 2px 8px; border-radius: 10px; font-size: 11px; border: 1px solid #e5e7eb; }
        .sev.high { background: #fee2e2; border-color: #fecaca; }
        .sev.medium { background: #fef9c3; border-color: #fde68a; }
        .sev.low { background: #dcfce7; border-color: #bbf7d0; }
        .controls { margin-top: 6px; color: #6b7280; font-size: 12px; }
        @media print { a { color: inherit; text-decoration: none; } }
      </style>
    </head>
    <body>
      <h1>".

Definition page_2 : string :=
  "</h1>
      <div class="
  ++ Js.dq
  ++ "muted"
  ++ Js.dq
  ++ ">Generated: ".

Definition page_3 : string :=
  "</div>
      ".

Definition oscal_0 : string :=
  "<div class="
  ++ Js.dq
  ++ "muted"
  ++ Js.dq
  ++ ">Verified OSCAL: ".

Definition oscal_1 : string :=
  "</div>".

Definition page_4 : string :=
  "
      <div class="
  ++ Js.dq
  ++ "section"
  ++ Js.dq
  ++ ">
        <h2>Summary</h2>
        <div class="
  ++ Js.dq
  ++ "kpis"
  ++ Js.dq
  ++ ">
          <div class="
  ++ Js.dq
  ++ "kpi"
  ++ Js.dq
  ++ "><div class="
  ++ Js.dq
  ++ "label muted"
  ++ Js.dq
  ++ ">Compliance Score</div><div class="
  ++ Js.dq
  ++ "value"
  ++ Js.dq
  ++ ">".

Definition page_5 : string :=
  "%</div></div>
          <div class="
  ++ Js.dq
  ++ "kpi pass"
  ++ Js.dq
  ++ "><div class="
  ++ Js.dq
  ++ "label muted"
  ++ Js.dq
  ++ ">Controls Passed</div><div class="
  ++ Js.dq
  ++ "value"
  ++ Js.dq
  ++ ">".

Definition page_6 : string :=
  "</div></div>
          <div class="
  ++ Js.dq
  ++ "kpi fail"
  ++ Js.dq
  ++ "><div class="
  ++ Js.dq
  ++ "label muted"
  ++ Js.dq
  ++ ">Controls Failed</div><div class="
  ++ Js.dq
  ++ "value"
  ++ Js.dq
  ++ ">".

Definition page_7 : string :=
  "</div></div>
        </div>
      </div>
      <div class="
  ++ Js.dq
  ++ "section"
  ++ Js.dq
  ++ ">
        <h2>Findings".

Definition page_8 : string :=
  "</h2>
        ".

Definition finding_0 : string :=
  "<div class="
  ++ Js.dq
  ++ "finding"
  ++ Js.dq
  ++ ">
              <div style="
  ++ Js.dq
  ++ "display:flex;justify-content:space-between;gap:8px;align-items:center;"
  ++ Js.dq
  ++ ">
                <div style="
  ++ Js.dq
  ++ "font-weight:600;"
  ++ Js.dq
  ++ ">".

Definition finding_1 : string :=
  "</div>
                ".

Definition badge_0 : string :=
  "<span class="
  ++ Js.dq
  ++ "sev ".

Definition badge_1 : string :=
  Js.dq
  ++ ">".

Definition badge_2 : string :=
  "</span>".

Definition finding_2 : string :=
  "
              </div>
              ".

Definition desc_0 : string :=
  "<div style="
  ++ Js.dq
  ++ "margin-top:6px; font-size:13px;"
  ++ Js.dq
  ++ ">".

Definition desc_1 : string :=
  "</div>".

Definition finding_3 : string :=
  "
              ".

Definition tags_0 : string :=
  "<div class="
  ++ Js.dq
  ++ "controls"
  ++ Js.dq
  ++ ">Controls: ".

Definition code_0 : string :=
  "<code>".

Definition code_1 : string :=
  "</code>".

Definition tags_1 : string :=
  "</div>".

Definition finding_4 : string :=
  "
            </div>".

Definition page_9 : string :=
  "
      </div>
      <script>window.onload = () => { window.print(); };</script>
    </body>
  </html>".

Definition report_title : string := "CompliLedger Verification Report".

(** [safe = (s) => (s == null ? '' : String(s))] *)
Definition safe (v : Js.value) : option string :=
  match v with
  | Js.VNull | Js.VUndefined => Some EmptyString
  | _ => Js.toString v
  end.

(** [safe(x ?? '—')] for a state variable [x : number | null]. *)
Definition number_or_dash (x : option Z) : string :=
  match x with Some n => Js.show_int n | None => "—" end.

(** [String(f?.severity || '').toLowerCase()] *)
Definition severity_of (f : Js.value) : option string :=
  option_map Js.toLowerCase
    (Js.toString (Js.or (Js.prop "severity" f) (Js.VStr EmptyString))).

Definition sevCls (sev : string) : string :=
  if Js.includes sev "high" then "high"
  else if Js.includes sev "medium" then "medium"
  else "low".

(** [f?.title || f?.id || `Finding ${i + 1}`] *)
Definition title_of (f : Js.value) (i : nat) : Js.value :=
  Js.or (Js.or (Js.prop "title" f) (Js.prop "id" f))
        (Js.VStr ("Finding " ++ Js.show_int (Z.of_nat i + 1))).

Definition obind {A B} (o : option A) (k : A -> option B) : option B :=
  match o with Some a => k a | None => None end.

Fixpoint each_safe (wrap : string -> string) (l : list Js.value) : option (list string) :=
  match l with
  | [] => Some []
  | x :: rest =>
      obind (safe x) (fun a =>
      obind (each_safe wrap rest) (fun r => Some (wrap a :: r)))
  end.

(** The severity badge of one finding, rendered when [sev] is non-empty. *)
Definition badge (f : Js.value) (sev : string) : option string :=
  if Js.nonempty sev
  then obind (safe (Js.prop "severity" f)) (fun shown =>
         Some (badge_0 ++ sevCls sev ++ badge_1 ++ shown ++ badge_2))
  else Some EmptyString.

Definition description_block (desc : Js.value) : option string :=
  if Js.truthy desc
  then obind (safe desc) (fun d => Some (desc_0 ++ d ++ desc_1))
  else Some EmptyString.

Definition tags_block (tags : list Js.value) : option string :=
  match tags with
  | [] => Some EmptyString
  | _ => obind (each_safe (fun t => code_0 ++ t ++ code_1) tags) (fun codes =>
           Some (tags_0 ++ Js.join ", " codes ++ tags_1))
  end.

(** The callback of [topFindings.map]. *)
Definition render_finding (f : Js.value) (i : nat) : option string :=
  obind (severity_of f) (fun sev =>
  let desc := Js.or (Js.prop "description" f) (Js.VStr EmptyString) in
  let tags := Js.array_or_empty (Js.prop "control_tags" f) in
  obind (safe (title_of f i)) (fun shown_title =>
  obind (badge f sev) (fun b =>
  obind (description_block desc) (fun d =>
  obind (tags_block tags) (fun t =>
  Some (finding_0 ++ shown_title ++ finding_1 ++ b ++ finding_2 ++ d
        ++ finding_3 ++ t ++ finding_4)))))).

Fixpoint render_from (i : nat) (fs : list Js.value) : option (list string) :=
  match fs with
  | [] => Some []
  | f :: rest =>
      obind (render_finding f i) (fun a =>
      obind (render_from (S i) rest) (fun r => Some (a :: r)))
  end.

(** [(findings || []).slice(0, 10)] *)
Definition topFindings (s : state) : list Js.value := firstn 10 (findings s).

(** [oscalLinks?.assessment_results || oscalLinks?.directory_url || ''] *)
Definition oscalUrl (s : state) : Js.value :=
  Js.or (Js.or (Js.prop "assessment_results" (oscalLinks s))
               (Js.prop "directory_url" (oscalLinks s)))
        (Js.VStr EmptyString).

Definition oscal_block (url : Js.value) : option string :=
  if Js.truthy url
  then obind (Js.toString url) (fun u => Some (oscal_0 ++ u ++ oscal_1))
  else Some EmptyString.

Definition count_label (s : state) : string :=
  match topFindings s with
  | [] => EmptyString
  | top => " (" ++ Js.show_int (Z.of_nat (length top))
           ++ (if (10 <? length (findings s))%nat then "+" else EmptyString) ++ ")"
  end.

Definition kpis (s : state) : string :=
  page_4 ++ number_or_dash (complianceScore s)
  ++ page_5 ++ number_or_dash (controlsPassed s)
  ++ page_6 ++ number_or_dash (controlsFailed s) ++ page_7.

(** The document: [None] when a conversion to string throws. [date] is
    [new Date().toLocaleString()]. *)
Definition html (s : state) (date : string) : option string :=
  obind (oscal_block (oscalUrl s)) (fun o =>
  obind (render_from 0 (topFindings s)) (fun rendered =>
  Some (page_0 ++ report_title ++ page_1 ++ report_title ++ page_2 ++ date
        ++ page_3 ++ o ++ kpis s ++ count_label s ++ page_8
        ++ Js.join EmptyString rendered ++ page_9))).

Definition conversion_error : exn :=
  Exn "TypeError" "Cannot convert object to primitive value".

(** Whether [window.open(url, target, features)] returns a window. By
    the window open steps of HTML the call returns [null] when
    [features] asks for [noopener] or [noreferrer], also when a window
    was opened; otherwise it returns the window, unless the browser
    blocked it ([popup] is false). The feature strings of the page name
    their features without values. *)
Definition window_open (features : string) (popup : bool) : bool :=
  if Js.includes features "noopener" || Js.includes features "noreferrer"
  then false
  else popup.

(** [exportPdf]; [popup] tells whether the browser lets the page open a
    window. *)
Definition exportPdf (s : state) (date : string) (popup : bool) : list event :=
  ConsoleDebug "[ui] export PDF"
    :: match html s date with
       | None => [Toast "Export failed" (show_exn conversion_error) true]
       | Some h =>
           WindowOpen EmptyString "_blank" "noopener,noreferrer"
             :: (if window_open "noopener,noreferrer" popup
                 then [DocumentOpen; DocumentWrite h; DocumentClose]
                 else [Toast "Export failed" (show_exn (Exn "Error" "Popup blocked")) true])
       end.

(** What the reader of the document sees in the summary: a labelled
    value cell for the score and for each of the two counts. *)
Definition value_open (label : string) : string :=
  "<div class=" ++ Js.dq ++ "label muted" ++ Js.dq ++ ">" ++ label
  ++ "</div><div class=" ++ Js.dq ++ "value" ++ Js.dq ++ ">".

Definition score_cell (s : state) : string :=
  value_open "Compliance Score" ++ number_or_dash (complianceScore s) ++ "%</div>".

Definition passed_cell (s : state) : string :=
  value_open "Controls Passed" ++ number_or_dash (controlsPassed s) ++ "</div>".

Definition failed_cell (s : state) : string :=
  value_open "Controls Failed" ++ number_or_dash (controlsFailed s) ++ "</div>".

(** Backend values that convert to a string without calling into an
    object: everything but arrays and objects. *)
Definition scalar (v : Js.value) : bool :=
  match v with Js.VArr _ | Js.VObj _ => false | _ => true end.

(** A finding whose displayed properties are scalars and whose control
    tags, if any, are an array of scalars. *)
Definition simple_finding (f : Js.value) : bool :=
  scalar (Js.prop "severity" f) && scalar (Js.prop "title" f)
  && scalar (Js.prop "id" f) && scalar (Js.prop "description" f)
  && forallb scalar (Js.array_or_empty (Js.prop "control_tags" f)).

(** The documents written by a run of the component. *)
Fixpoint written (t : list event) : list string :=
  match t with
  | [] => []
  | DocumentWrite h :: rest => h :: written rest
  | _ :: rest => written rest
  end.

End ExportPdf.

(* ================================================================== *)
(** ** hooks/useWallet.ts *)
(* ================================================================== *)

Module Wallet.

(** The two [useState] cells of the hook. *)
Record session : Type := Session {
  accounts : list string;
  activeAccount : option string
}.

Definition initial : session := Session [] None.

(** [const isConnected = !!activeAccount] *)
Definition isConnected (s : session) : bool :=
  match activeAccount s with
  | Some a => Js.nonempty a
  | None => false
  end.

(** How a promise of the wallet library settles. A rejection records
    whether [error?.data?.type] is ['SESSION_CONNECT']. *)
Inductive settled (A : Type) : Type :=
| Resolved (a : A)
| Rejected (session_connect : bool).
Arguments Resolved {A} a.
Arguments Rejected {A} session_connect.

Inductive event : Type :=
| PeraConnect
| PeraDisconnect
| PeraReconnectSession
| OnDisconnect
| ConsoleError (message : string)
| ConsoleInfo.

(** [handleDisconnect]: the state is cleared after the awaited teardown,
    hence only when it resolves. *)
Definition handleDisconnect (r : settled unit) (s : session) : session * list event :=
  match r with
  | Resolved _ => (Session [] None, [PeraDisconnect])
  | Rejected _ => (s, [PeraDisconnect])
  end.

(** [peraWallet.connector?.on('disconnect', handleDisconnect)] *)
Definition subscribe (connector : bool) : list event :=
  if connector then [OnDisconnect] else [].

(** [handleConnect] *)
Definition handleConnect (r : settled (list string)) (connector : bool)
    (s : session) : session * list event :=
  match r with
  | Resolved newAccounts =>
      (Session newAccounts
               (match newAccounts with
                | first :: _ => Some first
                | [] => activeAccount s
                end),
       PeraConnect :: subscribe connector)
  | Rejected session_connect =>
      (s, PeraConnect :: (if session_connect then []
                          else [ConsoleError "Error connecting wallet:"]))
  end.

(** The effect that runs when the hook mounts:
    [peraWallet.reconnectSession().then(...).catch(console.info)]. *)
Definition restore (r : settled (list string)) (peraIsConnected connector : bool)
    (s : session) : session * list event :=
  match r with
  | Resolved newAccounts =>
      match newAccounts with
      | first :: _ =>
          if peraIsConnected
          then (Session newAccounts (Some first),
                PeraReconnectSession :: subscribe connector)
          else (s, [PeraReconnectSession])
      | [] => (s, [PeraReconnectSession])
      end
  | Rejected _ => (s, [PeraReconnectSession; ConsoleInfo])
  end.

Section Signing.
(** [Transaction] of the ledger SDK and the signed blobs the wallet returns. *)
Variable Transaction : Type.
Variable Signed : Type.

(** One call of [peraWallet.signTransaction]: its argument, a list of
    transaction groups. *)
Definition signing_request : Type := list (list Transaction).

(** [signTransactions]: the signing requests made, and the signed
    transactions or the thrown error. [r] is how
    [peraWallet.signTransaction] settles. *)
Definition signTransactions (transactions : list Transaction)
    (r : Eff.result Signed) (s : session)
    : list signing_request * Eff.result Signed :=
  if negb (isConnected s)
  then ([], Eff.Throw (Eff.Exn "Error" "Wallet not connected"))
  else ([[transactions]], r).

End Signing.

Arguments signTransactions {Transaction Signed} transactions r s.

(** The operations that change the state of the hook. *)
Inductive operation : Type :=
| Connect (r : settled (list string)) (connector : bool)
| Restore (r : settled (list string)) (peraIsConnected connector : bool)
| Disconnect (r : settled unit).

Definition apply (o : operation) (s : session) : session :=
  match o with
  | Connect r c => fst (handleConnect r c s)
  | Restore r p c => fst (restore r p c s)
  | Disconnect r => fst (handleDisconnect r s)
  end.

Definition after (ops : list operation) : session :=
  fold_left (fun s o => apply o s) ops initial.

(** The active account, when set, is the first of the accounts. *)
Definition active_is_first (s : session) : Prop :=
  forall a, activeAccount s = Some a -> hd_error (accounts s) = Some a.

End Wallet.

(* ================================================================== *)
(** ** tests/run_api_test.sh *)
(* ================================================================== *)

Module Runner.

Inductive action : Type :=
| Echo (line : string)
| ExportVar (name value : string)
| Cd (dir : string)
| Source (file : string)
| Background (command : string) (pid : nat)
| Sleep (seconds : nat)
| Foreground (command : string) (exit_status : nat)
| Kill (pid : nat)
| Exit (code : nat).

(** What the machine supplies to one execution: the two directories the
    script computes, whether [venv/bin/activate] exists, the process id
    of the backgrounded server ([$!]) and the exit status of the test
    ([$?]). *)
Record env : Type := Env {
  SCRIPT_DIR : string;
  PROJECT_ROOT : string;
  venv : bool;
  SERVER_PID : nat;
  TEST_EXIT_CODE : nat
}.

Definition rule : string := "==========================================".

(** [PYTHONPATH="$PROJECT_ROOT" python3 -m app.main], after expansion. *)
Definition server_command (e : env) : string :=
  "PYTHONPATH=" ++ PROJECT_ROOT e ++ " python3 -m app.main".

(** [PYTHONPATH="$PROJECT_ROOT" python3 "$SCRIPT_DIR/test_api_integration.py"],
    after expansion. *)
Definition test_command (e : env) : string :=
  "PYTHONPATH=" ++ PROJECT_ROOT e ++ " python3 " ++ SCRIPT_DIR e
  ++ "/test_api_integration.py".

Definition banner (code : nat) : list action :=
  match code with
  | O => [Echo "✅ API Integration Test: SUCCESS";
          Echo "All tests passed successfully!"]
  | S _ => [Echo "❌ API Integration Test: FAILED";
            Echo "Please check the logs for details."]
  end.

(** The commands of the script in the order in which they run; the last
    one is [exit $TEST_EXIT_CODE]. *)
Definition run_api_test (e : env) : list action :=
  ([Echo rule; Echo "CompliLedger API Integration Test Runner"; Echo rule;
    ExportVar "DEBUG" "true"; ExportVar "API_HOST" "localhost";
    ExportVar "API_PORT" "8000";
    Cd (PROJECT_ROOT e);
    Echo "[1/4] Setting up Python environment..."]
   ++ (if venv e then [Source "venv/bin/activate"] else [])
   ++ [Echo "[2/4] Starting FastAPI server in the background...";
       Echo ("Current directory: " ++ PROJECT_ROOT e);
       Cd (PROJECT_ROOT e ++ "/compliledger/backend");
       Echo ("Starting server from: " ++ PROJECT_ROOT e ++ "/compliledger/backend");
       Background (server_command e) (SERVER_PID e);
       Echo "Waiting for API server to start...";
       Sleep 5;
       Echo "[3/4] Running API integration test...";
       Cd (PROJECT_ROOT e);
       Foreground (test_command e) (TEST_EXIT_CODE e);
       Echo "[4/4] Cleaning up...";
       Kill (SERVER_PID e);
       Echo EmptyString;
       Echo rule]
   ++ banner (TEST_EXIT_CODE e)
   ++ [Echo rule; Exit (TEST_EXIT_CODE e)])%list.

(** The exit status of the script: the argument of the [exit] it runs. *)
Fixpoint exit_status (t : list action) : option nat :=
  match t with
  | [] => None
  | Exit c :: _ => Some c
  | _ :: rest => exit_status rest
  end.

(** The commands that change the directory, or start, wait for, signal
    or end a process. *)
Definition steps (a : action) : bool :=
  match a with
  | Cd _ | Background _ _ | Sleep _ | Foreground _ _ | Kill _ | Exit _ => true
  | _ => false
  end.

End Runner.

(* ================================================================== *)
(** ** lib/api.ts: the operations that send data *)
(* ================================================================== *)

Module ApiShape.

(** The operations whose call in [api.ts] passes a method and a body:
    the two JSON posts and the two multipart posts. *)
Definition writes (op : Api.operation) : bool :=
  match op with
  | Api.AuditorAttest _ | Api.ControlsRecommend _ _
  | Api.ArtifactsUpload _ _ | Api.VerificationSubmit _ _ _ => true
  | _ => false
  end.

End ApiShape.

(* ================================================================== *)
(** ** pages/CompanyPortal.tsx: measures of a run of the polling loop *)
(* ================================================================== *)

Module Poll.
Import Portal.

(** The number of answers among the inputs of a run. *)
Fixpoint answers_in (inputs : list input) : nat :=
  match inputs with
  | [] => 0
  | Settles _ _ _ :: rest => S (answers_in rest)
  | _ :: rest => answers_in rest
  end.

(** The stored timeout id is the one of the pending timeout, and none is
    stored when nothing is scheduled. *)
Definition ref_tracks_timer (p : poller) : Prop :=
  (forall id ms, stage p = Armed id ms -> pollingRef p = Some id)
  /\ (stage p = Idle -> pollingRef p = None).

(** The number of timeouts pending: one or none. *)
Definition pending (p : poller) : nat :=
  match stage p with Armed _ _ => 1 | _ => 0 end.

(** The statuses that end a run. *)
Definition is_terminal (o : option vstatus) : bool :=
  match o with Some Verified | Some Failed => true | _ => false end.

End Poll.

(* ================================================================== *)
(** ** More of JavaScript's strings *)
(* ================================================================== *)

Module Text.

(** The string of the given bytes. *)
Definition bytes (l : list nat) : string :=
  fold_right (fun n s => String (ascii_of_nat n) s) EmptyString l.

(** The white space that [trim] removes, which is the WhiteSpace and the
    LineTerminator of ECMAScript, each character in UTF-8, the encoding
    of the string literals of this development: U+0009 to U+000D,
    U+0020, U+00A0, U+1680, U+2000 to U+200A, U+2028, U+2029, U+202F,
    U+205F, U+3000 and U+FEFF. *)
Definition white_space : list string :=
  map bytes
    [[9]; [10]; [11]; [12]; [13]; [32];
     [194; 160];
     [225; 154; 128];
     [226; 128; 128]; [226; 128; 129]; [226; 128; 130]; [226; 128; 131];
     [226; 128; 132]; [226; 128; 133]; [226; 128; 134]; [226; 128; 135];
     [226; 128; 136]; [226; 128; 137]; [226; 128; 138];
     [226; 128; 168]; [226; 128; 169];
     [226; 128; 175];
     [226; 129; 159];
     [227; 128; 128];
     [239; 187; 191]].

(** What follows [w] in [s], when [s] starts with [w]. *)
Fixpoint after_prefix (w s : string) : option string :=
  match w, s with
  | EmptyString, _ => Some s
  | String a w', String b s' => if Ascii.eqb a b then after_prefix w' s' else None
  | String _ _, EmptyString => None
  end.

(** What follows the first character of [s], when that is one of [ws]. *)
Fixpoint after_one (ws : list string) (s : string) : option string :=
  match ws with
  | [] => None
  | w :: rest =>
      match after_prefix w s with
      | Some s' => Some s'
      | None => after_one rest s
      end
  end.

(** [s] without the characters of [ws] it starts with, at most [fuel]
    of them. *)
Fixpoint strip (ws : list string) (fuel : nat) (s : string) : string :=
  match fuel with
  | O => s
  | S n =>
      match after_one ws s with
      | Some s' => strip ws n s'
      | None => s
      end
  end.

Fixpoint reverse (s : string) : string :=
  match s with
  | EmptyString => EmptyString
  | String c rest => reverse rest ++ String c EmptyString
  end.

(** [s.trimStart()]; a string has no more characters than bytes. *)
Definition trimStart (s : string) : string :=
  strip white_space (String.length s) s.

(** [s.trimEnd()], which is [trimStart] read from the end. *)
Definition trimEnd (s : string) : string :=
  reverse (strip (map reverse white_space) (String.length s) (reverse s)).

(** [s.trim()] *)
Definition trim (s : string) : string := trimEnd (trimStart s).

(** [!s.trim()] *)
Definition blank (s : string) : bool := negb (Js.nonempty (trim s)).

(** [s.substring(n)], for [n] already clamped to be non-negative. *)
Fixpoint drop (n : nat) (s : string) : string :=
  match n, s with
  | S k, String _ rest => drop k rest
  | _, _ => s
  end.

End Text.

(* ================================================================== *)
(** ** pages/CompanyPortal.tsx: what the page enables and shows *)
(* ================================================================== *)

Module View.
Import Portal.

(** [disabled={!artifactId || !complianceStandard || isAnalyzing}] of the
    button that runs [startAnalysis]. *)
Definition start_disabled (s : state) : bool :=
  missing (artifactId s) || negb (Js.nonempty (complianceStandard s)) || isAnalyzing s.

(** [complianceScore !== null], the condition under which the score, the
    status badge and the two report buttons are rendered. *)
Definition results_shown (s : state) : bool :=
  match complianceScore s with Some _ => true | None => false end.

(** The status badge: inside the block of the score, under
    [verificationStatus &&]. *)
Definition badge_text (s : state) : option string :=
  if results_shown s
  then match verificationStatus s with
       | Some Verified => Some "Verified on Algorand Testnet"
       | Some Failed => Some "Verification failed"
       | Some Pending => Some "Verification in progress"
       | None => None
       end
  else None.

(** [disabled={!oscalLinks && (!findings || findings.length === 0)
     && complianceScore === null}] of the export button. *)
Definition export_disabled (s : state) : bool :=
  negb (Js.truthy (oscalLinks s))
  && (length (findings s) =? 0)%nat
  && negb (results_shown s).

(** [disabled={!artifactHash}] of the download button. *)
Definition download_disabled (s : state) : bool := missing (artifactHash s).

(** Whether a trace shows the toast of the requirements guard. *)
Definition asks_for_requirements (t : list Browser.event) : bool :=
  existsb (fun ev => match ev with
                     | Browser.Toast title _ _ => String.eqb title "Missing requirements"
                     | _ => false
                     end) t.

End View.

(* ================================================================== *)
(** ** pages/CompanyPortal.tsx: downloadOSCALReports *)
(* ================================================================== *)

Module Download.
Import Eff Browser Portal.
Local Open Scope eff_scope.

(** The four documents offered for download, in the order of the array
    literal. *)
Definition documents : list string :=
  ["component_definition"; "assessment_plan"; "assessment_results"; "poam"].

(** [[...].filter(Boolean)] *)
Definition urls (links : Js.value) : list Js.value :=
  filter Js.truthy (map (fun k => Js.prop k links) documents).

(** [urls.forEach((u) => window.open(u, '_blank', 'noopener,noreferrer'))]:
    the url is converted to a string, which throws for an object that
    carries its own [toString]. *)
Fixpoint open_each (us : list Js.value) : M unit :=
  match us with
  | [] => ret tt
  | u :: rest =>
      match Js.toString u with
      | Some url => emit (WindowOpen url "_blank" "noopener,noreferrer") ;;; open_each rest
      | None => throw ExportPdf.conversion_error
      end
  end.

Definition downloadOSCALReports (s : state) : M unit :=
  if negb (Js.truthy (oscalLinks s))
  then emit (Toast "No reports yet"
               "Reports will be available once verification completes" true)
  else
    let us := urls (oscalLinks s) in
    match us with
    | [] => emit (Toast "Links unavailable"
                    "OSCAL links not returned by backend yet" true)
    | _ =>
        emit (ConsoleDebug "[ui] download OSCAL") ;;;
        open_each us ;;;
        emit (Toast "Downloads opened"
                (Js.show_int (Z.of_nat (length us)) ++ " OSCAL document(s)") false)
    end.

(** The urls of the windows opened in a trace. *)
Fixpoint windows (t : list event) : list string :=
  match t with
  | [] => []
  | WindowOpen url _ _ :: rest => url :: windows rest
  | _ :: rest => windows rest
  end.

(** The descriptions of the success toasts of a trace. *)
Fixpoint opened_toasts (t : list event) : list string :=
  match t with
  | [] => []
  | Toast title d _ :: rest =>
      if String.eqb title "Downloads opened" then d :: opened_toasts rest
      else opened_toasts rest
  | _ :: rest => opened_toasts rest
  end.

End Download.

(* ================================================================== *)
(** ** pages/CompanyPortal.tsx: the two ways to upload *)
(* ================================================================== *)

Module Upload.
Import Eff Browser Portal.
Local Open Scope eff_scope.

(** A [File]: its name and its MIME type. *)
Record file : Type := File { file_name : string; file_type : string }.

(** The component state of [Portal], with the two cells the upload
    handlers use besides. *)
Record page : Type := Page {
  core : state;
  uploadedFile : option file;
  pasteJson : string
}.

Definition setArtifactId (v : option string) (s : state) : state :=
  State v (artifactHash s) (complianceStandard s) (analysisProgress s) (isAnalyzing s)
        (complianceScore s) (verificationStatus s) (statusData s) (shouldPoll s)
        (findings s) (controlsPassed s) (controlsFailed s) (oscalLinks s).

(** A property of the upload response stored in a state variable declared
    [string | null]: a string is stored as it is, an absent property
    reads as no value; other types fall outside the declaration. *)
Definition as_text (v : Js.value) : option string :=
  match v with Js.VStr x => Some x | _ => None end.

Section Handlers.
Variable BASE_URL : string.
Variable encodeURIComponent : string -> string.
Variable JSON_stringify : Js.value -> string.
(** [JSON.parse], which returns the value or throws a [SyntaxError]. *)
Variable JSON_parse : string -> result Js.value.

(** The statements that follow [await artifactsApi.upload(file)] in both
    handlers: the state after them, and the events or the [TypeError] of
    reading a property of [null] or of converting one to a string. *)
Definition uploaded (tag title : string) (res : Js.value) (s : state) : state * M unit :=
  match res with
  | Js.VNull | Js.VUndefined =>
      (s, throw (Exn "TypeError" "Cannot read properties of null"))
  | _ =>
      let s1 := setArtifactHash (as_text (Js.prop "artifact_hash" res))
                  (setArtifactId (as_text (Js.prop "artifact_id" res)) s) in
      (s1,
       emit (ConsoleDebug tag) ;;;
       match Js.toString (Js.prop "filename" res), Js.toString (Js.prop "type" res) with
       | Some name, Some kind => emit (Toast title (name ++ " • " ++ kind) false)
       | _, _ => throw ExportPdf.conversion_error
       end)
  end.

(** [await artifactsApi.upload(file)] and what follows it, inside the
    [try] whose [catch] shows [failure]. *)
Definition upload_and_store (f : file) (tag title failure : string)
    (env : call_env) (tag_failed : string) (pg : page) : page * list event :=
  let pg1 := Page (core pg) (Some f) (pasteJson pg) in
  match Api.perform BASE_URL encodeURIComponent JSON_stringify
          (Api.ArtifactsUpload (file_name f) None) env with
  | (t, Ok res) =>
      match uploaded tag title res (core pg1) with
      | (s1, (t', Ok _)) => (Page s1 (Some f) (pasteJson pg), (t ++ t')%list)
      | (s1, (t', Throw e)) =>
          (Page s1 (Some f) (pasteJson pg),
           (t ++ t' ++ [ConsoleError tag_failed []; Toast failure (show_exn e) true])%list)
      end
  | (t, Throw e) =>
      (pg1, (t ++ [ConsoleError tag_failed []; Toast failure (show_exn e) true])%list)
  end.

(** [handleFileUpload]; [chosen] is [event.target.files?.[0]]. *)
Definition handleFileUpload (chosen : option file) (env : call_env) (pg : page)
    : page * list event :=
  match chosen with
  | None => (pg, [])
  | Some f =>
      let '(pg', t) :=
        upload_and_store f "[ui] upload success" "Artifact parsed" "Upload failed"
                         env "[ui] upload failed" pg in
      (pg', (ConsoleDebug "[ui] file selected" :: t)%list)
  end.

(** [handlePasteUpload] *)
Definition handlePasteUpload (env : call_env) (pg : page) : page * list event :=
  if Text.blank (pasteJson pg)
  then (pg, [Toast "Empty input" "Paste a valid SBOM JSON first" true])
  else
    match JSON_parse (pasteJson pg) with
    | Throw e =>
        (pg, [ConsoleError "[ui] paste upload failed" [];
              Toast "Invalid JSON or upload failed" (show_exn e) true])
    | Ok obj =>
        let '(pg', t) :=
          upload_and_store (File "pasted-sbom.json" "application/json")
                           "[ui] paste upload success" "Artifact parsed (pasted JSON)"
                           "Invalid JSON or upload failed" env
                           "[ui] paste upload failed" pg in
        (pg', (ConsoleDebug "[ui] paste validated" :: t)%list)
    end.

End Handlers.

End Upload.

(* ================================================================== *)
(** ** pages/CompanyPortal.tsx: a session of the page *)
(* ================================================================== *)

Module Session.
Import Eff Browser Portal.

Definition setComplianceStandard (v : string) (s : state) : state :=
  State (artifactId s) (artifactHash s) v (analysisProgress s) (isAnalyzing s)
        (complianceScore s) (verificationStatus s) (statusData s) (shouldPoll s)
        (findings s) (controlsPassed s) (controlsFailed s) (oscalLinks s).

(** What changes the state of the page or makes it act, apart from the
    polling loop: the effect that loads the profiles on mount, and the
    handlers behind the file input, the text area, the profile list and
    the four buttons (switching between the two tabs touches no modelled
    state). A handler is taken to be callable in every state, also where
    its button is disabled or not rendered, and to run to its end before
    the next one starts. *)
Inductive action : Type :=
| LoadProfiles (env : call_env)
| ChooseFile (chosen : option Upload.file) (env : call_env)
| TypePaste (text : string)
| PasteUpload (env : call_env)
| SelectProfile (value : string)
| StartAnalysis (env : call_env)
| DownloadReports
| Export (date : string) (popup : bool).

(** Whether [res.profiles.map((p) => ({ id: p.id, name: p.name }))]
    returns: [res.profiles] is an array without [null] and [undefined]. *)
Definition mappable (res : Js.value) : bool :=
  match Js.prop "profiles" res with
  | Js.VArr l =>
      forallb (fun p => match p with
                        | Js.VNull | Js.VUndefined => false
                        | _ => true
                        end) l
  | _ => false
  end.

Section Page.
Variable BASE_URL : string.
Variable encodeURIComponent : string -> string.
Variable JSON_stringify : Js.value -> string.
Variable JSON_parse : string -> result Js.value.

(** The effect [artifactsApi.profiles().then(...).catch(...)]; the list
    of profiles it stores is not among the modelled state variables. *)
Definition load_profiles (env : call_env) : list event :=
  match Api.perform BASE_URL encodeURIComponent JSON_stringify Api.ArtifactsProfiles env with
  | (t, Ok res) =>
      (t ++ [if mappable res then ConsoleDebug "[ui] profiles loaded"
             else ConsoleError "[ui] profiles load failed" []])%list
  | (t, Throw _) => (t ++ [ConsoleError "[ui] profiles load failed" []])%list
  end.

Definition handle (a : action) (pg : Upload.page) : Upload.page * list event :=
  match a with
  | LoadProfiles env => (pg, load_profiles env)
  | ChooseFile chosen env =>
      Upload.handleFileUpload BASE_URL encodeURIComponent JSON_stringify chosen env pg
  | TypePaste text => (Upload.Page (Upload.core pg) (Upload.uploadedFile pg) text, [])
  | PasteUpload env =>
      Upload.handlePasteUpload BASE_URL encodeURIComponent JSON_stringify JSON_parse
                               env pg
  | SelectProfile value =>
      (Upload.Page (setComplianceStandard value (Upload.core pg))
                   (Upload.uploadedFile pg) (Upload.pasteJson pg),
       [ConsoleDebug "[ui] select profile"])
  | StartAnalysis env =>
      let '(s, t) := startAnalysis BASE_URL encodeURIComponent JSON_stringify
                       (Upload.core pg) env in
      (Upload.Page s (Upload.uploadedFile pg) (Upload.pasteJson pg), t)
  | DownloadReports => (pg, trace (Download.downloadOSCALReports (Upload.core pg)))
  | Export date popup => (pg, ExportPdf.exportPdf (Upload.core pg) date popup)
  end.

(** The page after the given actions, in their order, and what they
    made the browser do. The polling effect is run by React on the state
    of each render ([effect] of [Portal]); as long as it returns at its
    guard, the state changes by these actions only. *)
Fixpoint run (acts : list action) (pg : Upload.page) : Upload.page * list event :=
  match acts with
  | [] => (pg, [])
  | a :: rest =>
      let '(pg1, t1) := handle a pg in
      let '(pg2, t2) := run rest pg1 in
      (pg2, (t1 ++ t2)%list)
  end.

(** The requests of a trace that go to the status endpoint of
    [verificationApi.status]. *)
Definition status_requests (t : list event) : list request :=
  filter (fun rq => prefix (BASE_URL ++ "/api/v1/verification/status/") (rq_url rq))
         (fetches t).

End Page.

(** The page as it is mounted. *)
Definition mounted : Upload.page := Upload.Page initial None EmptyString.

End Session.

(* ================================================================== *)
(** ** pages/AuditorPortal.tsx *)
(* ================================================================== *)

Module Auditor.
Import Eff Browser.

(** An entry of [mockVerifications]. *)
Record verification : Type := Verification {
  id : string;
  controlId : string;
  recordHash : string;
  complianceScore : Z;
  recordStatus : string;
  timestamp : string;
  blockchainTx : string;
  oscalCid : string;
  profile : string
}.

Definition mockVerifications : list verification :=
  [Verification "1" "AC-3" "sha256:abc123..." 85 "verified" "2025-08-13T10:30:00Z"
                "ALG_TX_456789" "QmX1Y2Z3..." "NIST 800-53 Moderate";
   Verification "2" "SC-7" "sha256:def456..." 92 "verified" "2025-08-13T09:15:00Z"
                "ALG_TX_789123" "QmA4B5C6..." "NIST 800-53 High";
   Verification "3" "SI-4" "sha256:ghi789..." 67 "failed" "2025-08-12T16:45:00Z"
                "ALG_TX_321654" "QmD7E8F9..." "NIST 800-53 Moderate"].

Record form : Type := Form { statement : string; evidence_url : string }.

(** The [useState] cells of the component. [status], [reports] and
    [attestations] hold what the backend returned, or [null]. *)
Record state : Type := State {
  searchQuery : string;
  searchResults : list verification;
  artifactHash : string;
  status : Js.value;
  reports : Js.value;
  attestations : Js.value;
  attestForm : form
}.

Definition initial : state :=
  State EmptyString [] EmptyString Js.VNull Js.VNull Js.VNull
        (Form EmptyString EmptyString).

Definition setSearchResults (v : list verification) (s : state) : state :=
  State (searchQuery s) v (artifactHash s) (status s) (reports s) (attestations s)
        (attestForm s).

Definition setStatus (v : Js.value) (s : state) : state :=
  State (searchQuery s) (searchResults s) (artifactHash s) v (reports s)
        (attestations s) (attestForm s).

Definition setReports (v : Js.value) (s : state) : state :=
  State (searchQuery s) (searchResults s) (artifactHash s) (status s) v
        (attestations s) (attestForm s).

Definition setAttestations (v : Js.value) (s : state) : state :=
  State (searchQuery s) (searchResults s) (artifactHash s) (status s) (reports s)
        v (attestForm s).

Definition setAttestForm (v : form) (s : state) : state :=
  State (searchQuery s) (searchResults s) (artifactHash s) (status s) (reports s)
        (attestations s) v.

(** The predicate of the filter in [handleSearch]. *)
Definition found (query : string) (v : verification) : bool :=
  Js.includes (Js.toLowerCase (controlId v)) (Js.toLowerCase query)
  || Js.includes (recordHash v) (Js.toLowerCase query).

Section Handlers.
(** [String.prototype.trim], a function of the engine. *)
Variable trim : string -> string.

(** [!x.trim()] *)
Definition blank (x : string) : bool := negb (Js.nonempty (trim x)).

(** [handleSearch]. A toast without description has the empty one. *)
Definition handleSearch (s : state) : state * list event :=
  if blank (searchQuery s)
  then (s, [Toast "Search query required"
              "Please enter a control ID or artifact hash" true])
  else
    let filtered := filter (found (searchQuery s)) mockVerifications in
    (setSearchResults filtered s,
     [Toast "Search completed"
        ("Found " ++ Js.show_int (Z.of_nat (length filtered))
         ++ " verification record(s)") false]).

(** [a.items || []], which throws when [a] is [null] or [undefined]. *)
Definition items_or_empty (a : Js.value) : result Js.value :=
  match a with
  | Js.VNull | Js.VUndefined =>
      Throw (Exn "TypeError" "Cannot read properties of null")
  | _ => Ok (Js.or (Js.prop "items" a) (Js.VArr []))
  end.

Variable BASE_URL : string.
Variable encodeURIComponent : string -> string.
Variable JSON_stringify : Js.value -> string.

Local Abbreviation perform := (Api.perform BASE_URL encodeURIComponent JSON_stringify).

(** [handleLiveLookup]: three requests, each in a [try] of its own. *)
Definition handleLiveLookup (e1 e2 e3 : call_env) (s : state) : state * list event :=
  if blank (artifactHash s)
  then (s, [Toast "Artifact hash required" EmptyString true])
  else
    let h := trim (artifactHash s) in
    let '(t1, r1) := perform (Api.AuditorStatus h) e1 in
    let '(s1, x1) :=
      match r1 with
      | Ok v => (setStatus v s, [])
      | Throw e => (setStatus Js.VNull s,
                    [Toast "Status lookup failed" (show_exn e) true])
      end in
    let '(t2, r2) := perform (Api.AuditorReports h) e2 in
    let s2 := match r2 with
              | Ok v => setReports v s1
              | Throw _ => setReports Js.VNull s1
              end in
    let '(t3, r3) := perform (Api.AuditorListAttestations h) e3 in
    let s3 := match r3 with
              | Ok a => match items_or_empty a with
                        | Ok items => setAttestations items s2
                        | Throw _ => setAttestations (Js.VArr []) s2
                        end
              | Throw _ => setAttestations (Js.VArr []) s2
              end in
    (s3, (t1 ++ x1 ++ t2 ++ t3)%list).

(** The body of the attestation request. *)
Definition attestation (s : state) : Js.value :=
  Js.VObj [("artifact_hash", Js.VStr (trim (artifactHash s)));
           ("statement", Js.VStr (statement (attestForm s)));
           ("evidence_url", Js.VStr (evidence_url (attestForm s)))].

(** [submitAttestation]: the POST and the refresh of the list share one
    [try]. *)
Definition submitAttestation (e1 e2 : call_env) (s : state) : state * list event :=
  if blank (artifactHash s) || blank (statement (attestForm s))
  then (s, [Toast "Statement required" EmptyString true])
  else
    let '(t1, r1) := perform (Api.AuditorAttest (attestation s)) e1 in
    match r1 with
    | Throw e => (s, (t1 ++ [Toast "Submit failed" (show_exn e) true])%list)
    | Ok _ =>
        let s1 := setAttestForm (Form EmptyString EmptyString) s in
        let submitted := Toast "Attestation submitted" EmptyString false in
        let '(t2, r2) :=
          perform (Api.AuditorListAttestations (trim (artifactHash s))) e2 in
        match r2 with
        | Ok a =>
            match items_or_empty a with
            | Ok items => (setAttestations items s1, (t1 ++ submitted :: t2)%list)
            | Throw e =>
                (s1, (t1 ++ submitted :: t2
                      ++ [Toast "Submit failed" (show_exn e) true])%list)
            end
        | Throw e =>
            (s1, (t1 ++ submitted :: t2 ++ [Toast "Submit failed" (show_exn e) true])%list)
        end
    end.

End Handlers.

(** The titles of the toasts of a trace. *)
Fixpoint toast_titles (t : list event) : list string :=
  match t with
  | [] => []
  | Toast title _ _ :: rest => title :: toast_titles rest
  | _ :: rest => toast_titles rest
  end.

End Auditor.

(* ================================================================== *)
(** ** components/WalletConnect.tsx *)
(* ================================================================== *)

Module WalletConnect.

(** [formatAddress] *)
Definition formatAddress (addr : string) : string :=
  if negb (Js.nonempty addr) then EmptyString
  else Js.slice0 5 addr ++ "..." ++ Text.drop (String.length addr - 5) addr.

(** What the component renders: the shortened address with the
    disconnect button, or the connect button. *)
Inductive view : Type :=
| Account (label : string)
| ConnectButton.

(** [if (isConnected && activeAccount) ...] *)
Definition render (s : Wallet.session) : view :=
  match Wallet.activeAccount s with
  | Some a =>
      if Wallet.isConnected s && Js.nonempty a
      then Account (formatAddress a)
      else ConnectButton
  | None => ConnectButton
  end.

End WalletConnect.

(* ================================================================== *)
(** ** components/OnChainLinks.tsx *)
(* ================================================================== *)

Module OnChainLinks.

(** [registryAppId: number | string] *)
Inductive app_id : Type :=
| AppNumber (n : Z)
| AppName (s : string).

(** [`${registryAppId}`] *)
Definition show_app (a : app_id) : string :=
  match a with AppNumber n => Js.show_int n | AppName s => s end.

(** The properties of the component; [None] is a property that is
    [undefined] or [null]. *)
Record props : Type := Props {
  registryAppId : app_id;
  registryTxId : option string;
  oracleTxId : option string;
  artifactHash : string;
  oscalCid : option string;
  explorerBaseUrl : option string;
  ipfsGatewayBase : option string
}.

(** A parameter default, used when the property is [undefined]. *)
Definition default (d : string) (o : option string) : string :=
  match o with Some x => x | None => d end.

(** [x || undefined] and the truthiness test of an optional string. *)
Definition set (o : option string) : option string :=
  match o with
  | Some x => if Js.nonempty x then Some x else None
  | None => None
  end.

(** What [Item] renders next to its label. *)
Inductive row : Type :=
| Link (label value href : string)
| Plain (label value : string)
| Dash (label : string).

(** [Item]: [value ? (href ? <a> : <span>) : dash] *)
Definition Item (label : string) (value href : option string) : row :=
  match set value with
  | Some v => match set href with
              | Some h => Link label v h
              | None => Plain label v
              end
  | None => Dash label
  end.

Definition appUrl (p : props) : string :=
  default "https://testnet.explorer.perawallet.app" (explorerBaseUrl p)
  ++ "/application/" ++ show_app (registryAppId p).

(** [id ? `${explorerBaseUrl}/tx/${id}` : undefined] *)
Definition txUrl (p : props) (tx : option string) : option string :=
  match set tx with
  | Some t => Some (default "https://testnet.explorer.perawallet.app" (explorerBaseUrl p)
                    ++ "/tx/" ++ t)
  | None => None
  end.

Definition oscalUrl (p : props) : option string :=
  match set (oscalCid p) with
  | Some c => Some (default "https://gateway.pinata.cloud/ipfs" (ipfsGatewayBase p)
                    ++ "/" ++ c)
  | None => None
  end.

(** The five rows of the component. *)
Definition rows (p : props) : list row :=
  [Item "Registry App" (Some ("#" ++ show_app (registryAppId p))) (Some (appUrl p));
   Item "Registry Tx" (set (registryTxId p)) (txUrl p (registryTxId p));
   Item "Oracle Tx" (set (oracleTxId p)) (txUrl p (oracleTxId p));
   Item "Artifact Hash" (Some (artifactHash p)) (Some (appUrl p));
   Item "OSCAL (IPFS)" (set (oscalCid p)) (oscalUrl p)].

Definition is_plain (r : row) : bool :=
  match r with Plain _ _ => true | _ => false end.

Definition href_of (r : row) : option string :=
  match r with Link _ _ h => Some h | _ => None end.

End OnChainLinks.

(* ================================================================== *)
(** ** tests/run_smart_contract_e2e.sh *)
(* ================================================================== *)

Module RunnerE2E.
Import Runner.

(** A directory computed by [$(cd ... && pwd)]: its path, or the
    non-zero status with which the command substitution failed. *)
Inductive resolved : Type :=
| Dir (path : string)
| Unresolved (status : nat).

(** What the machine supplies to one execution. [PYTHONPATH] is the
    value inherited from the environment, if any. *)
Record env : Type := Env {
  SCRIPT_DIR : resolved;
  PROJECT_ROOT : resolved;
  PYTHONPATH : option string;
  TEST_EXIT_CODE : nat
}.

(** The commands of the script under [set -euo pipefail]: an assignment
    whose command substitution fails ends the script with that status,
    and the status of the script is otherwise that of its last command,
    the test. *)
Definition run_smart_contract_e2e (e : env) : list action :=
  match SCRIPT_DIR e with
  | Unresolved st => [Exit st]
  | Dir dir =>
      match PROJECT_ROOT e with
      | Unresolved st => [Exit st]
      | Dir root =>
          [ExportVar "PYTHONUNBUFFERED" "1";
           ExportVar "PYTHONPATH"
             (root ++ ":" ++ root ++ "/compliledger/backend:" ++ root
              ++ "/compliledger/contracts:"
              ++ match PYTHONPATH e with Some x => x | None => EmptyString end);
           Echo "[CompliLedger] Running Smart Contract E2E test...";
           Foreground ("python3 " ++ dir ++ "/test_e2e_smart_contract.py")
                      (TEST_EXIT_CODE e);
           Exit (TEST_EXIT_CODE e)]
      end
  end.

(** The commands run in the foreground. *)
Fixpoint foreground (t : list action) : list (string * nat) :=
  match t with
  | [] => []
  | Foreground c st :: rest => (c, st) :: foreground rest
  | _ :: rest => foreground rest
  end.

(** The variables exported by the script, with their values. *)
Fixpoint exported (t : list action) : list (string * string) :=
  match t with
  | [] => []
  | ExportVar name value :: rest => (name, value) :: exported rest
  | _ :: rest => exported rest
  end.

(** The lines printed by the script itself. *)
Fixpoint echoed (t : list action) : list string :=
  match t with
  | [] => []
  | Echo l :: rest => l :: echoed rest
  | _ :: rest => echoed rest
  end.

End RunnerE2E.

(* ================================================================== *)
(** ** Sample inputs *)
(* ================================================================== *)

Module Samples.
Import Eff Browser Portal.

Definition local : string := "http://localhost:8000".
Definition same (x : string) : string := x.
Definition braces (_ : Js.value) : string := "{}".
Definition no_json (_ : string) : result Js.value :=
  Throw (Exn "SyntaxError" "Unexpected token").
Definition down : call_env :=
  CallEnv 1 1 (FetchRejects (Exn "TypeError" "Failed to fetch")).
Definition unused : findings_env :=
  FindingsEnv (Throw (Exn "Error" "unused")) (Throw (Exn "Error" "unused")).
Definition submitted : state :=
  State (Some "a1") (Some "abc") "default" 100 false None (Some Pending)
        Js.VNull true [] None None Js.VNull.

Definition pending_answer : result Js.value :=
  Ok (Js.VObj [("status_code", Js.VNum 0); ("status", Js.VStr "pending")]).

End Samples.

(* ================================================================== *)
(** * Properties *)
(* ================================================================== *)

(** ** Strings *)

Module JsFacts.
Import Js.

Lemma prefix_app (x b : string) : prefix x (x ++ b) = true.
Proof.
  induction x as [|c x IH]; simpl.
  - destruct b; reflexivity.
  - destruct (ascii_dec c c); [exact IH | congruence].
Qed.

Lemma includes_here (x b : string) : includes (x ++ b) x = true.
Proof.
  destruct x as [|c x]; simpl.
  - destruct b; reflexivity.
  - destruct (ascii_dec c c); [| congruence].
    rewrite prefix_app. reflexivity.
Qed.

(** A string includes each of the pieces it is assembled from. *)
Lemma includes_app (a x b : string) : includes (a ++ x ++ b) x = true.
Proof.
  induction a as [|c a IH].
  - apply (includes_here x b).
  - change ((String c a) ++ x ++ b) with (String c (a ++ x ++ b)).
    cbn [includes]. rewrite IH. destruct (prefix x _); reflexivity.
Qed.

Lemma append_assoc (a b c : string) : (a ++ b) ++ c = a ++ (b ++ c).
Proof. induction a as [|x a IH]; simpl; [reflexivity | now rewrite IH]. Qed.

Lemma append_nil_r (a : string) : a ++ EmptyString = a.
Proof. induction a as [|x a IH]; simpl; [reflexivity | now rewrite IH]. Qed.

Lemma length_append (a b : string) :
  String.length (a ++ b) = String.length a + String.length b.
Proof. induction a as [|x a IH]; simpl; [reflexivity | now rewrite IH]. Qed.

Lemma slice0_length (n : nat) (s : string) : String.length (slice0 n s) <= n.
Proof.
  revert s; induction n as [|n IH]; intros [|c s]; simpl; try lia.
  specialize (IH s). lia.
Qed.

Lemma slice0_short (n : nat) (s : string) :
  String.length s <= n -> slice0 n s = s.
Proof.
  revert s; induction n as [|n IH]; intros [|c s]; simpl; intros H;
    try reflexivity; try lia.
  rewrite IH by lia. reflexivity.
Qed.

Lemma nonempty_length (s : string) : nonempty s = true <-> 0 < String.length s.
Proof. destruct s; simpl; split; intros; try lia; try discriminate; reflexivity. Qed.

End JsFacts.

(** ** The API client *)

Module ApiFacts.
Import Eff Browser Api.

Section Client.
Variable BASE_URL : string.
Variable encodeURIComponent : string -> string.
Variable JSON_stringify : Js.value -> string.

Lemma req_init_signal (ctl : nat) (i : option init) :
  signal_of i = None -> init_signal (req_init ctl i) = Some ctl.
Proof.
  destruct i as [[m h b sg]|]; simpl; intros H; [rewrite H|]; reflexivity.
Qed.

Lemma reqForm_init_signal (ctl : nat) (fd : form_data) (i : option init) :
  signal_of i = None -> init_signal (reqForm_init ctl fd i) = Some ctl.
Proof.
  destruct i as [[m h b sg]|]; simpl; intros H; [rewrite H|]; reflexivity.
Qed.

Ltac shape :=
  match goal with
  | |- exists mid rq, (_ :: ?l)%list = _ /\ _ =>
      exists (removelast l); eexists; cbn; repeat split; try reflexivity
  end.

Lemma req_guarded (path : string) (i : option init) (env : call_env) :
  signal_of i = None ->
  guarded 20000 (BASE_URL ++ path) env (trace (req BASE_URL path i env)).
Proof.
  intros Hsig. pose proof (req_init_signal (controller env) i Hsig) as Hs.
  unfold guarded, req, fetch, trace, finally, bind, emit, ret, throw, await.
  destruct env as [tm ctl [e|res]]; cbn in *.
  - shape; exact Hs.
  - destruct (ok res); cbn.
    + destruct (Js.includes _ _); cbn.
      * destruct (json res); cbn; shape; exact Hs.
      * destruct (text res); cbn; shape; exact Hs.
    + shape; exact Hs.
Qed.

Lemma reqForm_guarded (path : string) (fd : form_data) (i : option init)
    (env : call_env) :
  signal_of i = None ->
  guarded 30000 (BASE_URL ++ path) env (trace (reqForm BASE_URL path fd i env)).
Proof.
  intros Hsig. pose proof (reqForm_init_signal (controller env) fd i Hsig) as Hs.
  unfold guarded, reqForm, fetch, trace, finally, bind, emit, ret, throw, await.
  destruct env as [tm ctl [e|res]]; cbn in *.
  - shape; exact Hs.
  - destruct (ok res); cbn.
    + destruct (json res); cbn; shape; exact Hs.
    + shape; exact Hs.
Qed.

Lemma perform_guarded (op : operation) (env : call_env) :
  exists url,
    guarded (if multipart op then 30000 else 20000)%Z url env
            (trace (perform BASE_URL encodeURIComponent JSON_stringify op env)).
Proof.
  destruct op; cbn [multipart perform];
    eexists; (apply req_guarded || apply reqForm_guarded); reflexivity.
Qed.

(** C5. Every operation of the client arms, before anything else, a
    timer of exactly 20000 ms (JSON operations) or 30000 ms (multipart
    operations) whose callback aborts the controller whose signal the one
    request of the call carries; whatever the request does (rejects, answers
    with an error status, answers with an unreadable body, succeeds), the
    last event of the call clears that timer, and no other timer is set
    or cleared in between. *)
Theorem client_timeout_armed_and_cleared (op : operation) (env : call_env) :
  let t := trace (perform BASE_URL encodeURIComponent JSON_stringify op env) in
  let ms := (if multipart op then 30000 else 20000)%Z in
  hd_error t = Some (SetTimeout (timer env) (Abort (controller env)) ms)
  /\ last t (ConsoleDebug EmptyString) = ClearTimeout (timer env)
  /\ filter is_timer t
     = [SetTimeout (timer env) (Abort (controller env)) ms; ClearTimeout (timer env)]
  /\ exists rq, fetches t = [rq] /\ init_signal (rq_init rq) = Some (controller env).
Proof.
  cbv zeta. destruct (perform_guarded op env) as (url & mid & rq & Ht & Htm & Hf & _ & Hs).
  rewrite Ht. repeat split.
  - rewrite app_comm_cons. apply last_last.
  - cbn [filter is_timer]. rewrite filter_app, Htm. reflexivity.
  - exists rq. split; [| exact Hs].
    cbn [fetches]. clear - Hf. revert Hf. generalize [rq].
    induction mid as [|ev mid IH]; intros l Hf.
    + cbn in *. exact Hf.
    + destruct ev; cbn in *; try (apply IH; exact Hf).
      destruct l as [|x l]; [discriminate|]. injection Hf as -> Hf.
      f_equal. apply IH. exact Hf.
Qed.

(** The message of the error that [req] and [reqForm] throw for a
    response outside 200..299, and the body field of the error they log. *)
Lemma req_error (path : string) (i : option init) (env : call_env) (res : response) :
  net env = FetchResolves res -> ok res = false ->
  outcome (req BASE_URL path i env)
  = Throw (Exn "Error" (error_message res (text_or_empty res)))
  /\ exists f, errors_logged (trace (req BASE_URL path i env)) = [f]
             /\ member "body" f = Some (Js.slice0 500 (text_or_empty res)).
Proof.
  intros Hnet Hok. destruct env as [tm ctl o]; cbn in Hnet; subst o.
  unfold req, fetch, trace, outcome, finally, bind, emit, ret, throw. cbn.
  rewrite Hok; cbn. split; [reflexivity|]. eexists; split; reflexivity.
Qed.

Lemma reqForm_error (path : string) (fd : form_data) (i : option init)
    (env : call_env) (res : response) :
  net env = FetchResolves res -> ok res = false ->
  outcome (reqForm BASE_URL path fd i env)
  = Throw (Exn "Error" (error_message res (text_or_empty res)))
  /\ exists f, errors_logged (trace (reqForm BASE_URL path fd i env)) = [f]
             /\ member "body" f = Some (Js.slice0 500 (text_or_empty res)).
Proof.
  intros Hnet Hok. destruct env as [tm ctl o]; cbn in Hnet; subst o.
  unfold reqForm, fetch, trace, outcome, finally, bind, emit, ret, throw. cbn.
  rewrite Hok; cbn. split; [reflexivity|]. eexists; split; reflexivity.
Qed.

Lemma not_2xx (res : response) :
  ~ (200 <= status res <= 299)%Z -> ok res = false.
Proof. unfold ok. intros H. apply andb_false_iff. lia. Qed.

(** C4, as the code has it. For every response whose status is outside
    200..299, [req] and [reqForm] throw an [Error] whose message is the
    decimal status code, a space, the status text and, when the body is
    not empty, a colon, a space and the whole body (a body that cannot be
    read counts as empty); what is cut to at most 500 characters is the
    body field of the error entry written to the console. *)
Theorem non_2xx_throws_whole_body (path : string) (fd : form_data)
    (i : option init) (env : call_env) (res : response) :
  net env = FetchResolves res ->
  ~ (200 <= status res <= 299)%Z ->
  let txt := text_or_empty res in
  let msg := Js.show_int (status res) ++ " " ++ statusText res
             ++ (if Js.nonempty txt then ": " ++ txt else EmptyString) in
  let logged := Js.slice0 500 txt in
  outcome (req BASE_URL path i env) = Throw (Exn "Error" msg)
  /\ outcome (reqForm BASE_URL path fd i env) = Throw (Exn "Error" msg)
  /\ (exists f, errors_logged (trace (req BASE_URL path i env)) = [f]
                /\ member "body" f = Some logged)
  /\ (exists f, errors_logged (trace (reqForm BASE_URL path fd i env)) = [f]
                /\ member "body" f = Some logged)
  /\ String.length logged <= 500.
Proof.
  intros Hnet Hst. apply not_2xx in Hst. cbv zeta.
  destruct (req_error path i env res Hnet Hst) as [H1 H2].
  destruct (reqForm_error path fd i env res Hnet Hst) as [H3 H4].
  repeat split; try assumption. apply JsFacts.slice0_length.
Qed.

(** The sibling path of the portal's submission: [verificationApi.submit]
    posts the three fields as multipart form data. *)
Lemma submit_posts_form (a p w : string) (env : call_env) :
  fetches (trace (call_verificationApi BASE_URL encodeURIComponent JSON_stringify
                    "submit" [a; p; w] env))
  = [Request (BASE_URL ++ "/api/v1/verification/submit")
       (Init (Some "POST") None
             (Some (BodyForm [("artifact_id", FormText a);
                              ("profile_id", FormText p);
                              ("wallet_address", FormText w)]))
             (Some (controller env)))].
Proof.
  unfold call_verificationApi; cbn [member verificationApi String.eqb].
  cbn. unfold reqForm, fetch, trace, finally, bind, emit, ret, throw, await.
  destruct env as [tm ctl [e|res]]; cbn; [reflexivity|].
  destruct (ok res); cbn; [destruct (json res)|]; reflexivity.
Qed.

End Client.

(** C5 on a status poll that the 20 s timer aborts: the timer was armed
    first and is cleared last. *)
Lemma client_timeout_armed_and_cleared_witness :
  let aborted := CallEnv 4 2 (FetchRejects (Exn "AbortError" "The operation was aborted.")) in
  let t := trace (perform "http://localhost:8000" (fun x => x) (fun _ => "{}")
                    (VerificationStatus "abc") aborted) in
  hd_error t = Some (SetTimeout 4 (Abort 2) 20000)
  /\ last t (ConsoleDebug EmptyString) = ClearTimeout 4.
Proof.
  cbv zeta.
  pose proof (client_timeout_armed_and_cleared "http://localhost:8000"
                (fun x => x) (fun _ => "{}") (VerificationStatus "abc")
                (CallEnv 4 2 (FetchRejects
                   (Exn "AbortError" "The operation was aborted."))))
    as (Hfirst & Hlast & _).
  split; [exact Hfirst | exact Hlast].
Defined.

(** C4, the claim as written fails: a 501-character body of a 500
    response is carried whole by the thrown error, not cut to 500. *)
Lemma thrown_error_not_truncated :
  let body := string_of_list_ascii (repeat "x"%char 501) in
  let res := Response 500 "Internal Server Error" None (Ok body) (Throw (Exn "SyntaxError" EmptyString)) in
  let env := CallEnv 1 1 (FetchResolves res) in
  let thrown := outcome (req "http://localhost:8000" "/api/v1/artifacts/" None env) in
  String.length body = 501
  /\ thrown = Throw (Exn "Error" ("500 Internal Server Error: " ++ body))
  /\ thrown <> Throw (Exn "Error" ("500 Internal Server Error: " ++ Js.slice0 500 body))
  /\ outcome (reqForm "http://localhost:8000" "/api/v1/artifacts/upload" [] None env)
     = thrown.
Proof.
  cbv zeta. repeat split; try (vm_compute; reflexivity).
  vm_compute. discriminate.
Qed.

(** The amended C4 at a concrete response. *)
Lemma non_2xx_throws_whole_body_witness :
  let res := Response 404 "Not Found" None (Ok "missing") (Throw (Exn "SyntaxError" "bad")) in
  let env := CallEnv 7 3 (FetchResolves res) in
  outcome (req "http://localhost:8000" "/api/v1/artifacts/" None env)
  = Throw (Exn "Error" "404 Not Found: missing").
Proof.
  cbv zeta.
  refine (proj1 (non_2xx_throws_whole_body "http://localhost:8000"
                   "/api/v1/artifacts/" [] None
                   (CallEnv 7 3 (FetchResolves
                      (Response 404 "Not Found" None (Ok "missing")
                                (Throw (Exn "SyntaxError" "bad")))))
                   (Response 404 "Not Found" None (Ok "missing")
                             (Throw (Exn "SyntaxError" "bad"))) _ _)).
  - reflexivity.
  - cbn. lia.
Defined.

End ApiFacts.

(** ** The company portal: submission and polling *)

Module PortalFacts.
Import Eff Browser Portal.

(** *** Submission *)

Section Submission.
Variable BASE_URL : string.
Variable encodeURIComponent : string -> string.
Variable JSON_stringify : Js.value -> string.

Local Abbreviation startAnalysis :=
  (Portal.startAnalysis BASE_URL encodeURIComponent JSON_stringify).

Lemma submitByArtifact_undefined :
  Api.member "submitByArtifact" Api.verificationApi = None.
Proof. reflexivity. Qed.

(** C1, what the code does instead. [startAnalysis] never hands a
    request to [fetch] and never switches polling on: with an artifact
    id and a profile, the call of [verificationApi.submitByArtifact], a
    property that the client does not define, throws before anything is
    sent, and the [catch] block marks the run failed and reports the
    [TypeError]. *)
Theorem startAnalysis_never_submits (s : state) (env : call_env) :
  fetches (snd (startAnalysis s env)) = []
  /\ shouldPoll (fst (startAnalysis s env)) = shouldPoll s
  /\ artifactHash (fst (startAnalysis s env)) = artifactHash s
  /\ forall aid,
       artifactId s = Some aid ->
       Js.nonempty aid = true ->
       Js.nonempty (complianceStandard s) = true ->
       verificationStatus (fst (startAnalysis s env)) = Some Failed
       /\ isAnalyzing (fst (startAnalysis s env)) = false
       /\ In (Toast "Verification failed"
                "TypeError: verificationApi.submitByArtifact is not a function" true)
             (snd (startAnalysis s env)).
Proof.
  unfold Portal.startAnalysis.
  destruct (artifactId s) as [aid|] eqn:Ha; cbn.
  - destruct (Js.nonempty aid) eqn:Hn; cbn.
    + destruct (Js.nonempty (complianceStandard s)) eqn:Hc; cbn.
      * split; [reflexivity | split; [reflexivity | split; [reflexivity |]]].
        intros aid' _ _ _. split; [reflexivity | split; [reflexivity |]].
        cbn. tauto.
      * split; [reflexivity | split; [reflexivity | split; [reflexivity |]]].
        intros ? _ _ [=].
    + split; [reflexivity | split; [reflexivity | split; [reflexivity |]]].
      intros ? [= <-] H. congruence.
  - split; [reflexivity | split; [reflexivity | split; [reflexivity |]]].
    intros ? [=].
Qed.

End Submission.

(** C1 at an uploaded artifact ["a1"] with the profile ["default"], the
    backend being ready to answer 200: nothing is sent, the run is marked
    failed, and the polling effect does not start. *)
Lemma startAnalysis_never_submits_witness :
  let s := State (Some "a1") (Some "h1") "default" 0 false None None Js.VNull
                 false [] None None Js.VNull in
  let env := CallEnv 1 1 (FetchResolves
               (Response 200 "OK" (Some "application/json") (Ok "{}")
                         (Ok (Js.VObj [("artifact_hash", Js.VStr "h1")])))) in
  let r := Portal.startAnalysis "http://localhost:8000" (fun x => x)
             (fun _ => "{}") s env in
  fetches (snd r) = []
  /\ verificationStatus (fst r) = Some Failed
  /\ effect 0 None 1 (fst r) = None.
Proof.
  cbv zeta.
  pose proof (startAnalysis_never_submits "http://localhost:8000" (fun x => x)
                (fun _ => "{}")
                (State (Some "a1") (Some "h1") "default" 0 false None None Js.VNull
                       false [] None None Js.VNull)
                (CallEnv 1 1 (FetchResolves
                   (Response 200 "OK" (Some "application/json") (Ok "{}")
                             (Ok (Js.VObj [("artifact_hash", Js.VStr "h1")]))))))
    as (Hf & Hp & Hh & Hrun).
  destruct (Hrun "a1" eq_refl eq_refl eq_refl) as (Hv & _ & _).
  split; [exact Hf | split; [exact Hv | reflexivity]].
Defined.

(** *** Polling *)

Lemma run_cons (cl : closure) (p : poller) (i : input) (rest : list input) :
  run cl p (i :: rest)
  = (fst (run cl (fst (step cl p i)) rest),
     (snd (step cl p i) ++ snd (run cl (fst (step cl p i)) rest))%list).
Proof.
  cbn [run]. destruct (step cl p i) as [p1 l1].
  cbn [fst snd]. destruct (run cl p1 rest) as [p2 l2]. reflexivity.
Qed.

Lemma run_app (cl : closure) (p : poller) (xs ys : list input) :
  run cl p (xs ++ ys)%list
  = (fst (run cl (fst (run cl p xs)) ys),
     (snd (run cl p xs) ++ snd (run cl (fst (run cl p xs)) ys))%list).
Proof.
  revert p; induction xs as [|x xs IH]; intros p.
  - cbn. destruct (run cl p ys); reflexivity.
  - cbn [app]. rewrite !run_cons, IH. cbn [fst snd]. now rewrite app_assoc.
Qed.

Lemma request_times_app (a b : log) :
  request_times (a ++ b)%list = (request_times a ++ request_times b)%list.
Proof.
  induction a as [|[t e] a IH]; [reflexivity|].
  destruct e; cbn; rewrite IH; reflexivity.
Qed.

Lemma delays_app (a b : log) :
  delays (a ++ b)%list = (delays a ++ delays b)%list.
Proof.
  induction a as [|[t e] a IH]; [reflexivity|].
  destruct e; cbn; rewrite IH; reflexivity.
Qed.

(** Once nothing is scheduled and the stored id is cleared, no input
    makes the loop do anything. *)
Lemma idle_run (cl : closure) (p : poller) (inputs : list input) :
  stage p = Idle -> pollingRef p = None -> run cl p inputs = (p, []).
Proof.
  intros Hs Hr. induction inputs as [|i rest IH]; [reflexivity|].
  rewrite run_cons.
  assert (Hstep : step cl p i = (p, [])).
  { unfold step, clear_ref. rewrite Hs, Hr. destruct i; reflexivity. }
  rewrite Hstep. cbn [fst snd]. rewrite IH. reflexivity.
Qed.

Lemma clear_ref_spec (p : poller) :
  pollingRef (fst (clear_ref p)) = None
  /\ view (fst (clear_ref p)) = view p
  /\ now (fst (clear_ref p)) = now p
  /\ attempts (fst (clear_ref p)) = attempts p
  /\ request_times (snd (clear_ref p)) = [].
Proof.
  unfold clear_ref. destruct (pollingRef p) eqn:H; cbn; auto.
Qed.

(** The early [return] of [tick]: the stored timeout is cleared, polling
    is switched off, and the loop is left with nothing scheduled. *)
Lemma tick_resume_stops (cl : closure) (s : Js.value) (fenv : findings_env)
    (p : poller) :
  stops cl (Ok s) = true ->
  stage (fst (tick_resume cl (Ok s) fenv p)) = Idle
  /\ pollingRef (fst (tick_resume cl (Ok s) fenv p)) = None
  /\ request_times (snd (tick_resume cl (Ok s) fenv p)) = [].
Proof.
  unfold stops, tick_resume. destruct (status_text s) as [text|]; [|discriminate].
  intros ->.
  pose proof (clear_ref_spec
                (with_view (setVerificationStatus
                              (Some (normalize (status_code s) text))
                              (setStatusData s (view p))) p)) as (Hr & _ & _ & _ & Hl).
  destruct (clear_ref _) as [p1 l1]. cbn [fst snd] in *.
  repeat split; try assumption.
  rewrite request_times_app, Hl. reflexivity.
Qed.

(** A response whose status code is 1 or 2 ends the loop: whatever
    happens afterwards, no status request leaves any more. *)
Lemma terminal_code_stops (cl : closure) (p : poller) (latency : Z)
    (s : Js.value) (text : string) (fenv : findings_env) (inputs : list input) :
  stage p = Awaiting ->
  status_text s = Some text ->
  code_is 1 (status_code s) || code_is 2 (status_code s) = true ->
  request_times (snd (run cl p (Settles latency (Ok s) fenv :: inputs))) = [].
Proof.
  intros Hst Htext Hcode.
  assert (Hstop : stops cl (Ok s) = true).
  { unfold stops, terminal. rewrite Htext.
    apply orb_true_iff in Hcode. destruct Hcode as [-> | ->];
      rewrite ?orb_true_r; reflexivity. }
  rewrite run_cons. unfold step at 1 2 3. rewrite Hst.
  destruct (tick_resume_stops cl s fenv (advance latency p) Hstop) as (Hi & Hr & Hl).
  rewrite (idle_run cl _ inputs Hi Hr). cbn [fst snd].
  rewrite app_nil_r. exact Hl.
Qed.

(** The cleanup of the effect (navigation away, or a change of its
    dependencies) while a timeout is pending: the timeout is cleared and
    no status request leaves any more. *)
Lemma cleanup_armed_stops (cl : closure) (p : poller) (id : nat) (ms : Z)
    (inputs : list input) :
  stage p = Armed id ms -> pollingRef p = Some id ->
  request_times (snd (run cl p (Cleanup :: inputs))) = [].
Proof.
  intros Hst Hr. rewrite run_cons. unfold step, clear_ref.
  rewrite Hst, Hr, Nat.eqb_refl. cbn [fst snd].
  rewrite idle_run by reflexivity. reflexivity.
Qed.

(** What [tick] would do with a status text alone. In a loop started
    from a state with polling on, a state that no session of the page
    reaches (see [SessionFacts]), whose closure captured ['pending'],
    an answer with the status text ["verified"] and no numeric code
    turns the badge to ['verified'], yet polling stays on and a further
    status request leaves after each of the two answers. *)
Example text_only_terminal_keeps_polling :
  let s := State (Some "a1") (Some "abc") "default" 100 false None (Some Pending)
                 Js.VNull true [] None None Js.VNull in
  let answer := Ok (Js.VObj [("status", Js.VStr "verified")]) in
  let unused := FindingsEnv (Throw (Exn "Error" "unused")) (Throw (Exn "Error" "unused")) in
  exists cl p0 l0,
    effect 0 None 1 s = Some (cl, p0, l0)
    /\ c_verificationStatus cl = Some Pending
    /\ verificationStatus (view (fst (run cl p0 [Settles 100 answer unused]))) = Some Verified
    /\ shouldPoll (view (fst (run cl p0 [Settles 100 answer unused]))) = true
    /\ request_times
         (snd (run cl p0 [Settles 100 answer unused; TimerFires;
                          Settles 100 answer unused; TimerFires]))
       = [3100; 6200]%Z.
Proof.
  cbv zeta. eexists _, _, _. split; [reflexivity|].
  repeat split; vm_compute; reflexivity.
Qed.

(** The cleanup of the effect while a status request is in flight clears
    nothing that is pending: when the answer arrives, [tick] sets a new
    timeout and the loop goes on. *)
Example cleanup_in_flight_goes_on :
  let cl := Closure "abc" (Some Pending) in
  let p := Poller 0 0 None Awaiting 1 initial in
  let answer := Ok (Js.VObj [("status_code", Js.VNum 0); ("status", Js.VStr "pending")]) in
  let unused := FindingsEnv (Throw (Exn "Error" "unused")) (Throw (Exn "Error" "unused")) in
  request_times (snd (run cl p [Cleanup; Settles 100 answer unused; TimerFires]))
  = [3100]%Z.
Proof. vm_compute. reflexivity. Qed.

Lemma tick_resume_continues (cl : closure) (r : result Js.value)
    (fenv : findings_env) (p : poller) :
  stops cl r = false ->
  exists v, tick_resume cl r fenv p = reschedule (with_view v p).
Proof.
  unfold stops, tick_resume. destruct r as [s|e].
  - destruct (status_text s) as [text|].
    + intros ->. eexists; reflexivity.
    + intros _. eexists; reflexivity.
  - intros _. exists (view p). destruct p; reflexivity.
Qed.

(** One answer that does not stop the loop, followed by the expiry of
    the timeout it sets. *)
Lemma round (cl : closure) (p : poller) (latency : Z) (r : result Js.value)
    (fenv : findings_env) :
  stage p = Awaiting -> stops cl r = false ->
  let ms := backoff (S (attempts p)) in
  let q := run cl p [Settles latency r fenv; TimerFires] in
  stage (fst q) = Awaiting
  /\ attempts (fst q) = S (attempts p)
  /\ now (fst q) = (now p + latency + ms)%Z
  /\ request_times (snd q) = [(now p + latency + ms)%Z]
  /\ delays (snd q) = [ms].
Proof.
  intros Hst Hgo. cbv zeta.
  destruct (tick_resume_continues cl r fenv (advance latency p) Hgo) as [v Hv].
  assert (Hstep : step cl p (Settles latency r fenv)
                  = reschedule (with_view v (advance latency p))).
  { unfold step. rewrite Hst. exact Hv. }
  rewrite !run_cons, Hstep. cbn. repeat split; reflexivity.
Qed.

Lemma run_answers (cl : closure) (rs : list (Z * result Js.value * findings_env)) :
  forall p,
    stage p = Awaiting ->
    Forall (fun x => stops cl (snd (fst x)) = false) rs ->
    stage (fst (run cl p (answers rs))) = Awaiting
    /\ request_times (snd (run cl p (answers rs)))
       = spec_following (S (attempts p)) (now p) (map (fun x => fst (fst x)) rs)
    /\ delays (snd (run cl p (answers rs)))
       = map backoff (seq (S (attempts p)) (length rs)).
Proof.
  induction rs as [|[[latency r] fenv] rs IH]; intros p Hst Hall.
  - cbn. auto.
  - inversion Hall as [|x xs Hr Hrs]; subst. cbn [fst snd] in Hr.
    change (answers ((latency, r, fenv) :: rs))
      with ([Settles latency r fenv; TimerFires] ++ answers rs)%list.
    rewrite run_app. cbn [fst snd].
    destruct (round cl p latency r fenv Hst Hr) as (Hs1 & Ha1 & Hn1 & Ht1 & Hd1).
    destruct (IH _ Hs1 Hrs) as (Hs2 & Ht2 & Hd2).
    rewrite request_times_app, delays_app, Ht1, Hd1, Ht2, Hd2, Ha1, Hn1.
    split; [exact Hs2|]. split; reflexivity.
Qed.

Lemma effect_starts (t0 : Z) (ref : option nat) (next : nat) (s : state)
    (cl : closure) (p0 : poller) (l0 : log) :
  effect t0 ref next s = Some (cl, p0, l0) ->
  stage p0 = Awaiting /\ attempts p0 = 0 /\ now p0 = t0
  /\ request_times l0 = [t0] /\ delays l0 = []
  /\ artifactHash s = Some (c_artifactHash cl)
  /\ c_verificationStatus cl = verificationStatus s.
Proof.
  unfold effect. destruct (artifactHash s) as [h|]; [|discriminate].
  destruct (negb (Js.nonempty h) || negb (shouldPoll s)); [discriminate|].
  unfold clear_ref; cbn. destruct ref as [id|]; cbn; intros [= <- <- <-]; cbn; auto 10.
Qed.

(** C3. In every run of the polling effect in which no answer makes
    [tick] return early, the first status request leaves at the moment
    the effect runs, and the request that follows the [n]-th one leaves
    3000 ms after the [n]-th was answered for [n <= 3] and 8000 ms after
    it for [n > 3]: the times of the requests are those of the
    specified schedule, and the timeouts set are three of 3000 ms
    followed by timeouts of 8000 ms. *)
Theorem polling_follows_schedule (t0 : Z) (ref : option nat) (next : nat)
    (s : state) (cl : closure) (p0 : poller) (l0 : log)
    (rs : list (Z * result Js.value * findings_env)) :
  effect t0 ref next s = Some (cl, p0, l0) ->
  Forall (fun x => stops cl (snd (fst x)) = false) rs ->
  request_times (l0 ++ snd (run cl p0 (answers rs)))%list
  = spec_schedule t0 (map (fun x => fst (fst x)) rs)
  /\ delays (l0 ++ snd (run cl p0 (answers rs)))%list
     = map (fun n => if (n <=? 3)%nat then 3000%Z else 8000%Z) (seq 1 (length rs)).
Proof.
  intros Heff Hall.
  destruct (effect_starts _ _ _ _ _ _ _ Heff) as (Hst & Ha & Hn & Ht & Hd & _).
  destruct (run_answers cl rs p0 Hst Hall) as (_ & Ht' & Hd').
  rewrite request_times_app, delays_app, Ht, Hd, Ht', Hd', Ha, Hn.
  split; reflexivity.
Qed.

(** C3 on a run of five answers (two of them failures), each taking
    10 ms: requests leave at 0, 3010, 6020, 9030, 17040 and 25050 ms. *)
Lemma polling_follows_schedule_witness :
  let s := State (Some "a1") (Some "abc") "default" 100 false None (Some Pending)
                 Js.VNull true [] None None Js.VNull in
  let pending := Ok (Js.VObj [("status_code", Js.VNum 0); ("status", Js.VStr "pending")]) in
  let failure := Throw (Exn "TypeError" "Failed to fetch") in
  let unused := FindingsEnv (Throw (Exn "Error" "unused")) (Throw (Exn "Error" "unused")) in
  let rs := [(10%Z, pending, unused); (10%Z, failure, unused); (10%Z, pending, unused);
             (10%Z, failure, unused); (10%Z, pending, unused)] in
  let cl := Closure "abc" (Some Pending) in
  let p0 := Poller 0 0 None Awaiting 1 s in
  let l0 := [(0%Z, StatusRequest "abc")] in
  effect 0 None 1 s = Some (cl, p0, l0)
  /\ request_times (l0 ++ snd (run cl p0 (answers rs)))%list
     = [0; 3010; 6020; 9030; 17040; 25050]%Z.
Proof.
  cbv zeta. split; [reflexivity|].
  refine (eq_trans
            (proj1 (polling_follows_schedule 0 None 1
                      (State (Some "a1") (Some "abc") "default" 100 false None
                             (Some Pending) Js.VNull true [] None None Js.VNull)
                      (Closure "abc" (Some Pending))
                      (Poller 0 0 None Awaiting 1
                         (State (Some "a1") (Some "abc") "default" 100 false None
                                (Some Pending) Js.VNull true [] None None Js.VNull))
                      [(0%Z, StatusRequest "abc")] _ eq_refl _)) _).
  - repeat constructor.
  - reflexivity.
Defined.

Section StatusCall.
Variable BASE_URL : string.
Variable encodeURIComponent : string -> string.
Variable JSON_stringify : Js.value -> string.

(** A status request that is rejected by the network, or answered with
    a status outside 200..299, makes [verificationApi.status] throw. *)
Lemma status_call_fails (h : string) (env : call_env) :
  (forall e, net env = FetchRejects e ->
     outcome (Api.call_verificationApi BASE_URL encodeURIComponent JSON_stringify
                "status" [h] env) = Throw e)
  /\ (forall res, net env = FetchResolves res -> ok res = false ->
       exists e,
         outcome (Api.call_verificationApi BASE_URL encodeURIComponent JSON_stringify
                    "status" [h] env) = Throw e).
Proof.
  split.
  - intros e Hnet. destruct env as [tm ctl o]; cbn in Hnet; subst o. reflexivity.
  - intros res Hnet Hok. eexists.
    exact (proj1 (ApiFacts.req_error BASE_URL _ None env res Hnet Hok)).
Qed.

(** C9. When the status request of a poll fails, so that the awaited
    call throws, the error is swallowed: no state variable of the
    component changes (in particular the displayed status is kept and the
    run is not marked failed), the attempt counter is incremented, and
    the next poll is scheduled with the delay the backoff gives for the
    new count; when that timeout expires the next status request
    leaves. *)
Theorem failed_poll_is_swallowed (cl : closure) (p : poller) (latency : Z)
    (env : call_env) (e : exn) (fenv : findings_env) :
  stage p = Awaiting ->
  outcome (Api.call_verificationApi BASE_URL encodeURIComponent JSON_stringify
             "status" [c_artifactHash cl] env) = Throw e ->
  let r := step cl p
             (Settles latency
                (outcome (Api.call_verificationApi BASE_URL encodeURIComponent
                            JSON_stringify "status" [c_artifactHash cl] env))
                fenv) in
  let ms := (if (S (attempts p) <=? 3)%nat then 3000 else 8000)%Z in
  view (fst r) = view p
  /\ attempts (fst r) = S (attempts p)
  /\ stage (fst r) = Armed (fresh p) ms
  /\ pollingRef (fst r) = Some (fresh p)
  /\ snd r = [((now p + latency)%Z, TimeoutSet (fresh p) ms)]
  /\ request_times (snd (step cl (fst r) TimerFires)) = [(now p + latency + ms)%Z].
Proof.
  intros Hst Hthrow. cbv zeta. rewrite Hthrow. unfold step. rewrite Hst.
  cbn. repeat split; reflexivity.
Qed.

End StatusCall.

(** C9 at the second poll of a pending run, the network being down. *)
Lemma failed_poll_is_swallowed_witness :
  let cl := Closure "abc" (Some Pending) in
  let s := State (Some "a1") (Some "abc") "default" 100 false None (Some Pending)
                 Js.VNull true [] None None Js.VNull in
  let p := Poller 3050 1 (Some 1) Awaiting 2 s in
  let env := CallEnv 9 9 (FetchRejects (Exn "TypeError" "Failed to fetch")) in
  let r := step cl p
             (Settles 20
                (outcome (Api.call_verificationApi "http://localhost:8000"
                            (fun x => x) (fun _ => "{}") "status" ["abc"] env))
                (FindingsEnv (Throw (Exn "Error" "unused")) (Throw (Exn "Error" "unused")))) in
  view (fst r) = s /\ stage (fst r) = Armed 2 3000.
Proof.
  cbv zeta.
  pose proof (failed_poll_is_swallowed "http://localhost:8000" (fun x => x)
                (fun _ => "{}")
                (Closure "abc" (Some Pending))
                (Poller 3050 1 (Some 1) Awaiting 2
                   (State (Some "a1") (Some "abc") "default" 100 false None
                          (Some Pending) Js.VNull true [] None None Js.VNull))
                20
                (CallEnv 9 9 (FetchRejects (Exn "TypeError" "Failed to fetch")))
                (Exn "TypeError" "Failed to fetch")
                (FindingsEnv (Throw (Exn "Error" "unused")) (Throw (Exn "Error" "unused")))
                eq_refl eq_refl) as (Hv & _ & Hs & _).
  split; [exact Hv | exact Hs].
Defined.

End PortalFacts.

(** ** The wallet hook *)

Module WalletFacts.
Import Wallet.

Lemma isConnected_iff (s : session) :
  isConnected s = true <-> exists a, activeAccount s = Some a /\ a <> EmptyString.
Proof.
  unfold isConnected. destruct (activeAccount s) as [[|c rest]|]; cbn; split.
  - discriminate.
  - intros (a & [= <-] & H). congruence.
  - intros _. eexists; split; [reflexivity | discriminate].
  - reflexivity.
  - discriminate.
  - intros (a & [=] & _).
Qed.

Lemma restore_preserves (r : settled (list string)) (p c : bool) (s : session) :
  active_is_first s -> active_is_first (fst (restore r p c s)).
Proof.
  intros H. unfold restore. destruct r as [[|first rest]|sc]; cbn; try exact H.
  destruct p; cbn; [|exact H]. intros a [= <-]. reflexivity.
Qed.

Lemma disconnect_preserves (r : settled unit) (s : session) :
  active_is_first s -> active_is_first (fst (handleDisconnect r s)).
Proof.
  intros H. destruct r as [u|sc]; cbn; [|exact H]. intros a [=].
Qed.

Lemma connect_preserves (r : settled (list string)) (c : bool) (s : session) :
  active_is_first s ->
  r <> Resolved [] \/ activeAccount s = None ->
  active_is_first (fst (handleConnect r c s)).
Proof.
  intros H Hside. destruct r as [[|first rest]|sc]; cbn; try exact H.
  - destruct Hside as [Hne | Hnone]; [congruence|].
    intros a. cbn. rewrite Hnone. discriminate.
  - intros a [= <-]. reflexivity.
Qed.

(** C6. [signTransactions] on a session that is not connected throws
    the error ["Wallet not connected"] and makes no signing request; on a
    connected session it makes exactly one request, whose argument
    consists of exactly one group, the given transactions in their order,
    and it settles the way the wallet does. This holds for any number
    of transactions, one included. *)
Theorem sign_requires_connection {Transaction Signed : Type}
    (transactions : list Transaction) (r : Eff.result Signed) (s : session) :
  (isConnected s = false ->
     signTransactions transactions r s
     = ([], Eff.Throw (Eff.Exn "Error" "Wallet not connected")))
  /\ (isConnected s = true ->
      fst (signTransactions transactions r s) = [[transactions]]
      /\ snd (signTransactions transactions r s) = r
      /\ forall request, In request (fst (signTransactions transactions r s)) ->
                         length request = 1).
Proof.
  unfold signTransactions. split; intros ->; cbn.
  - reflexivity.
  - repeat split. intros request [<- | []]. reflexivity.
Qed.

(** C6 on the initial session, and on a session connected to one
    account with a single transaction to sign. *)
Lemma sign_requires_connection_witness :
  signTransactions (Signed := string) ["txn-1"] (Eff.Ok "signed-1") initial
  = ([], Eff.Throw (Eff.Exn "Error" "Wallet not connected"))
  /\ fst (signTransactions (Signed := string) ["txn-1"] (Eff.Ok "signed-1")
            (after [Connect (Resolved ["ALICE"]) true]))
     = [[["txn-1"]]].
Proof.
  split.
  - exact (proj1 (sign_requires_connection ["txn-1"] (Eff.Ok "signed-1") initial)
                 eq_refl).
  - exact (proj1 (proj2 (sign_requires_connection ["txn-1"] (Eff.Ok "signed-1")
                           (after [Connect (Resolved ["ALICE"]) true]))
                        eq_refl)).
Defined.

(** C10, the claim as written fails in three places. A connect that
    yields no account on a connected session empties the accounts list
    and keeps the active account, so that the active account is no longer
    the first of the accounts and the session stays connected; an active
    account that is the empty string is set while the flag is false; and
    a disconnect whose teardown is rejected clears nothing. *)
Lemma connect_empty_keeps_active_account :
  let s := after [Connect (Resolved ["ALICE"]) true; Connect (Resolved []) true] in
  s = Session [] (Some "ALICE")
  /\ ~ active_is_first s
  /\ isConnected s = true
  /\ activeAccount (after [Connect (Resolved [EmptyString]) true]) = Some EmptyString
  /\ isConnected (after [Connect (Resolved [EmptyString]) true]) = false
  /\ after [Connect (Resolved ["ALICE"]) true; Disconnect (Rejected false)]
     = Session ["ALICE"] (Some "ALICE").
Proof.
  cbv zeta. repeat split.
  intros H. specialize (H "ALICE" eq_refl). discriminate H.
Qed.

(** C10, as the code has it. The connected flag is true exactly when
    the active account is a non-empty address. Starting from a session in
    which the active account, when set, is the first of the accounts, this
    still holds after a silent restoration, after a disconnect, and after
    a connect that yields at least one account or that starts with no
    active account. On a session with no active account, a connect or a
    restoration that yields no account leaves the session disconnected. A
    disconnect whose teardown completes clears the accounts and the
    active account. *)
Theorem wallet_state_invariant (s : session) (o : operation) :
  (isConnected s = true <-> exists a, activeAccount s = Some a /\ a <> EmptyString)
  /\ (active_is_first s ->
      (forall c, o <> Connect (Resolved []) c) \/ activeAccount s = None ->
      active_is_first (apply o s))
  /\ (activeAccount s = None ->
      forall p c,
        isConnected (apply (Connect (Resolved []) c) s) = false
        /\ isConnected (apply (Restore (Resolved []) p c) s) = false)
  /\ apply (Disconnect (Resolved tt)) s = Session [] None.
Proof.
  split; [apply isConnected_iff|]. split; [|split].
  - intros Hinv Hside. destruct o as [r c | r p c | r]; cbn [apply].
    + apply connect_preserves; [exact Hinv|].
      destruct Hside as [Hne | Hnone]; [left | right; exact Hnone].
      intros ->. exact (Hne c eq_refl).
    + apply restore_preserves. exact Hinv.
    + apply disconnect_preserves. exact Hinv.
  - intros Hnone p c. unfold isConnected. cbn. rewrite Hnone. split; reflexivity.
  - reflexivity.
Qed.

(** C10 on a connected session that is restored with two accounts. *)
Lemma wallet_state_invariant_witness :
  active_is_first
    (apply (Restore (Resolved ["BOB"; "CAROL"]) true true)
           (after [Connect (Resolved ["ALICE"]) true])).
Proof.
  refine (proj1 (proj2 (wallet_state_invariant
                   (after [Connect (Resolved ["ALICE"]) true])
                   (Restore (Resolved ["BOB"; "CAROL"]) true true))) _ _).
  - intros a [= <-]. reflexivity.
  - left. intros c. discriminate.
Defined.

End WalletFacts.

(** ** The test runner *)

Module RunnerFacts.
Import Runner.

(** C8. Every execution of the script starts the backend,
    [python3 -m app.main] with the project root on the module path, in
    the background from the backend directory, sleeps for 5 seconds,
    runs the integration test [test_api_integration.py] of the script's
    directory in the foreground from the project root, then signals the
    backend process it started, and ends with [exit] on the exit status
    of the test: the status of the script is that of the test, 0 exactly
    when the test passed. The success banner is printed exactly when
    that status is 0 and the failure banner exactly when it is not. *)
Theorem run_api_test_propagates (e : env) :
  filter steps (run_api_test e)
  = [Cd (PROJECT_ROOT e);
     Cd (PROJECT_ROOT e ++ "/compliledger/backend");
     Background ("PYTHONPATH=" ++ PROJECT_ROOT e ++ " python3 -m app.main")
                (SERVER_PID e);
     Sleep 5;
     Cd (PROJECT_ROOT e);
     Foreground ("PYTHONPATH=" ++ PROJECT_ROOT e ++ " python3 " ++ SCRIPT_DIR e
                 ++ "/test_api_integration.py")
                (TEST_EXIT_CODE e);
     Kill (SERVER_PID e);
     Exit (TEST_EXIT_CODE e)]
  /\ exit_status (run_api_test e) = Some (TEST_EXIT_CODE e)
  /\ (exit_status (run_api_test e) = Some 0 <-> TEST_EXIT_CODE e = 0)
  /\ (In (Echo "✅ API Integration Test: SUCCESS") (run_api_test e)
      <-> TEST_EXIT_CODE e = 0)
  /\ (In (Echo "❌ API Integration Test: FAILED") (run_api_test e)
      <-> TEST_EXIT_CODE e <> 0).
Proof.
  destruct e as [dir root v pid code]. unfold run_api_test. cbn [venv
    PROJECT_ROOT SCRIPT_DIR SERVER_PID TEST_EXIT_CODE].
  assert (Hexit : exit_status (run_api_test (Env dir root v pid code)) = Some code).
  { unfold run_api_test; destruct v, code; reflexivity. }
  unfold run_api_test in Hexit. cbn [venv PROJECT_ROOT SCRIPT_DIR SERVER_PID
    TEST_EXIT_CODE] in Hexit.
  split; [destruct v, code; reflexivity|].
  split; [exact Hexit|]. split; [rewrite Hexit; split; congruence|].
  split.
  - destruct v, code; cbn; split; intros H; try reflexivity; try lia;
      try (repeat (destruct H as [H | H]; try discriminate H); contradiction);
      tauto.
  - destruct v, code; cbn; split; intros H; try lia; try discriminate;
      try (repeat (destruct H as [H | H]; try discriminate H); contradiction);
      tauto.
Qed.

(** C8 on a run whose integration test fails with status 1: the backend
    is started and signalled, the test is run, and the script ends with
    status 1. *)
Lemma run_api_test_propagates_witness :
  filter steps
         (run_api_test (Env "/repo/PoC/compliledger/tests" "/repo/PoC" true 4242 1))
  = [Cd "/repo/PoC";
     Cd "/repo/PoC/compliledger/backend";
     Background "PYTHONPATH=/repo/PoC python3 -m app.main" 4242;
     Sleep 5;
     Cd "/repo/PoC";
     Foreground "PYTHONPATH=/repo/PoC python3 /repo/PoC/compliledger/tests/test_api_integration.py" 1;
     Kill 4242;
     Exit 1]
  /\ exit_status
       (run_api_test (Env "/repo/PoC/compliledger/tests" "/repo/PoC" true 4242 1))
     = Some 1.
Proof.
  split.
  - exact (proj1 (run_api_test_propagates
                    (Env "/repo/PoC/compliledger/tests" "/repo/PoC" true 4242 1))).
  - exact (proj1 (proj2 (run_api_test_propagates
                           (Env "/repo/PoC/compliledger/tests" "/repo/PoC" true 4242 1)))).
Defined.

End RunnerFacts.

(** ** The printable export *)

Module ExportFacts.
Import Eff Browser Portal ExportPdf.

Lemma includes_eq (s a x b : string) : s = a ++ x ++ b -> Js.includes s x = true.
Proof. intros ->. apply JsFacts.includes_app. Qed.

Lemma Some_inj {A} (a b : A) : Some a = Some b -> a = b.
Proof. congruence. Qed.

Lemma render_from_length (fs : list Js.value) :
  forall i rendered, render_from i fs = Some rendered -> length rendered = length fs.
Proof.
  induction fs as [|f fs IH]; intros i rendered; cbn.
  - intros [= <-]. reflexivity.
  - destruct (render_finding f i) as [a|]; cbn; [|discriminate].
    destruct (render_from (S i) fs) as [r|] eqn:Hr; cbn; [|discriminate].
    intros [= <-]. cbn. f_equal. eapply IH. exact Hr.
Qed.

Lemma render_from_nth (fs : list Js.value) :
  forall i rendered k f,
    render_from i fs = Some rendered ->
    nth_error fs k = Some f ->
    exists block, nth_error rendered k = Some block
                  /\ render_finding f (i + k) = Some block.
Proof.
  induction fs as [|f0 fs IH]; intros i rendered k f; cbn.
  - intros _ H. destruct k; discriminate H.
  - destruct (render_finding f0 i) as [a|] eqn:Ha; cbn; [|discriminate].
    destruct (render_from (S i) fs) as [r|] eqn:Hr; cbn; [|discriminate].
    intros [= <-]. destruct k as [|k]; cbn.
    + intros [= <-]. exists a. rewrite Nat.add_0_r. auto.
    + intros Hk. destruct (IH _ _ _ _ Hr Hk) as (block & H1 & H2).
      exists block. split; [exact H1|]. rewrite <- plus_n_Sm. exact H2.
Qed.

(** A rendered finding whose severity is not empty contains its badge:
    a [span] of class [sev], with the class derived from the severity and
    the severity as text. *)
Lemma badge_rendered (f : Js.value) (i : nat) (sev block : string) :
  render_finding f i = Some block ->
  severity_of f = Some sev ->
  Js.nonempty sev = true ->
  exists shown,
    safe (Js.prop "severity" f) = Some shown
    /\ Js.includes block (badge_0 ++ sevCls sev ++ badge_1 ++ shown ++ badge_2) = true.
Proof.
  unfold render_finding. intros H Hsev Hne. rewrite Hsev in H. cbn [obind] in H.
  destruct (safe (title_of f i)) as [t|]; [|discriminate H]. cbn [obind] in H.
  unfold badge in H. rewrite Hne in H.
  destruct (safe (Js.prop "severity" f)) as [shown|]; [|discriminate H].
  cbn [obind] in H.
  destruct (description_block _) as [d|]; [|discriminate H]. cbn [obind] in H.
  destruct (tags_block _) as [tg|]; [|discriminate H]. cbn [obind] in H.
  apply Some_inj in H. subst block. exists shown. split; [reflexivity|].
  apply (includes_eq _ (finding_0 ++ t ++ finding_1) _
           (finding_2 ++ d ++ finding_3 ++ tg ++ finding_4)).
  rewrite !JsFacts.append_assoc. reflexivity.
Qed.

Lemma page_4_label : exists a, page_4 = a ++ value_open "Compliance Score".
Proof.
  exists (substring 0 (String.length page_4
                       - String.length (value_open "Compliance Score")) page_4).
  vm_compute. reflexivity.
Qed.

Lemma page_5_label :
  exists m, page_5 = "%</div>" ++ m ++ value_open "Controls Passed".
Proof.
  exists (substring 7 (String.length page_5 - 7
                       - String.length (value_open "Controls Passed")) page_5).
  vm_compute. reflexivity.
Qed.

Lemma page_6_label :
  exists m, page_6 = "</div>" ++ m ++ value_open "Controls Failed".
Proof.
  exists (substring 6 (String.length page_6 - 6
                       - String.length (value_open "Controls Failed")) page_6).
  vm_compute. reflexivity.
Qed.

Lemma page_7_label : exists z, page_7 = "</div>" ++ z.
Proof.
  exists (substring 6 (String.length page_7 - 6) page_7).
  vm_compute. reflexivity.
Qed.

(** The summary consists of the three labelled cells, in this order. *)
Lemma kpis_cells (s : state) :
  exists a m1 m2 z,
    kpis s = a ++ score_cell s ++ m1 ++ passed_cell s ++ m2 ++ failed_cell s ++ z.
Proof.
  destruct page_4_label as [a Ha], page_5_label as [m1 H1],
           page_6_label as [m2 H2], page_7_label as [z Hz].
  exists a, m1, m2, z. unfold kpis, score_cell, passed_cell, failed_cell.
  rewrite Ha, H1, H2, Hz. rewrite !JsFacts.append_assoc. reflexivity.
Qed.

Lemma html_parts (s : state) (date h : string) :
  html s date = Some h ->
  exists o rendered,
    render_from 0 (topFindings s) = Some rendered
    /\ h = page_0 ++ report_title ++ page_1 ++ report_title ++ page_2 ++ date
           ++ page_3 ++ o ++ kpis s ++ count_label s ++ page_8
           ++ Js.join EmptyString rendered ++ page_9.
Proof.
  unfold html. destruct (oscal_block (oscalUrl s)) as [o|]; [|discriminate].
  cbn [obind]. destruct (render_from 0 (topFindings s)) as [rendered|]; [|discriminate].
  cbn [obind]. intros H. apply Some_inj in H. exists o, rendered. auto.
Qed.

(** The document that [exportPdf] builds contains the labelled cell of
    the compliance score and those of the two control counts (a dash
    standing for a value not yet known), followed by the rendering of
    the first ten findings at most, in their order; each of these whose
    severity is not empty carries a severity badge showing it. *)
Lemma html_document (s : state) (date : string) (h : string) :
  html s date = Some h ->
  Js.includes h (score_cell s) = true
  /\ Js.includes h (passed_cell s) = true
  /\ Js.includes h (failed_cell s) = true
  /\ exists rendered,
       render_from 0 (firstn 10 (findings s)) = Some rendered
       /\ length rendered = Nat.min 10 (length (findings s))
       /\ (exists before, h = before ++ Js.join EmptyString rendered ++ page_9)
       /\ forall i f sev,
            nth_error (firstn 10 (findings s)) i = Some f ->
            severity_of f = Some sev ->
            Js.nonempty sev = true ->
            exists block shown,
              nth_error rendered i = Some block
              /\ render_finding f i = Some block
              /\ safe (Js.prop "severity" f) = Some shown
              /\ Js.includes block
                   (badge_0 ++ sevCls sev ++ badge_1 ++ shown ++ badge_2) = true.
Proof.
  intros Hhtml.
  destruct (html_parts _ _ _ Hhtml) as (o & rendered & Hr & Hh).
  destruct (kpis_cells s) as (a & m1 & m2 & z & Hk).
  split.
  { apply (includes_eq _
             (page_0 ++ report_title ++ page_1 ++ report_title ++ page_2 ++ date
              ++ page_3 ++ o ++ a) _
             (m1 ++ passed_cell s ++ m2 ++ failed_cell s ++ z ++ count_label s
              ++ page_8 ++ Js.join EmptyString rendered ++ page_9)).
    rewrite Hh, Hk, !JsFacts.append_assoc. reflexivity. }
  split.
  { apply (includes_eq _
             (page_0 ++ report_title ++ page_1 ++ report_title ++ page_2 ++ date
              ++ page_3 ++ o ++ a ++ score_cell s ++ m1) _
             (m2 ++ failed_cell s ++ z ++ count_label s
              ++ page_8 ++ Js.join EmptyString rendered ++ page_9)).
    rewrite Hh, Hk, !JsFacts.append_assoc. reflexivity. }
  split.
  { apply (includes_eq _
             (page_0 ++ report_title ++ page_1 ++ report_title ++ page_2 ++ date
              ++ page_3 ++ o ++ a ++ score_cell s ++ m1 ++ passed_cell s ++ m2) _
             (z ++ count_label s
              ++ page_8 ++ Js.join EmptyString rendered ++ page_9)).
    rewrite Hh, Hk, !JsFacts.append_assoc. reflexivity. }
  exists rendered. split; [exact Hr|]. split.
  { rewrite (render_from_length _ _ _ Hr). apply length_firstn. }
  split.
  { exists (page_0 ++ report_title ++ page_1 ++ report_title ++ page_2 ++ date
            ++ page_3 ++ o ++ kpis s ++ count_label s ++ page_8).
    rewrite Hh, !JsFacts.append_assoc. reflexivity. }
  intros i f sev Hi Hsev Hne.
  destruct (render_from_nth _ _ _ _ _ Hr Hi) as (block & Hb & Hrf).
  cbn [Nat.add] in Hrf.
  destruct (badge_rendered _ _ _ _ Hrf Hsev Hne) as (shown & Hs & Hinc).
  exists block, shown. auto.
Qed.

(** *** The document is built *)

Lemma scalar_toString (v : Js.value) :
  scalar v = true -> exists x, Js.toString v = Some x.
Proof.
  destruct v as [| |[|]| | | |]; cbn; intros H; try discriminate H; eexists; reflexivity.
Qed.

Lemma scalar_safe (v : Js.value) : scalar v = true -> exists x, safe v = Some x.
Proof.
  destruct v as [| |[|]| | | |]; cbn; intros H; try discriminate H; eexists; reflexivity.
Qed.

Lemma scalar_or (a b : Js.value) :
  scalar a = true -> scalar b = true -> scalar (Js.or a b) = true.
Proof. unfold Js.or. destruct (Js.truthy a); auto. Qed.

Lemma each_safe_scalars (wrap : string -> string) (l : list Js.value) :
  forallb scalar l = true -> exists xs, each_safe wrap l = Some xs.
Proof.
  induction l as [|x l IH]; cbn; intros H.
  - eexists; reflexivity.
  - apply andb_true_iff in H. destruct H as [Hx Hl].
    destruct (scalar_safe x Hx) as [a ->]. destruct (IH Hl) as [xs ->].
    cbn. eexists; reflexivity.
Qed.

Lemma simple_finding_renders (f : Js.value) (i : nat) :
  simple_finding f = true -> exists block, render_finding f i = Some block.
Proof.
  unfold simple_finding. rewrite !andb_true_iff.
  intros ((((Hsev & Ht) & Hid) & Hd) & Htags).
  unfold render_finding, severity_of.
  destruct (scalar_toString (Js.or (Js.prop "severity" f) (Js.VStr EmptyString)))
    as [sv ->]; [apply scalar_or; auto|]. cbn [option_map obind].
  destruct (scalar_safe (title_of f i)) as [t ->];
    [unfold title_of; repeat apply scalar_or; auto|]. cbn [obind].
  assert (Hb : exists b, badge f (Js.toLowerCase sv) = Some b).
  { unfold badge. destruct (Js.nonempty _); [|eexists; reflexivity].
    destruct (scalar_safe _ Hsev) as [x ->]. eexists; reflexivity. }
  destruct Hb as [b ->]. cbn [obind].
  assert (Hdb : exists d, description_block
                            (Js.or (Js.prop "description" f) (Js.VStr EmptyString))
                          = Some d).
  { unfold description_block. destruct (Js.truthy _); [|eexists; reflexivity].
    destruct (scalar_safe (Js.or (Js.prop "description" f) (Js.VStr EmptyString)))
      as [x ->]; [apply scalar_or; auto|]. eexists; reflexivity. }
  destruct Hdb as [d ->]. cbn [obind].
  assert (Htb : exists tg, tags_block (Js.array_or_empty (Js.prop "control_tags" f))
                           = Some tg).
  { unfold tags_block. destruct (Js.array_or_empty _) as [|x l] eqn:E;
      [eexists; reflexivity|].
    destruct (each_safe_scalars (fun t0 => code_0 ++ t0 ++ code_1) _ Htags) as [xs ->].
    eexists; reflexivity. }
  destruct Htb as [tg ->]. cbn [obind]. eexists; reflexivity.
Qed.

Lemma simple_findings_render (fs : list Js.value) :
  forall i, forallb simple_finding fs = true ->
            exists rendered, render_from i fs = Some rendered.
Proof.
  induction fs as [|f fs IH]; intros i H; cbn.
  - eexists; reflexivity.
  - cbn in H. apply andb_true_iff in H. destruct H as [Hf Hfs].
    destruct (simple_finding_renders f i Hf) as [b ->].
    destruct (IH (S i) Hfs) as [r ->]. cbn. eexists; reflexivity.
Qed.

(** With findings of the usual shape and links that are strings or
    absent, the export builds its document. *)
Lemma html_built (s : state) (date : string) :
  forallb simple_finding (topFindings s) = true ->
  scalar (Js.prop "assessment_results" (oscalLinks s)) = true ->
  scalar (Js.prop "directory_url" (oscalLinks s)) = true ->
  exists h, html s date = Some h.
Proof.
  intros Hf Ha Hd.
  assert (Ho : exists o, oscal_block (oscalUrl s) = Some o).
  { unfold oscal_block. destruct (Js.truthy _); [|eexists; reflexivity].
    destruct (scalar_toString (oscalUrl s)) as [u ->];
      [unfold oscalUrl; repeat apply scalar_or; auto|]. eexists; reflexivity. }
  destruct Ho as [o Ho]. destruct (simple_findings_render _ 0 Hf) as [r Hr].
  unfold html. rewrite Ho, Hr. cbn. eexists; reflexivity.
Qed.

(** A finding without severity is rendered in the document that is
    built without any badge. *)
Lemma finding_without_severity_has_no_badge :
  let f := Js.VObj [("title", Js.VStr "Open port 22");
                    ("description", Js.VStr "SSH is exposed")] in
  let s := setFindings [f] initial in
  exists h block,
    html s "2026-01-01, 10:00:00" = Some h
    /\ render_from 0 (firstn 10 (findings s)) = Some [block]
    /\ Js.includes h block = true
    /\ Js.includes block badge_0 = false
    /\ Js.includes h badge_0 = false.
Proof.
  cbv zeta. eexists _, _. split; [reflexivity|]. split; [reflexivity|].
  repeat split; vm_compute; reflexivity.
Qed.

(** *** The document is never written *)

(** C7, what the code does instead. [exportPdf] asks for its window
    with the features [noopener,noreferrer], for which [window.open]
    returns [null], so that the test [if (!w)] throws in every
    invocation: in every state, and whether or not the browser lets the
    page open windows, the export writes no document and ends on the
    toast "Export failed". When the document was built, the toast
    reports "Popup blocked" after the window was asked for; otherwise it
    reports the conversion that failed. No request goes to the
    backend. *)
Theorem exportPdf_writes_nothing (s : state) (date : string) (popup : bool) :
  written (exportPdf s date popup) = []
  /\ fetches (exportPdf s date popup) = []
  /\ (forall h,
        html s date = Some h ->
        exportPdf s date popup
        = [ConsoleDebug "[ui] export PDF";
           WindowOpen EmptyString "_blank" "noopener,noreferrer";
           Toast "Export failed" "Error: Popup blocked" true])
  /\ (html s date = None ->
      exportPdf s date popup
      = [ConsoleDebug "[ui] export PDF";
         Toast "Export failed"
               "TypeError: Cannot convert object to primitive value" true]).
Proof.
  unfold exportPdf.
  assert (Hnull : window_open "noopener,noreferrer" popup = false) by reflexivity.
  rewrite Hnull.
  destruct (html s date) as [h|]; cbn [written fetches].
  - split; [reflexivity|]. split; [reflexivity|]. split.
    + intros h' _. reflexivity.
    + discriminate.
  - split; [reflexivity|]. split; [reflexivity|]. split.
    + intros h' H. discriminate H.
    + intros _. reflexivity.
Qed.

(** C7 on a run with twelve findings of high severity, a score of 75
    and 9 controls passed against 3 failed, in a browser that allows
    popups: the document is built, with the score and ten findings, and
    is not written. *)
Lemma exportPdf_writes_nothing_witness :
  let f := fun n => Js.VObj [("severity", Js.VStr "High"); ("id", Js.VNum n)] in
  let s := setControlsFailed (Some 3%Z)
             (setControlsPassed (Some 9%Z)
                (setComplianceScore (Some 75%Z)
                   (setFindings (map f [1; 2; 3; 4; 5; 6; 7; 8; 9; 10; 11; 12]%Z)
                                initial))) in
  exists h,
    html s "2026-01-01, 10:00:00" = Some h
    /\ Js.includes h (value_open "Compliance Score" ++ "75%</div>") = true
    /\ exportPdf s "2026-01-01, 10:00:00" true
       = [ConsoleDebug "[ui] export PDF";
          WindowOpen EmptyString "_blank" "noopener,noreferrer";
          Toast "Export failed" "Error: Popup blocked" true]
    /\ written (exportPdf s "2026-01-01, 10:00:00" true) = [].
Proof.
  cbv zeta.
  destruct (html_built
              (setControlsFailed (Some 3%Z)
                 (setControlsPassed (Some 9%Z)
                    (setComplianceScore (Some 75%Z)
                       (setFindings
                          (map (fun n => Js.VObj [("severity", Js.VStr "High");
                                                  ("id", Js.VNum n)])
                               [1; 2; 3; 4; 5; 6; 7; 8; 9; 10; 11; 12]%Z)
                          initial))))
              "2026-01-01, 10:00:00" eq_refl eq_refl eq_refl) as (h & Hh).
  destruct (html_document _ _ _ Hh) as (Hscore & _).
  destruct (exportPdf_writes_nothing
              (setControlsFailed (Some 3%Z)
                 (setControlsPassed (Some 9%Z)
                    (setComplianceScore (Some 75%Z)
                       (setFindings
                          (map (fun n => Js.VObj [("severity", Js.VStr "High");
                                                  ("id", Js.VNum n)])
                               [1; 2; 3; 4; 5; 6; 7; 8; 9; 10; 11; 12]%Z)
                          initial))))
              "2026-01-01, 10:00:00" true) as (Hw & _ & Ht & _).
  exists h. split; [exact Hh|]. split; [exact Hscore|].
  split; [exact (Ht h Hh) | exact Hw].
Defined.

End ExportFacts.

(** ** Traces *)

Module TraceFacts.
Import Eff Browser.

Lemma fetches_app (a b : list event) :
  fetches (a ++ b) = (fetches a ++ fetches b)%list.
Proof.
  induction a as [|x a IH]; [reflexivity|].
  destruct x; cbn; rewrite ?IH; reflexivity.
Qed.

Lemma errors_logged_app (a b : list event) :
  errors_logged (a ++ b) = (errors_logged a ++ errors_logged b)%list.
Proof.
  induction a as [|x a IH]; [reflexivity|].
  destruct x; cbn; rewrite ?IH; reflexivity.
Qed.

(** A call of the client hands exactly one request to [fetch]. *)
Lemma guarded_fetches (ms : Z) (url : string) (env : call_env) (t : list event) :
  Api.guarded ms url env t ->
  exists rq, fetches t = [rq] /\ rq_url rq = url.
Proof.
  intros (mid & rq & -> & _ & Hf & Hu & _). exists rq. split; [|exact Hu].
  cbn [fetches]. rewrite fetches_app, Hf. reflexivity.
Qed.

End TraceFacts.

(** ** The company portal: buttons, downloads and uploads *)

Module PageFacts.
Import Eff Browser Portal.

Section Page.
Variable BASE_URL : string.
Variable encodeURIComponent : string -> string.
Variable JSON_stringify : Js.value -> string.
Variable JSON_parse : string -> result Js.value.

Local Abbreviation startAnalysis :=
  (Portal.startAnalysis BASE_URL encodeURIComponent JSON_stringify).
Local Abbreviation handleFileUpload :=
  (Upload.handleFileUpload BASE_URL encodeURIComponent JSON_stringify).
Local Abbreviation handlePasteUpload :=
  (Upload.handlePasteUpload BASE_URL encodeURIComponent JSON_stringify JSON_parse).
Local Abbreviation upload :=
  (fun f => Api.perform BASE_URL encodeURIComponent JSON_stringify
              (Api.ArtifactsUpload (Upload.file_name f) None)).

(** X11. The requirements guard of [startAnalysis] and the [disabled]
    condition of its button agree: the toast "Missing requirements" is
    shown exactly when the artifact id or the profile is missing, in
    which case the state is left as it is; whenever the button is
    enabled the guard passes. *)
Theorem start_button_matches_guard (s : state) (env : call_env) :
  (View.asks_for_requirements (snd (startAnalysis s env)) = true
   <-> missing (artifactId s) || negb (Js.nonempty (complianceStandard s)) = true)
  /\ (View.asks_for_requirements (snd (startAnalysis s env)) = true ->
      fst (startAnalysis s env) = s)
  /\ (View.start_disabled s = false ->
      View.asks_for_requirements (snd (startAnalysis s env)) = false).
Proof.
  unfold View.start_disabled, Portal.startAnalysis, missing.
  destruct (artifactId s) as [aid|]; cbn.
  - destruct (Js.nonempty aid); cbn.
    + destruct (Js.nonempty (complianceStandard s)); cbn.
      * repeat split; intros; discriminate.
      * repeat split; intros; try reflexivity; discriminate.
    + repeat split; intros; try reflexivity; discriminate.
  - repeat split; intros; try reflexivity; discriminate.
Qed.

(** X12. The score, the status badge and the report buttons are rendered
    only once a score is known, and the [disabled] condition of the
    export button requires that no score is known: whenever the export
    button is rendered it is enabled. A run that fails before any score
    was loaded shows no status badge, although its status is set. *)
Theorem export_button_enabled_when_shown (s : state) (env : call_env) :
  (View.results_shown s = true -> View.export_disabled s = false)
  /\ (complianceScore s = None ->
      View.badge_text (fst (startAnalysis s env)) = None).
Proof.
  split.
  - unfold View.export_disabled. intros ->. cbn. apply andb_false_r.
  - intros Hnone.
    assert (Hkeep : complianceScore (fst (startAnalysis s env)) = complianceScore s).
    { unfold Portal.startAnalysis. destruct (artifactId s) as [aid|]; cbn; [|reflexivity].
      destruct (Js.nonempty aid); cbn; [|reflexivity].
      destruct (Js.nonempty (complianceStandard s)); reflexivity. }
    unfold View.badge_text, View.results_shown. rewrite Hkeep, Hnone. reflexivity.
Qed.

(** X14. A paste that is blank, or that [JSON.parse] rejects, is refused
    in the browser: no request is made, the page state is left as it is
    (the file shown included), and a destructive toast is shown. *)
Theorem paste_refused_before_upload (env : call_env) (pg : Upload.page) :
  Text.blank (Upload.pasteJson pg) = true
  \/ (exists e, JSON_parse (Upload.pasteJson pg) = Throw e) ->
  fst (handlePasteUpload env pg) = pg
  /\ fetches (snd (handlePasteUpload env pg)) = []
  /\ exists title description,
       In (Toast title description true) (snd (handlePasteUpload env pg)).
Proof.
  unfold Upload.handlePasteUpload. intros H.
  destruct (Text.blank (Upload.pasteJson pg)) eqn:Hb.
  - cbn. repeat split. eexists _, _. left. reflexivity.
  - destruct H as [H | [e He]]; [discriminate H|]. rewrite He. cbn.
    repeat split. eexists _, _. right. left. reflexivity.
Qed.

(** X15. When the upload request of a chosen file fails, the page shows
    the new file but keeps every other state variable, the artifact id
    and hash of the previous upload included, and reports the error in
    the toast "Upload failed". *)
Theorem failed_upload_keeps_previous_artifact (f : Upload.file) (env : call_env)
    (pg : Upload.page) (e : exn) :
  outcome (upload f env) = Throw e ->
  Upload.core (fst (handleFileUpload (Some f) env pg)) = Upload.core pg
  /\ Upload.uploadedFile (fst (handleFileUpload (Some f) env pg)) = Some f
  /\ In (Toast "Upload failed" (show_exn e) true)
        (snd (handleFileUpload (Some f) env pg)).
Proof.
  unfold Upload.handleFileUpload, Upload.upload_and_store, outcome.
  destruct (Api.perform _ _ _ _ env) as [t [res|e']]; cbn; [discriminate|].
  intros [= ->]. repeat split.
  right. apply in_or_app. right. right. left. reflexivity.
Qed.

(** X16. An upload, by file or by paste, successful or not, changes
    nothing but the file shown, the artifact id and the artifact hash:
    the status, the polling flag, the score, the counts, the findings
    and the links of an earlier run stay as they were. *)
Theorem upload_keeps_previous_results (chosen : option Upload.file)
    (env : call_env) (pg : Upload.page) :
  let keeps (pg' : Upload.page) :=
    let s := Upload.core pg in
    let s' := Upload.core pg' in
    verificationStatus s' = verificationStatus s
    /\ shouldPoll s' = shouldPoll s
    /\ complianceScore s' = complianceScore s
    /\ controlsPassed s' = controlsPassed s
    /\ controlsFailed s' = controlsFailed s
    /\ findings s' = findings s
    /\ oscalLinks s' = oscalLinks s
    /\ statusData s' = statusData s
    /\ complianceStandard s' = complianceStandard s in
  keeps (fst (handleFileUpload chosen env pg))
  /\ keeps (fst (handlePasteUpload env pg)).
Proof.
  cbv zeta.
  assert (Hstore : forall f a b c d,
             let pg' := fst (Upload.upload_and_store BASE_URL encodeURIComponent
                               JSON_stringify f a b c env d pg) in
             verificationStatus (Upload.core pg') = verificationStatus (Upload.core pg)
             /\ shouldPoll (Upload.core pg') = shouldPoll (Upload.core pg)
             /\ complianceScore (Upload.core pg') = complianceScore (Upload.core pg)
             /\ controlsPassed (Upload.core pg') = controlsPassed (Upload.core pg)
             /\ controlsFailed (Upload.core pg') = controlsFailed (Upload.core pg)
             /\ findings (Upload.core pg') = findings (Upload.core pg)
             /\ oscalLinks (Upload.core pg') = oscalLinks (Upload.core pg)
             /\ statusData (Upload.core pg') = statusData (Upload.core pg)
             /\ complianceStandard (Upload.core pg') = complianceStandard (Upload.core pg)).
  { intros f a b c d. cbv zeta. unfold Upload.upload_and_store.
    destruct (Api.perform _ _ _ _ env) as [t [res|e']]; cbn; [|repeat split].
    unfold Upload.uploaded.
    destruct res; cbn; try (repeat split; fail);
      destruct (Js.toString _); cbn; try destruct (Js.toString _); cbn; repeat split. }
  split.
  - unfold Upload.handleFileUpload. destruct chosen as [f|]; [|cbn; repeat split].
    specialize (Hstore f "[ui] upload success" "Artifact parsed" "Upload failed"
                       "[ui] upload failed").
    cbv zeta in Hstore. destruct (Upload.upload_and_store _ _ _ _ _ _ _ _ _ _).
    exact Hstore.
  - unfold Upload.handlePasteUpload.
    destruct (Text.blank _); [cbn; repeat split|].
    destruct (JSON_parse _); [|cbn; repeat split].
    specialize (Hstore (Upload.File "pasted-sbom.json" "application/json")
                       "[ui] paste upload success" "Artifact parsed (pasted JSON)"
                       "Invalid JSON or upload failed" "[ui] paste upload failed").
    cbv zeta in Hstore. destruct (Upload.upload_and_store _ _ _ _ _ _ _ _ _ _).
    exact Hstore.
Qed.

End Page.

End PageFacts.

(** ** Downloading the reports *)

Module DownloadFacts.
Import Eff Browser Portal Download.

Lemma open_each_spec (us : list Js.value) :
  fetches (trace (open_each us)) = []
  /\ opened_toasts (trace (open_each us)) = []
  /\ length (windows (trace (open_each us))) <= length us
  /\ (outcome (open_each us) = Ok tt ->
      map Some (windows (trace (open_each us))) = map Js.toString us).
Proof.
  induction us as [|u us (Hf & Ht & Hl & Hw)]; cbn.
  - repeat split. lia.
  - destruct (Js.toString u) as [url|] eqn:Hu; cbn.
    + unfold trace, outcome in *. destruct (open_each us) as [t r]; cbn in *.
      repeat split; try assumption; try lia.
      intros Hr. rewrite (Hw Hr). reflexivity.
    + repeat split; try lia. discriminate.
Qed.

Lemma windows_app (a b : list event) :
  windows (a ++ b) = (windows a ++ windows b)%list.
Proof.
  induction a as [|x a IH]; [reflexivity|].
  destruct x; cbn; rewrite ?IH; reflexivity.
Qed.

Lemma opened_toasts_app (a b : list event) :
  opened_toasts (a ++ b) = (opened_toasts a ++ opened_toasts b)%list.
Proof.
  induction a as [|x a IH]; [reflexivity|].
  destruct x; cbn; rewrite ?IH; try reflexivity.
  destruct (String.eqb _ _); cbn; rewrite ?IH; reflexivity.
Qed.

Lemma urls_at_most_four (links : Js.value) : length (urls links) <= 4.
Proof.
  unfold urls. etransitivity; [apply filter_length_le|].
  rewrite length_map. reflexivity.
Qed.

Lemma download_is_local (s : state) : fetches (trace (downloadOSCALReports s)) = [].
Proof.
  unfold downloadOSCALReports.
  destruct (negb (Js.truthy (oscalLinks s))); [reflexivity|].
  destruct (urls (oscalLinks s)) as [|u us]; [reflexivity|].
  destruct (open_each_spec (u :: us)) as (Hf & _).
  unfold trace, bind, emit in *.
  destruct (open_each (u :: us)) as [t [[]|e]]; cbn [fst snd app] in *.
  - cbn [fetches]. rewrite TraceFacts.fetches_app, Hf. reflexivity.
  - cbn. exact Hf.
Qed.


End DownloadFacts.

(** ** More on the API client *)

Module ClientFacts.
Import Eff Browser Api.

Lemma slice0_drop (n : nat) (s : string) : Js.slice0 n s ++ Text.drop n s = s.
Proof.
  revert s; induction n as [|n IH]; intros [|c s]; cbn; try reflexivity.
  rewrite IH. reflexivity.
Qed.

Section Client.
Variable BASE_URL : string.
Variable encodeURIComponent : string -> string.
Variable JSON_stringify : Js.value -> string.

Local Abbreviation perform := (Api.perform BASE_URL encodeURIComponent JSON_stringify).

Lemma req_rejected (path : string) (i : option init) (env : call_env) (e : exn) :
  net env = FetchRejects e ->
  outcome (req BASE_URL path i env) = Throw e
  /\ errors_logged (trace (req BASE_URL path i env)) = [].
Proof.
  intros H. destruct env as [tm ctl o]; cbn in H; subst o. split; reflexivity.
Qed.

Lemma reqForm_rejected (path : string) (fd : form_data) (i : option init)
    (env : call_env) (e : exn) :
  net env = FetchRejects e ->
  outcome (reqForm BASE_URL path fd i env) = Throw e
  /\ errors_logged (trace (reqForm BASE_URL path fd i env)) = [].
Proof.
  intros H. destruct env as [tm ctl o]; cbn in H; subst o. split; reflexivity.
Qed.

(** X1. When [fetch] rejects (the network is down, or the timer aborted
    the request), every operation of the client throws that very error
    on to its caller, after one attempt, and writes no error entry to
    the console. *)
Theorem rejected_request_is_rethrown (op : operation) (env : call_env) (e : exn) :
  net env = FetchRejects e ->
  outcome (perform op env) = Throw e
  /\ errors_logged (trace (perform op env)) = []
  /\ length (fetches (trace (perform op env))) = 1.
Proof.
  intros H.
  destruct (ApiFacts.perform_guarded BASE_URL encodeURIComponent JSON_stringify op env)
    as (url & Hg).
  destruct (TraceFacts.guarded_fetches _ _ _ _ Hg) as (rq & Hf & _).
  rewrite Hf. split; [|split; [|reflexivity]];
    destruct op; cbn [Api.perform];
      first [ exact (proj1 (req_rejected _ _ _ _ H))
            | exact (proj1 (reqForm_rejected _ _ _ _ _ H))
            | exact (proj2 (req_rejected _ _ _ _ H))
            | exact (proj2 (reqForm_rejected _ _ _ _ _ H)) ].
Qed.

Lemma under_api (rest : string) :
  prefix (BASE_URL ++ "/api/v1/") (BASE_URL ++ "/api/v1/" ++ rest) = true.
Proof.
  rewrite <- JsFacts.append_assoc. apply JsFacts.prefix_app.
Qed.

Lemma req_request (path : string) (i : option init) (env : call_env) :
  fetches (trace (req BASE_URL path i env))
  = [Request (BASE_URL ++ path) (req_init (controller env) i)].
Proof.
  unfold req, fetch, trace, finally, bind, emit, ret, throw, await.
  destruct env as [tm ctl [e|res]]; cbn; [reflexivity|].
  destruct (ok res); cbn; [|reflexivity].
  destruct (Js.includes _ _); cbn; [destruct (json res) | destruct (text res)];
    reflexivity.
Qed.

Lemma reqForm_request (path : string) (fd : form_data) (i : option init)
    (env : call_env) :
  fetches (trace (reqForm BASE_URL path fd i env))
  = [Request (BASE_URL ++ path) (reqForm_init (controller env) fd i)].
Proof.
  unfold reqForm, fetch, trace, finally, bind, emit, ret, throw, await.
  destruct env as [tm ctl [e|res]]; cbn; [reflexivity|].
  destruct (ok res); cbn; [destruct (json res)|]; reflexivity.
Qed.

(** X2. Every operation sends its one request to a path under
    [/api/v1/] of the base URL. The ten read operations pass neither a
    method nor a body, so that they are GET requests; the four others
    are POST requests with a body. All operations but the two multipart
    ones announce JSON content; the multipart ones set no header, which
    leaves the content type and its boundary to the browser. *)
Theorem requests_are_routed (op : operation) (env : call_env) :
  exists rq,
    fetches (trace (perform op env)) = [rq]
    /\ prefix (BASE_URL ++ "/api/v1/") (rq_url rq) = true
    /\ init_method (rq_init rq) = (if ApiShape.writes op then Some "POST" else None)
    /\ (init_body (rq_init rq) = None <-> ApiShape.writes op = false)
    /\ init_headers (rq_init rq)
       = (if multipart op then None
          else Some [("Content-Type", "application/json")]).
Proof.
  destruct op; cbn [Api.perform ApiShape.writes multipart];
    rewrite ?req_request, ?reqForm_request; eexists; (split; [reflexivity|]);
      cbn [rq_url rq_init req_init reqForm_init post_json init_method init_body
           init_headers init_signal];
      (split; [apply under_api|]); (split; [reflexivity|]);
      (split; [split; intros; (reflexivity || discriminate)|reflexivity]).
Qed.

(** X3. A response in 200..299 is never logged as an error. The JSON
    helper returns the parsed body when the content type mentions
    [application/json] and the body text, as a string, otherwise; the
    multipart helper parses the body as JSON whatever the content type,
    so that a body that is not JSON makes the upload or the submission
    throw although the backend answered 2xx. *)
Theorem success_is_read_by_content_type (path : string) (fd : form_data)
    (i : option init) (env : call_env) (res : response) :
  net env = FetchResolves res ->
  (200 <= status res <= 299)%Z ->
  let ct := match contentType res with Some c => c | None => EmptyString end in
  outcome (req BASE_URL path i env)
  = (if Js.includes ct "application/json" then json res
     else match text res with Ok t => Ok (Js.VStr t) | Throw e => Throw e end)
  /\ outcome (reqForm BASE_URL path fd i env) = json res
  /\ errors_logged (trace (req BASE_URL path i env)) = []
  /\ errors_logged (trace (reqForm BASE_URL path fd i env)) = [].
Proof.
  intros Hnet Hst. cbv zeta.
  assert (Hok : ok res = true).
  { unfold ok. apply andb_true_iff. split; apply Z.leb_le; lia. }
  destruct env as [tm ctl o]; cbn in Hnet; subst o.
  unfold req, reqForm, fetch, trace, outcome, finally, bind, emit, ret, throw, await.
  cbn. rewrite Hok. cbn.
  destruct (Js.includes _ _); cbn;
    destruct (json res); cbn; destruct (text res); cbn; repeat split; reflexivity.
Qed.

End Client.

(** X1 on a poll of the status while the network is down. *)
Lemma rejected_request_is_rethrown_witness :
  outcome (Api.perform "http://localhost:8000" (fun x => x) (fun _ => "{}")
             (VerificationStatus "abc")
             (CallEnv 1 1 (FetchRejects (Exn "TypeError" "Failed to fetch"))))
  = Throw (Exn "TypeError" "Failed to fetch").
Proof.
  exact (proj1 (rejected_request_is_rethrown "http://localhost:8000" (fun x => x)
                  (fun _ => "{}") (VerificationStatus "abc")
                  (CallEnv 1 1 (FetchRejects (Exn "TypeError" "Failed to fetch")))
                  (Exn "TypeError" "Failed to fetch") eq_refl)).
Defined.

(** X3 on a 200 answer of plain text to a multipart upload. *)
Lemma success_is_read_by_content_type_witness :
  outcome (reqForm "http://localhost:8000" "/api/v1/artifacts/upload" [] None
             (CallEnv 1 1 (FetchResolves
                (Response 200 "OK" (Some "text/plain") (Ok "done")
                          (Throw (Exn "SyntaxError" "Unexpected token d"))))))
  = Throw (Exn "SyntaxError" "Unexpected token d").
Proof.
  refine (proj1 (proj2 (success_is_read_by_content_type "http://localhost:8000"
                          "/api/v1/artifacts/upload" [] None
                          (CallEnv 1 1 (FetchResolves
                             (Response 200 "OK" (Some "text/plain") (Ok "done")
                                (Throw (Exn "SyntaxError" "Unexpected token d")))))
                          (Response 200 "OK" (Some "text/plain") (Ok "done")
                             (Throw (Exn "SyntaxError" "Unexpected token d")))
                          eq_refl _))).
  cbn. lia.
Defined.

End ClientFacts.

(** ** More on loadFindings and the polling loop *)

Module PollingFacts.
Import Eff Browser Portal.

(** X4. [loadFindings] touches only the links, the findings, the score
    and the two counts: the artifact, the profile, the progress, the
    displayed status, the last status answer and the polling flag are
    the same before and after, whatever the backend and the gateway
    return. *)
Theorem loadFindings_frame (hash : option string) (env : findings_env) (s : state) :
  let s' := loadFindings hash env s in
  artifactId s' = artifactId s
  /\ artifactHash s' = artifactHash s
  /\ complianceStandard s' = complianceStandard s
  /\ analysisProgress s' = analysisProgress s
  /\ isAnalyzing s' = isAnalyzing s
  /\ verificationStatus s' = verificationStatus s
  /\ statusData s' = statusData s
  /\ shouldPoll s' = shouldPoll s.
Proof.
  cbv zeta. unfold loadFindings, set_number.
  destruct (missing (if missing hash then artifactHash s else hash));
    [repeat split|].
  destruct (reports env) as [rep|e]; [|repeat split].
  destruct (negb (Js.truthy _)); [repeat split|].
  destruct (data env) as [d|e]; [|repeat split].
  destruct (negb (Js.truthy d)); [repeat split|].
  destruct (Js.prop "controls_failed" _), (Js.prop "controls_passed" _),
           (Js.prop "score" _); repeat split.
Qed.

(** X5. [loadFindings] fails silently: when there is no hash to ask for,
    when the reports request fails, or when the answer carries neither
    verified nor initial links, the whole state is left as it is. *)
Theorem loadFindings_without_links (hash : option string) (env : findings_env)
    (s : state) :
  (missing hash = true /\ missing (artifactHash s) = true)
  \/ (exists e, reports env = Throw e)
  \/ (exists rep, reports env = Ok rep
                  /\ Js.truthy (Js.prop "verified" rep) = false
                  /\ Js.truthy (Js.prop "initial" rep) = false) ->
  loadFindings hash env s = s.
Proof.
  unfold loadFindings. intros [[Hh Hs] | [[e He] | (rep & Hr & Hv & Hi)]].
  - rewrite Hh, Hs. reflexivity.
  - destruct (missing _); [reflexivity|]. rewrite He. reflexivity.
  - destruct (missing _); [reflexivity|]. rewrite Hr.
    assert (Hlinks : Js.truthy
               (Js.or (if Js.truthy rep
                       then Js.or (Js.prop "verified" rep) (Js.prop "initial" rep)
                       else rep) Js.VNull) = false).
    { unfold Js.or at 1. destruct (Js.truthy rep) eqn:Hrep.
      - unfold Js.or. rewrite Hv, Hi. reflexivity.
      - rewrite Hrep. reflexivity. }
    rewrite Hlinks. reflexivity.
Qed.

(** X6. With a hash to ask for and verified links in the answer, the
    verified links are the ones stored, before the initial ones and even
    when the document behind them cannot be read; when a document is
    read, the findings are replaced by its [findings] array, or by the
    empty list when it has none. *)
Theorem loadFindings_stores_verified_links (h : string) (env : findings_env)
    (s : state) (rep : Js.value) :
  Js.nonempty h = true ->
  reports env = Ok rep ->
  Js.truthy (Js.prop "verified" rep) = true ->
  oscalLinks (loadFindings (Some h) env s) = Js.prop "verified" rep
  /\ forall d,
       data env = Ok d ->
       Js.truthy d = true ->
       findings (loadFindings (Some h) env s)
       = Js.array_or_empty (Js.prop "findings" (Js.or (Js.prop "results" d) d)).
Proof.
  intros Hh Hr Hv. unfold loadFindings.
  assert (Hm : missing (Some h) = false) by (cbn; rewrite Hh; reflexivity).
  rewrite !Hm, Hr.
  assert (Hrep : Js.truthy rep = true).
  { destruct rep; cbn in Hv; try discriminate; reflexivity. }
  rewrite Hrep.
  assert (Hlinks : Js.or (Js.or (Js.prop "verified" rep) (Js.prop "initial" rep))
                         Js.VNull = Js.prop "verified" rep).
  { unfold Js.or. rewrite Hv, Hv. reflexivity. }
  rewrite Hlinks, Hv. cbn [negb]. split.
  - destruct (data env) as [d|e]; [|reflexivity].
    destruct (negb (Js.truthy d)); [reflexivity|].
    unfold set_number.
    destruct (Js.prop "controls_failed" _), (Js.prop "controls_passed" _),
             (Js.prop "score" _); reflexivity.
  - intros d Hd Ht. rewrite Hd, Ht. cbn [negb]. unfold set_number.
    destruct (Js.prop "controls_failed" _), (Js.prop "controls_passed" _),
             (Js.prop "score" _); reflexivity.
Qed.

(** *** Any run of the loop *)

Lemma delays_step (cl : closure) (p : poller) (i : input) :
  attempts p <= attempts (fst (step cl p i))
  /\ delays (snd (step cl p i))
     = map backoff (seq (S (attempts p))
                        (attempts (fst (step cl p i)) - attempts p)).
Proof.
  assert (Hsame : forall q l,
             attempts q = attempts p -> delays l = [] ->
             attempts p <= attempts q
             /\ delays l = map backoff (seq (S (attempts p)) (attempts q - attempts p))).
  { intros q l -> ->. rewrite Nat.sub_diag. split; [lia | reflexivity]. }
  assert (Hre : forall q, attempts q = attempts p ->
             attempts p <= attempts (fst (reschedule q))
             /\ delays (snd (reschedule q))
                = map backoff (seq (S (attempts p))
                                   (attempts (fst (reschedule q)) - attempts p))).
  { intros q Hq. unfold reschedule. cbn [fst snd attempts delays]. rewrite Hq.
    replace (S (attempts p) - attempts p) with 1 by lia. split; [lia | reflexivity]. }
  assert (Hclear : forall q, attempts q = attempts p ->
             attempts (fst (clear_ref q)) = attempts p
             /\ delays (snd (clear_ref q)) = []).
  { intros q Hq. unfold clear_ref. destruct (pollingRef q); cbn; auto. }
  unfold step. destruct i as [|latency r fenv|].
  - destruct (stage p); apply Hsame; reflexivity.
  - destruct (stage p); try (apply Hsame; reflexivity).
    unfold tick_resume. destruct r as [s|e]; [|apply Hre; reflexivity].
    destruct (status_text s) as [text|]; [|apply Hre; reflexivity].
    destruct (terminal cl (status_code s)); [|apply Hre; reflexivity].
    destruct (Hclear (with_view
                        (setVerificationStatus (Some (normalize (status_code s) text))
                           (setStatusData s (view (advance latency p))))
                        (advance latency p)) eq_refl) as [Ha Hd].
    destruct (clear_ref _) as [p1 l1]. cbn [fst snd] in *.
    apply Hsame; [exact Ha|]. rewrite PortalFacts.delays_app, Hd. reflexivity.
  - destruct (Hclear p eq_refl) as [Ha Hd].
    destruct (stage p); apply Hsame; assumption.
Qed.

Lemma delays_run (cl : closure) (inputs : list input) :
  forall p,
    attempts p <= attempts (fst (run cl p inputs))
    /\ delays (snd (run cl p inputs))
       = map backoff (seq (S (attempts p))
                          (attempts (fst (run cl p inputs)) - attempts p)).
Proof.
  induction inputs as [|i rest IH]; intros p.
  - cbn. rewrite Nat.sub_diag. split; [lia | reflexivity].
  - rewrite PortalFacts.run_cons. cbn [fst snd].
    destruct (delays_step cl p i) as [H1 E1].
    destruct (IH (fst (step cl p i))) as [H2 E2].
    split; [lia|]. rewrite PortalFacts.delays_app, E1, E2, <- map_app. f_equal.
    replace (attempts (fst (run cl (fst (step cl p i)) rest)) - attempts p)
      with ((attempts (fst (step cl p i)) - attempts p)
            + (attempts (fst (run cl (fst (step cl p i)) rest))
               - attempts (fst (step cl p i)))) by lia.
    rewrite seq_app. f_equal. f_equal. lia.
Qed.

Lemma short_delays (a n : nat) :
  length (filter (Z.eqb 3000) (map backoff (seq (S a) n))) <= 3 - a.
Proof.
  revert a; induction n as [|n IH]; intros a; cbn [seq map filter].
  - cbn. lia.
  - specialize (IH (S a)). unfold backoff at 1.
    destruct (S a <=? 3)%nat eqn:E.
    + change (3000 =? 3000)%Z with true. cbn [length]. apply Nat.leb_le in E. lia.
    + change (3000 =? 8000)%Z with false. cbn iota. lia.
Qed.

(** X7. In every run of the loop, whatever the order of answers, timer
    expiries and cleanups, the timeouts are set with the delays of
    consecutive attempts: the [k]-th timeout set by a loop that has made
    [a] attempts waits as long as the backoff says for attempt
    [a + k]. Hence each delay is 3000 or 8000 ms, the delays never
    decrease, and at most three timeouts of 3000 ms are set. *)
Theorem delays_follow_attempts (cl : closure) (p : poller) (inputs : list input) :
  let ds := delays (snd (run cl p inputs)) in
  ds = map backoff (seq (S (attempts p)) (length ds))
  /\ Forall (fun d => d = 3000%Z \/ d = 8000%Z) ds
  /\ length (filter (Z.eqb 3000) ds) <= 3.
Proof.
  cbv zeta. destruct (delays_run cl inputs p) as [_ E].
  set (n := attempts (fst (run cl p inputs)) - attempts p) in E.
  rewrite E, length_map, length_seq. split; [reflexivity|]. split.
  - apply Forall_forall. intros d Hd. apply in_map_iff in Hd.
    destruct Hd as (k & <- & _). unfold backoff. destruct (k <=? 3)%nat; auto.
  - pose proof (short_delays (attempts p) n). lia.
Qed.

Lemma step_keeps_ref (cl : closure) (p : poller) (i : input) :
  Poll.ref_tracks_timer p -> Poll.ref_tracks_timer (fst (step cl p i)).
Proof.
  intros Hp.
  assert (Hclear : forall q, Poll.ref_tracks_timer q ->
                             Poll.ref_tracks_timer (fst (clear_ref q))).
  { intros q [Ha Hi]. unfold clear_ref. destruct (pollingRef q) as [id|] eqn:Hr.
    - destruct (stage q) as [id' ms| |] eqn:Hs.
      + injection (Ha _ _ eq_refl) as ->. cbn [fst]. rewrite Nat.eqb_refl.
        split; cbn; [discriminate | reflexivity].
      + split; cbn; [discriminate | discriminate].
      + split; cbn; [discriminate | reflexivity].
    - cbn [fst]. split; rewrite Hr; [exact Ha | exact Hi]. }
  assert (Hre : forall q, Poll.ref_tracks_timer (fst (reschedule q))).
  { intros q. split; cbn; [intros id ms [= <- _]; reflexivity | discriminate]. }
  unfold step. destruct i as [|latency r fenv|].
  - destruct (stage p) eqn:Hs; cbn [fst]; try exact Hp.
    split; cbn; intros; discriminate.
  - destruct (stage p) eqn:Hs; cbn [fst]; try exact Hp.
    unfold tick_resume. destruct r as [s|e]; [|apply Hre].
    destruct (status_text s) as [text|]; [|apply Hre].
    destruct (terminal cl (status_code s)); [|apply Hre].
    pose proof (PortalFacts.clear_ref_spec
                  (with_view
                     (setVerificationStatus
                        (Some (normalize (status_code s) text))
                        (setStatusData s (view (advance latency p))))
                     (advance latency p))) as (Hr & _).
    destruct (clear_ref _) as [p1 l1]. cbn [fst snd] in *.
    split; cbn; [intros; discriminate | intros _; exact Hr].
  - apply Hclear. exact Hp.
Qed.

Lemma run_keeps_ref (cl : closure) (inputs : list input) :
  forall p, Poll.ref_tracks_timer p -> Poll.ref_tracks_timer (fst (run cl p inputs)).
Proof.
  induction inputs as [|i rest IH]; intros p H; [exact H|].
  rewrite PortalFacts.run_cons. cbn [fst]. apply IH, step_keeps_ref, H.
Qed.


Lemma step_budget (cl : closure) (p : poller) (i : input) :
  length (request_times (snd (step cl p i))) + Poll.pending (fst (step cl p i))
  <= Poll.pending p + Poll.answers_in [i].
Proof.
  unfold step, Poll.pending. destruct i as [|latency r fenv|]; cbn [Poll.answers_in].
  - destruct (stage p) eqn:Hs; cbn [fst snd tick_begin request_times length stage];
      rewrite ?Hs; lia.
  - destruct (stage p) eqn:Hs; cbn [fst snd request_times length]; rewrite ?Hs; try lia.
    assert (Hno : request_times (snd (tick_resume cl r fenv (advance latency p))) = []).
    { destruct (stops cl r) eqn:Hstop.
      - destruct r as [v|e]; [|discriminate Hstop].
        apply (PortalFacts.tick_resume_stops cl v fenv _ Hstop).
      - destruct (PortalFacts.tick_resume_continues cl r fenv (advance latency p) Hstop)
          as [v ->]. reflexivity. }
    rewrite Hno. cbn [length].
    destruct (stage (fst (tick_resume cl r fenv (advance latency p)))); lia.
  - unfold clear_ref. destruct (pollingRef p) as [id|]; cbn [fst snd request_times length stage].
    + destruct (stage p) as [id' ms| |]; try lia.
      destruct (id =? id')%nat; lia.
    + lia.
Qed.

Lemma requests_bounded (cl : closure) (inputs : list input) :
  forall p,
    length (request_times (snd (run cl p inputs)))
    <= Poll.pending p + Poll.answers_in inputs.
Proof.
  induction inputs as [|i rest IH]; intros p.
  - cbn. lia.
  - rewrite PortalFacts.run_cons. cbn [snd].
    rewrite PortalFacts.request_times_app, length_app.
    specialize (IH (fst (step cl p i))).
    pose proof (step_budget cl p i) as Hstep.
    assert (Hsplit : Poll.answers_in (i :: rest)
                     = Poll.answers_in [i] + Poll.answers_in rest).
    { destruct i; reflexivity. }
    lia.
Qed.

(** X9. A run started by the effect sends one status request at once
    and afterwards at most one for each answer it receives: the number of
    status requests never exceeds the number of answers by more than
    one, whatever the order of answers, timer expiries and cleanups. *)
Theorem one_request_per_answer (t0 : Z) (ref : option nat) (next : nat)
    (s : state) (cl : closure) (p0 : poller) (l0 : log) (inputs : list input) :
  effect t0 ref next s = Some (cl, p0, l0) ->
  length (request_times (l0 ++ snd (run cl p0 inputs))%list)
  <= 1 + Poll.answers_in inputs.
Proof.
  intros Heff.
  destruct (PortalFacts.effect_starts _ _ _ _ _ _ _ Heff) as (Hs0 & _ & _ & Ht & _).
  rewrite PortalFacts.request_times_app, length_app, Ht.
  pose proof (requests_bounded cl inputs p0) as H. unfold Poll.pending in H.
  rewrite Hs0 in H. cbn [length]. lia.
Qed.

Lemma loadFindings_keeps_flags (hash : option string) (env : findings_env)
    (s : state) :
  verificationStatus (loadFindings hash env s) = verificationStatus s
  /\ shouldPoll (loadFindings hash env s) = shouldPoll s.
Proof.
  unfold loadFindings, set_number.
  destruct (missing (if missing hash then artifactHash s else hash));
    [split; reflexivity|].
  destruct (reports env) as [rep|e]; [|split; reflexivity].
  destruct (negb (Js.truthy _)); [split; reflexivity|].
  destruct (data env) as [d|e]; [|split; reflexivity].
  destruct (negb (Js.truthy d)); [split; reflexivity|].
  destruct (Js.prop "controls_failed" _), (Js.prop "controls_passed" _),
           (Js.prop "score" _); split; reflexivity.
Qed.

(** X10. When [tick] takes its early return in a loop whose closure
    captured a status that is not terminal, the answer carried the code
    1 or 2: the status displayed from then on is ['verified'] or
    ['failed'], the polling flag is off and nothing is scheduled. *)
Theorem stop_shows_terminal_status (cl : closure) (s : Js.value)
    (fenv : findings_env) (p : poller) :
  Poll.is_terminal (c_verificationStatus cl) = false ->
  stops cl (Ok s) = true ->
  let p' := fst (tick_resume cl (Ok s) fenv p) in
  Poll.is_terminal (verificationStatus (view p')) = true
  /\ shouldPoll (view p') = false
  /\ stage p' = Idle.
Proof.
  intros Hcap Hstop. cbv zeta.
  destruct (PortalFacts.tick_resume_stops cl s fenv p Hstop) as (Hidle & _ & _).
  split; [|split; [|exact Hidle]];
    unfold stops, tick_resume in *;
    destruct (status_text s) as [text|]; try discriminate Hstop;
    rewrite Hstop;
    pose proof (PortalFacts.clear_ref_spec
                  (with_view (setVerificationStatus
                                (Some (normalize (status_code s) text))
                                (setStatusData s (view p))) p)) as (_ & Hv & _);
    destruct (clear_ref _) as [p1 l1]; cbn [fst snd view] in *;
    destruct (loadFindings_keeps_flags (Some (c_artifactHash cl)) fenv
                (setShouldPoll false (view p1))) as (Hvs & Hsp).
  - rewrite Hvs, Hv. cbn.
    unfold terminal in Hstop.
    assert (Hcode : code_is 1 (status_code s) || code_is 2 (status_code s) = true).
    { destruct (c_verificationStatus cl) as [[| |]|]; cbn in Hcap, Hstop;
        try discriminate Hcap; exact Hstop. }
    unfold normalize. destruct (code_is 1 (status_code s)); cbn; [reflexivity|].
    cbn in Hcode. rewrite Hcode.
    destruct (Js.includes text "verified" || Js.includes text "success"); cbn;
      [reflexivity|]. reflexivity.
  - rewrite Hsp. reflexivity.
Qed.

End PollingFacts.

(** ** Substrings *)

Module TextFacts.
Import Text.

Lemma slice0_len (n : nat) (s : string) :
  String.length (Js.slice0 n s) = Nat.min n (String.length s).
Proof.
  revert s; induction n as [|n IH]; intros [|c s]; cbn; try reflexivity.
  rewrite IH. reflexivity.
Qed.

Lemma drop_len (n : nat) (s : string) :
  String.length (drop n s) = String.length s - n.
Proof.
  revert s; induction n as [|n IH]; intros [|c s]; cbn; try reflexivity.
  apply IH.
Qed.

Lemma drop_drop (a b : nat) (s : string) : drop a (drop b s) = drop (b + a) s.
Proof.
  revert s; induction b as [|b IH]; intros s.
  - reflexivity.
  - destruct s as [|c s]; cbn.
    + destruct a; reflexivity.
    + apply IH.
Qed.

Lemma nonempty_app_r (a b : string) :
  Js.nonempty b = true -> Js.nonempty (a ++ b) = true.
Proof. destruct a; cbn; auto. Qed.

End TextFacts.

(** ** The auditor portal *)

Module AuditorFacts.
Import Eff Browser Auditor.

Lemma toast_titles_app (a b : list event) :
  toast_titles (a ++ b) = (toast_titles a ++ toast_titles b)%list.
Proof.
  induction a as [|x a IH]; [reflexivity|].
  destruct x; cbn; rewrite ?IH; reflexivity.
Qed.

Section Handlers.
Variable trim : string -> string.
Variable BASE_URL : string.
Variable encodeURIComponent : string -> string.
Variable JSON_stringify : Js.value -> string.

Local Abbreviation blank := (Auditor.blank trim).
Local Abbreviation handleSearch := (Auditor.handleSearch trim).
Local Abbreviation perform := (Api.perform BASE_URL encodeURIComponent JSON_stringify).
Local Abbreviation handleLiveLookup :=
  (Auditor.handleLiveLookup trim BASE_URL encodeURIComponent JSON_stringify).
Local Abbreviation attestation := (Auditor.attestation trim).
Local Abbreviation submitAttestation :=
  (Auditor.submitAttestation trim BASE_URL encodeURIComponent JSON_stringify).

(** X17. The mock search ignores the case of the query: two queries
    that are not blank and differ only in the case of their letters
    show the same toast and the same records. The toast of a search
    counts the records that are shown, and a blank query changes
    nothing. What counts as blank is what [trim] of the engine
    removes. *)
Theorem search_ignores_case (s s' : state) :
  (blank (searchQuery s) = true ->
   fst (handleSearch s) = s
   /\ toast_titles (snd (handleSearch s)) = ["Search query required"])
  /\ (blank (searchQuery s) = false ->
      snd (handleSearch s)
      = [Toast "Search completed"
           ("Found "
            ++ Js.show_int (Z.of_nat (length (searchResults (fst (handleSearch s)))))
            ++ " verification record(s)") false])
  /\ (blank (searchQuery s) = false ->
      blank (searchQuery s') = false ->
      Js.toLowerCase (searchQuery s) = Js.toLowerCase (searchQuery s') ->
      snd (handleSearch s) = snd (handleSearch s')
      /\ searchResults (fst (handleSearch s)) = searchResults (fst (handleSearch s'))).
Proof.
  unfold Auditor.handleSearch. split; [|split].
  - intros ->. split; reflexivity.
  - intros ->. reflexivity.
  - intros -> -> H.
    assert (Hfound : forall v, found (searchQuery s) v = found (searchQuery s') v).
    { intros v. unfold found. rewrite H. reflexivity. }
    cbn [fst snd searchResults setSearchResults].
    rewrite (filter_ext _ _ Hfound). split; reflexivity.
Qed.

(** The client shows no toast of its own. *)
Lemma perform_no_toast (op : Api.operation) (env : call_env) :
  toast_titles (trace (perform op env)) = [].
Proof.
  assert (Hreq : forall path i, toast_titles (trace (Api.req BASE_URL path i env)) = []).
  { intros path i.
    unfold Api.req, Api.fetch, trace, finally, bind, emit, ret, throw, Api.await.
    destruct env as [tm ctl [e|res]]; cbn; [reflexivity|].
    destruct (ok res); cbn; [|reflexivity].
    destruct (Js.includes _ _); cbn; [destruct (json res) | destruct (text res)];
      reflexivity. }
  assert (Hform : forall path fd i,
             toast_titles (trace (Api.reqForm BASE_URL path fd i env)) = []).
  { intros path fd i.
    unfold Api.reqForm, Api.fetch, trace, finally, bind, emit, ret, throw, Api.await.
    destruct env as [tm ctl [e|res]]; cbn; [reflexivity|].
    destruct (ok res); cbn; [destruct (json res)|]; reflexivity. }
  destruct op; cbn [Api.perform]; first [apply Hreq | apply Hform].
Qed.

Lemma perform_url (op : Api.operation) (env : call_env) :
  exists rq, fetches (trace (perform op env)) = [rq].
Proof.
  destruct (ApiFacts.perform_guarded BASE_URL encodeURIComponent JSON_stringify op env)
    as (url & Hg).
  destruct (TraceFacts.guarded_fetches _ _ _ _ Hg) as (rq & Hf & _).
  exists rq. exact Hf.
Qed.

(** X18. A live lookup with a hash that is not blank always makes the
    three requests, for the status, the reports and the attestations of
    the trimmed hash, in this order: a failure of one does not prevent
    the others. A failed status lookup clears the status and is the only
    failure reported by a toast; failed reports are cleared silently and
    failed attestations become the empty list. With a blank hash nothing
    is requested and the state is left as it is. What counts as blank,
    and what is trimmed, is decided by [trim] of the engine. *)
Theorem live_lookup_asks_three_times (e1 e2 e3 : call_env) (s : state) :
  (blank (artifactHash s) = true ->
   fst (handleLiveLookup e1 e2 e3 s) = s
   /\ fetches (snd (handleLiveLookup e1 e2 e3 s)) = []
   /\ toast_titles (snd (handleLiveLookup e1 e2 e3 s)) = ["Artifact hash required"])
  /\ (blank (artifactHash s) = false ->
      let h := trim (artifactHash s) in
      let s' := fst (handleLiveLookup e1 e2 e3 s) in
      let t := snd (handleLiveLookup e1 e2 e3 s) in
      map rq_url (fetches t)
      = [BASE_URL ++ "/api/v1/auditor/status/" ++ h;
         BASE_URL ++ "/api/v1/auditor/reports/" ++ h;
         BASE_URL ++ "/api/v1/auditor/attestations/" ++ h]
      /\ status s' = match outcome (perform (Api.AuditorStatus h) e1) with
                     | Ok v => v
                     | Throw _ => Js.VNull
                     end
      /\ reports s' = match outcome (perform (Api.AuditorReports h) e2) with
                      | Ok v => v
                      | Throw _ => Js.VNull
                      end
      /\ ((exists e, outcome (perform (Api.AuditorListAttestations h) e3) = Throw e) ->
          attestations s' = Js.VArr [])
      /\ toast_titles t = match outcome (perform (Api.AuditorStatus h) e1) with
                          | Ok _ => []
                          | Throw _ => ["Status lookup failed"]
                          end).
Proof.
  unfold Auditor.handleLiveLookup. split; intros Hb; rewrite Hb.
  - repeat split.
  - cbv zeta.
    pose proof (perform_no_toast (Api.AuditorStatus (trim (artifactHash s))) e1) as N1.
    pose proof (perform_no_toast (Api.AuditorReports (trim (artifactHash s))) e2) as N2.
    pose proof (perform_no_toast
                  (Api.AuditorListAttestations (trim (artifactHash s))) e3) as N3.
    pose proof (ClientFacts.req_request BASE_URL
                  ("/api/v1/auditor/status/" ++ trim (artifactHash s)) None e1) as F1.
    pose proof (ClientFacts.req_request BASE_URL
                  ("/api/v1/auditor/reports/" ++ trim (artifactHash s)) None e2) as F2.
    pose proof (ClientFacts.req_request BASE_URL
                  ("/api/v1/auditor/attestations/" ++ trim (artifactHash s)) None e3)
      as F3.
    cbn [Api.perform] in *. unfold trace, outcome in *.
    destruct (Api.req BASE_URL ("/api/v1/auditor/status/" ++ _) None e1) as [t1 r1].
    destruct (Api.req BASE_URL ("/api/v1/auditor/reports/" ++ _) None e2) as [t2 r2].
    destruct (Api.req BASE_URL ("/api/v1/auditor/attestations/" ++ _) None e3) as [t3 r3].
    cbn [fst snd] in *.
    assert (Hurls : forall x1,
               fetches x1 = [] ->
               map rq_url (fetches (t1 ++ x1 ++ t2 ++ t3))
               = [BASE_URL ++ "/api/v1/auditor/status/" ++ trim (artifactHash s);
                  BASE_URL ++ "/api/v1/auditor/reports/" ++ trim (artifactHash s);
                  BASE_URL ++ "/api/v1/auditor/attestations/"
                  ++ trim (artifactHash s)]).
    { intros x1 Hx. rewrite !TraceFacts.fetches_app, F1, F2, F3, Hx. reflexivity. }
    assert (Htoasts : forall x1,
               toast_titles (t1 ++ x1 ++ t2 ++ t3) = toast_titles x1).
    { intros x1. rewrite !toast_titles_app, N1, N2, N3, app_nil_r. reflexivity. }
    destruct r1 as [v1|x1]; destruct r2 as [v2|x2]; destruct r3 as [v3|x3];
      cbn [fst snd];
      try (destruct (items_or_empty v3));
      (split; [apply Hurls; reflexivity|]);
      (split; [reflexivity|]); (split; [reflexivity|]);
      (split; [intros [err He]; first [discriminate He | reflexivity] | apply Htoasts]).
Qed.

(** X19. An attestation whose hash or whose statement is blank is not
    sent: the toast "Statement required" is shown and nothing changes.
    When the POST fails, nothing else is requested, the state is left as
    it is, so that the statement typed is kept, and the only toast is
    "Submit failed". What counts as blank is decided by [trim] of the
    engine. *)
Theorem attestation_guard_and_failure (e1 e2 : call_env) (s : state) :
  (blank (artifactHash s) || blank (statement (attestForm s)) = true ->
   fst (submitAttestation e1 e2 s) = s
   /\ fetches (snd (submitAttestation e1 e2 s)) = []
   /\ toast_titles (snd (submitAttestation e1 e2 s)) = ["Statement required"])
  /\ (blank (artifactHash s) || blank (statement (attestForm s)) = false ->
      (exists e, outcome (perform (Api.AuditorAttest (attestation s)) e1) = Throw e) ->
      fst (submitAttestation e1 e2 s) = s
      /\ length (fetches (snd (submitAttestation e1 e2 s))) = 1
      /\ toast_titles (snd (submitAttestation e1 e2 s)) = ["Submit failed"]).
Proof.
  unfold Auditor.submitAttestation. split.
  - intros ->. repeat split.
  - intros -> [e He].
    pose proof (perform_no_toast (Api.AuditorAttest (attestation s)) e1) as N1.
    destruct (perform_url (Api.AuditorAttest (attestation s)) e1) as [rq F1].
    unfold trace, outcome in *.
    destruct (Api.perform _ _ _ (Api.AuditorAttest (attestation s)) e1) as [t1 r1].
    cbn [fst snd] in *. subst r1. cbn [fst snd].
    rewrite TraceFacts.fetches_app, toast_titles_app, F1, N1. repeat split.
Qed.

(** X20. The POST and the refresh of the list share one [try]: when the
    attestation was accepted but the list cannot be read afterwards, the
    form is cleared, the list shown is the one from before, and the user
    is told "Attestation submitted" and then "Submit failed". *)
Theorem attestation_accepted_refresh_failed (e1 e2 : call_env) (s : state) :
  blank (artifactHash s) || blank (statement (attestForm s)) = false ->
  (exists v, outcome (perform (Api.AuditorAttest (attestation s)) e1) = Ok v) ->
  (exists e, outcome (perform (Api.AuditorListAttestations
                                 (trim (artifactHash s))) e2) = Throw e) ->
  attestForm (fst (submitAttestation e1 e2 s)) = Form EmptyString EmptyString
  /\ attestations (fst (submitAttestation e1 e2 s)) = attestations s
  /\ length (fetches (snd (submitAttestation e1 e2 s))) = 2
  /\ toast_titles (snd (submitAttestation e1 e2 s))
     = ["Attestation submitted"; "Submit failed"].
Proof.
  unfold Auditor.submitAttestation. intros -> [v Hv] [e He].
  pose proof (perform_no_toast (Api.AuditorAttest (attestation s)) e1) as N1.
  pose proof (perform_no_toast
                (Api.AuditorListAttestations (trim (artifactHash s))) e2) as N2.
  destruct (perform_url (Api.AuditorAttest (attestation s)) e1) as [rq1 F1].
  destruct (perform_url (Api.AuditorListAttestations (trim (artifactHash s))) e2)
    as [rq2 F2].
  unfold trace, outcome in *.
  destruct (Api.perform _ _ _ (Api.AuditorAttest (attestation s)) e1) as [t1 r1].
  destruct (Api.perform _ _ _ (Api.AuditorListAttestations _) e2) as [t2 r2].
  cbn [fst snd] in *. subst r1 r2. cbn [fst snd].
  change (t1 ++ Toast "Attestation submitted" EmptyString false
             :: t2 ++ [Toast "Submit failed" (show_exn e) true])%list
    with (t1 ++ [Toast "Attestation submitted" EmptyString false]
             ++ t2 ++ [Toast "Submit failed" (show_exn e) true])%list.
  rewrite !TraceFacts.fetches_app, !toast_titles_app, F1, F2, N1, N2. repeat split.
Qed.

End Handlers.

(** X17 on the queries [ac-3] and [AC-3]: both find the first record. *)
Lemma search_ignores_case_witness :
  let s := State "ac-3" [] EmptyString Js.VNull Js.VNull Js.VNull
                 (Form EmptyString EmptyString) in
  let s' := State "AC-3" [] EmptyString Js.VNull Js.VNull Js.VNull
                  (Form EmptyString EmptyString) in
  snd (Auditor.handleSearch Text.trim s) = snd (Auditor.handleSearch Text.trim s')
  /\ searchResults (fst (Auditor.handleSearch Text.trim s))
     = searchResults (fst (Auditor.handleSearch Text.trim s')).
Proof.
  cbv zeta.
  exact (proj2 (proj2 (search_ignores_case Text.trim
                  (State "ac-3" [] EmptyString Js.VNull Js.VNull Js.VNull
                         (Form EmptyString EmptyString))
                  (State "AC-3" [] EmptyString Js.VNull Js.VNull Js.VNull
                         (Form EmptyString EmptyString))))
               eq_refl eq_refl eq_refl).
Defined.

(** X18 on a lookup of [" abc "], between a no-break space and a line
    feed, while the backend is down. *)
Lemma live_lookup_asks_three_times_witness :
  let down := CallEnv 1 1 (FetchRejects (Exn "TypeError" "Failed to fetch")) in
  let s := State EmptyString [] (Text.bytes [194; 160] ++ " abc " ++ Text.bytes [10])
                 (Js.VStr "old") Js.VNull Js.VNull (Form EmptyString EmptyString) in
  map rq_url (fetches (snd (Auditor.handleLiveLookup Text.trim "http://localhost:8000"
                              (fun x => x) (fun _ => "{}") down down down s)))
  = ["http://localhost:8000/api/v1/auditor/status/abc";
     "http://localhost:8000/api/v1/auditor/reports/abc";
     "http://localhost:8000/api/v1/auditor/attestations/abc"].
Proof.
  cbv zeta.
  exact (proj1 (proj2 (live_lookup_asks_three_times Text.trim "http://localhost:8000"
                         (fun x => x) (fun _ => "{}")
                         (CallEnv 1 1 (FetchRejects (Exn "TypeError" "Failed to fetch")))
                         (CallEnv 1 1 (FetchRejects (Exn "TypeError" "Failed to fetch")))
                         (CallEnv 1 1 (FetchRejects (Exn "TypeError" "Failed to fetch")))
                         (State EmptyString []
                                (Text.bytes [194; 160] ++ " abc " ++ Text.bytes [10])
                                (Js.VStr "old") Js.VNull Js.VNull
                                (Form EmptyString EmptyString)))
                      eq_refl)).
Defined.

(** X19 on a statement for [abc] while the backend is down. *)
Lemma attestation_guard_and_failure_witness :
  let down := CallEnv 1 1 (FetchRejects (Exn "TypeError" "Failed to fetch")) in
  let s := State EmptyString [] "abc" Js.VNull Js.VNull Js.VNull
                 (Form "reviewed" EmptyString) in
  fst (Auditor.submitAttestation Text.trim "http://localhost:8000" (fun x => x)
         (fun _ => "{}") down down s) = s
  /\ toast_titles (snd (Auditor.submitAttestation Text.trim "http://localhost:8000"
                          (fun x => x) (fun _ => "{}") down down s))
     = ["Submit failed"].
Proof.
  cbv zeta.
  destruct (proj2 (attestation_guard_and_failure Text.trim "http://localhost:8000"
                     (fun x => x) (fun _ => "{}")
                     (CallEnv 1 1 (FetchRejects (Exn "TypeError" "Failed to fetch")))
                     (CallEnv 1 1 (FetchRejects (Exn "TypeError" "Failed to fetch")))
                     (State EmptyString [] "abc" Js.VNull Js.VNull Js.VNull
                            (Form "reviewed" EmptyString)))
                  eq_refl (ex_intro _ _ eq_refl)) as (H1 & _ & H3).
  split; [exact H1 | exact H3].
Defined.

(** X20 on an attestation that is accepted by a backend that then fails
    to list. *)
Lemma attestation_accepted_refresh_failed_witness :
  let accepted := CallEnv 1 1 (FetchResolves
                    (Response 200 "OK" (Some "application/json") (Ok "{}")
                              (Ok (Js.VObj [("status", Js.VStr "ok")])))) in
  let broken := CallEnv 2 2 (FetchResolves
                  (Response 500 "Internal Server Error" None (Ok "boom")
                            (Throw (Exn "SyntaxError" "bad")))) in
  let s := State EmptyString [] "abc" Js.VNull Js.VNull (Js.VArr [Js.VStr "earlier"])
                 (Form "reviewed" "https://example.org/evidence") in
  toast_titles (snd (Auditor.submitAttestation Text.trim "http://localhost:8000"
                       (fun x => x) (fun _ => "{}") accepted broken s))
  = ["Attestation submitted"; "Submit failed"].
Proof.
  cbv zeta.
  refine (proj2 (proj2 (proj2
            (attestation_accepted_refresh_failed Text.trim "http://localhost:8000"
               (fun x => x) (fun _ => "{}")
               (CallEnv 1 1 (FetchResolves
                  (Response 200 "OK" (Some "application/json") (Ok "{}")
                            (Ok (Js.VObj [("status", Js.VStr "ok")])))))
               (CallEnv 2 2 (FetchResolves
                  (Response 500 "Internal Server Error" None (Ok "boom")
                            (Throw (Exn "SyntaxError" "bad")))))
               (State EmptyString [] "abc" Js.VNull Js.VNull
                      (Js.VArr [Js.VStr "earlier"])
                      (Form "reviewed" "https://example.org/evidence"))
               eq_refl _ _)))).
  - eexists. reflexivity.
  - eexists. reflexivity.
Defined.

End AuditorFacts.

(** ** The wallet button and the hook *)

Module WalletViewFacts.
Import Wallet WalletConnect.

Lemma formatAddress_length (addr : string) :
  0 < String.length addr -> 5 <= String.length (formatAddress addr) <= 13.
Proof.
  unfold formatAddress. intros Hlen.
  assert (Hne : Js.nonempty addr = true) by (apply JsFacts.nonempty_length; lia).
  rewrite Hne. cbn [negb].
  rewrite !JsFacts.length_append, TextFacts.slice0_len, TextFacts.drop_len.
  cbn [String.length]. lia.
Qed.

(** X21. [formatAddress] shows an address of ten characters or more as
    its first five characters, three dots and its last five characters,
    hiding exactly the characters in between; an address of at most five
    characters is shown twice, around the dots. The label of an address
    that is not empty has between 5 and 13 characters. *)
Theorem formatAddress_shape (addr : string) :
  (10 <= String.length addr ->
   exists first hidden last,
     addr = first ++ hidden ++ last
     /\ String.length first = 5 /\ String.length last = 5
     /\ formatAddress addr = first ++ "..." ++ last)
  /\ (0 < String.length addr <= 5 -> formatAddress addr = addr ++ "..." ++ addr)
  /\ (0 < String.length addr -> 5 <= String.length (formatAddress addr) <= 13).
Proof.
  unfold formatAddress. split; [|split].
  - intros Hlen.
    assert (Hne : Js.nonempty addr = true) by (apply JsFacts.nonempty_length; lia).
    rewrite Hne. cbn [negb].
    exists (Js.slice0 5 addr),
           (Js.slice0 (String.length addr - 10) (Text.drop 5 addr)),
           (Text.drop (String.length addr - 5) addr).
    split.
    + rewrite <- (ClientFacts.slice0_drop 5 addr) at 1. f_equal.
      rewrite <- (ClientFacts.slice0_drop (String.length addr - 10) (Text.drop 5 addr)) at 1.
      f_equal. rewrite TextFacts.drop_drop. f_equal. lia.
    + rewrite TextFacts.slice0_len, TextFacts.drop_len.
      split; [lia|]. split; [lia | reflexivity].
  - intros Hlen.
    assert (Hne : Js.nonempty addr = true) by (apply JsFacts.nonempty_length; lia).
    rewrite Hne. cbn [negb].
    rewrite JsFacts.slice0_short by lia.
    replace (String.length addr - 5) with 0 by lia.
    destruct addr; reflexivity.
  - fold (formatAddress addr). apply formatAddress_length.
Qed.

(** X21 on a ledger address of 58 characters. *)
Lemma formatAddress_shape_witness :
  formatAddress "5IGW4MX4LXEXU6OX4QBUJ2TZ2AH6DWMADY5HPJ6NAI3D7RPTQNEDMOGR6A"
  = "5IGW4...OGR6A".
Proof.
  destruct (proj1 (formatAddress_shape
                     "5IGW4MX4LXEXU6OX4QBUJ2TZ2AH6DWMADY5HPJ6NAI3D7RPTQNEDMOGR6A"))
    as (first & hidden & last & _ & _ & _ & H).
  - cbn. lia.
  - reflexivity.
Defined.

(** X22. The wallet button follows the hook: it shows the connect button
    exactly when the hook reports no connection, and otherwise the
    shortened active account, whose label is never empty. The second
    test of the component, on the active account, never decides. *)
Theorem button_follows_the_hook (s : session) :
  (isConnected s = false <-> render s = ConnectButton)
  /\ (isConnected s = true ->
      exists a, activeAccount s = Some a
                /\ render s = Account (formatAddress a)
                /\ 5 <= String.length (formatAddress a) <= 13).
Proof.
  unfold render, isConnected. destruct (activeAccount s) as [a|]; cbn.
  - destruct (Js.nonempty a) eqn:Hne; cbn.
    + split; [split; discriminate|]. intros _. exists a. repeat split;
        apply formatAddress_length;
        apply JsFacts.nonempty_length; exact Hne.
    + split; [split; reflexivity | discriminate].
  - split; [split; reflexivity | discriminate].
Qed.

(** X22 after a connect that yields one account. *)
Lemma button_follows_the_hook_witness :
  render (after [Connect (Resolved ["ALICEALICEALICE"]) true]) = Account "ALICE...ALICE".
Proof.
  destruct (proj2 (button_follows_the_hook
                     (after [Connect (Resolved ["ALICEALICEALICE"]) true])) eq_refl)
    as (a & Ha & Hr & _).
  rewrite Hr. injection Ha as <-. reflexivity.
Defined.

Lemma apply_keeps_head (o : operation) (s : session) :
  (forall a rest, accounts s = a :: rest -> activeAccount s = Some a) ->
  forall a rest, accounts (apply o s) = a :: rest -> activeAccount (apply o s) = Some a.
Proof.
  intros H a rest. destruct o as [r c | r p c | r]; cbn [apply].
  - destruct r as [[|first more]|sc]; cbn; try discriminate; try apply H.
    intros [= <- _]. reflexivity.
  - unfold restore. destruct r as [[|first more]|sc]; cbn; try apply H.
    destruct p; cbn; [|apply H]. intros [= <- _]. reflexivity.
  - destruct r as [u|sc]; cbn; [discriminate | apply H].
Qed.

(** X23. Whatever operations the hook has gone through since it was
    mounted, an accounts list that is not empty starts with the active
    account: the list shown and the account used for signing never
    disagree. *)
Theorem accounts_start_with_active (ops : list operation) (a : string)
    (rest : list string) :
  accounts (after ops) = a :: rest -> activeAccount (after ops) = Some a.
Proof.
  unfold after. revert a rest.
  assert (Hgen : forall s,
             (forall a rest, accounts s = a :: rest -> activeAccount s = Some a) ->
             forall a rest,
               accounts (fold_left (fun s o => apply o s) ops s) = a :: rest ->
               activeAccount (fold_left (fun s o => apply o s) ops s) = Some a).
  { induction ops as [|o ops IH]; intros s Hs; cbn [fold_left]; [exact Hs|].
    apply IH. apply apply_keeps_head. exact Hs. }
  apply Hgen. cbn. discriminate.
Qed.

(** X23 after a connect, an empty reconnect and a restoration. *)
Lemma accounts_start_with_active_witness :
  activeAccount (after [Connect (Resolved ["ALICE"]) true;
                        Connect (Resolved []) true;
                        Restore (Resolved ["BOB"; "CAROL"]) true true])
  = Some "BOB".
Proof.
  exact (accounts_start_with_active
           [Connect (Resolved ["ALICE"]) true; Connect (Resolved []) true;
            Restore (Resolved ["BOB"; "CAROL"]) true true]
           "BOB" ["CAROL"] eq_refl).
Defined.

(** X24. A wallet operation that is rejected leaves the session as it
    was, and so does a restoration that finds the wallet not connected.
    Of the rejections only that of a connect is logged as an error, and
    not when it is the user closing the connection dialog. *)
Theorem rejections_leave_the_session (s : session) (session_connect p c : bool)
    (found : list string) :
  apply (Connect (Rejected session_connect) c) s = s
  /\ apply (Restore (Rejected session_connect) p c) s = s
  /\ apply (Disconnect (Rejected session_connect)) s = s
  /\ apply (Restore (Resolved found) false c) s = s
  /\ (In (ConsoleError "Error connecting wallet:")
         (snd (handleConnect (Rejected session_connect) c s))
      <-> session_connect = false)
  /\ ~ In (ConsoleError "Error connecting wallet:")
          (snd (restore (Rejected session_connect) p c s))
  /\ ~ In (ConsoleError "Error connecting wallet:")
          (snd (handleDisconnect (Rejected session_connect) s)).
Proof.
  repeat split; try reflexivity.
  - cbn. destruct found; reflexivity.
  - cbn. destruct session_connect; cbn; [|reflexivity].
    intros [H | []]. discriminate H.
  - intros ->. cbn. right. left. reflexivity.
  - cbn. intros [H | [H | []]]; discriminate H.
  - cbn. intros [H | []]. discriminate H.
Qed.

End WalletViewFacts.

(** ** The on-chain links *)

Module LinksFacts.
Import OnChainLinks.

Lemma set_set (o : option string) : set (set o) = set o.
Proof.
  destruct o as [x|]; [|reflexivity]. cbn. destruct (Js.nonempty x) eqn:H; cbn;
    [rewrite H|]; reflexivity.
Qed.

Lemma appUrl_set (p : props) : set (Some (appUrl p)) = Some (appUrl p).
Proof.
  cbn. unfold appUrl.
  rewrite (TextFacts.nonempty_app_r (default _ (explorerBaseUrl p))); reflexivity.
Qed.


End LinksFacts.

(** ** The second test runner *)

Module RunnerE2EFacts.
Import Runner RunnerE2E.



End RunnerE2EFacts.

(** ** A session of the company page *)

Module SessionFacts.
Import Eff Browser Portal Session.

Lemma prefix_app_both (a x y : string) : prefix (a ++ x) (a ++ y) = prefix x y.
Proof.
  induction a as [|c a IH]; [reflexivity|].
  cbn. destruct (ascii_dec c c); [exact IH | congruence].
Qed.

Section Page.
Variable BASE_URL : string.
Variable encodeURIComponent : string -> string.
Variable JSON_stringify : Js.value -> string.
Variable JSON_parse : string -> result Js.value.

Local Abbreviation handle :=
  (Session.handle BASE_URL encodeURIComponent JSON_stringify JSON_parse).
Local Abbreviation run :=
  (Session.run BASE_URL encodeURIComponent JSON_stringify JSON_parse).
Local Abbreviation status_requests := (Session.status_requests BASE_URL).

Lemma status_requests_app (a b : list event) :
  status_requests (a ++ b) = (status_requests a ++ status_requests b)%list.
Proof.
  unfold Session.status_requests. rewrite TraceFacts.fetches_app. apply filter_app.
Qed.

Lemma status_requests_quiet (t : list event) :
  fetches t = [] -> status_requests t = [].
Proof. unfold Session.status_requests. intros ->. reflexivity. Qed.

(** The uploads go to another endpoint than the status requests. *)
Lemma upload_request (f : Upload.file) (env : call_env) :
  status_requests
    (trace (Api.perform BASE_URL encodeURIComponent JSON_stringify
              (Api.ArtifactsUpload (Upload.file_name f) None) env)) = [].
Proof.
  unfold Session.status_requests. cbn [Api.perform].
  rewrite ClientFacts.reqForm_request. cbn [filter rq_url].
  rewrite prefix_app_both. reflexivity.
Qed.

Lemma profiles_request (env : call_env) :
  status_requests
    (trace (Api.perform BASE_URL encodeURIComponent JSON_stringify
              Api.ArtifactsProfiles env)) = [].
Proof.
  unfold Session.status_requests. cbn [Api.perform].
  rewrite ClientFacts.req_request. cbn [filter rq_url].
  rewrite prefix_app_both. reflexivity.
Qed.

Lemma upload_and_store_quiet (f : Upload.file) (a b c d : string) (env : call_env)
    (pg : Upload.page) :
  let r := Upload.upload_and_store BASE_URL encodeURIComponent JSON_stringify
             f a b c env d pg in
  shouldPoll (Upload.core (fst r)) = shouldPoll (Upload.core pg)
  /\ status_requests (snd r) = [].
Proof.
  cbv zeta. unfold Upload.upload_and_store.
  pose proof (upload_request f env) as Hup. unfold trace in Hup.
  destruct (Api.perform _ _ _ _ env) as [t [res|e']]; cbn [fst snd] in *.
  - unfold Upload.uploaded.
    destruct res; cbn -[Session.status_requests];
      try (destruct (Js.toString _); cbn -[Session.status_requests];
           try destruct (Js.toString _); cbn -[Session.status_requests]);
      (split; [reflexivity|]);
      rewrite status_requests_app, Hup; reflexivity.
  - split; [reflexivity|]. rewrite status_requests_app, Hup. reflexivity.
Qed.

(** No action switches polling on, and none asks for the status. *)
Lemma handle_quiet (a : action) (pg : Upload.page) :
  shouldPoll (Upload.core (fst (handle a pg))) = shouldPoll (Upload.core pg)
  /\ status_requests (snd (handle a pg)) = [].
Proof.
  destruct a as [env|chosen env|text|env|value|env| |date popup]; cbn [Session.handle].
  - split; [reflexivity|]. unfold Session.load_profiles.
    pose proof (profiles_request env) as Hp. unfold trace in Hp.
    destruct (Api.perform _ _ _ _ env) as [t [res|e']]; cbn [fst snd] in *;
      rewrite status_requests_app, Hp; [destruct (mappable res)|]; reflexivity.
  - unfold Upload.handleFileUpload. destruct chosen as [f|]; [|split; reflexivity].
    pose proof (upload_and_store_quiet f "[ui] upload success" "Artifact parsed"
                  "Upload failed" "[ui] upload failed" env pg) as H.
    cbv zeta in H. destruct (Upload.upload_and_store _ _ _ _ _ _ _ _ _ _) as [pg' t].
    exact H.
  - split; reflexivity.
  - unfold Upload.handlePasteUpload.
    destruct (Text.blank _); [split; reflexivity|].
    destruct (JSON_parse _) as [obj|e]; [|split; reflexivity].
    pose proof (upload_and_store_quiet
                  (Upload.File "pasted-sbom.json" "application/json")
                  "[ui] paste upload success" "Artifact parsed (pasted JSON)"
                  "Invalid JSON or upload failed" "[ui] paste upload failed" env pg) as H.
    cbv zeta in H. destruct (Upload.upload_and_store _ _ _ _ _ _ _ _ _ _) as [pg' t].
    exact H.
  - split; reflexivity.
  - unfold Portal.startAnalysis.
    destruct (artifactId (Upload.core pg)) as [aid|]; [|split; reflexivity].
    destruct (negb (Js.nonempty aid) || negb (Js.nonempty (complianceStandard _)));
      split; reflexivity.
  - split; [reflexivity|]. apply status_requests_quiet.
    apply DownloadFacts.download_is_local.
  - split; [reflexivity|]. apply status_requests_quiet.
    unfold ExportPdf.exportPdf.
    destruct (ExportPdf.html _ _); [|reflexivity].
    destruct (ExportPdf.window_open _ _); reflexivity.
Qed.

Lemma run_quiet (acts : list action) :
  forall pg,
    shouldPoll (Upload.core (fst (run acts pg))) = shouldPoll (Upload.core pg)
    /\ status_requests (snd (run acts pg)) = [].
Proof.
  induction acts as [|a rest IH]; intros pg; [split; reflexivity|].
  cbn [Session.run].
  destruct (handle_quiet a pg) as [Hp Hs].
  destruct (handle a pg) as [pg1 t1]. cbn [fst snd] in *.
  destruct (IH pg1) as [Hp' Hs'].
  destruct (run rest pg1) as [pg2 t2]. cbn [fst snd] in *.
  split; [congruence|]. rewrite status_requests_app, Hs, Hs'. reflexivity.
Qed.


End Page.


End SessionFacts.

(** ** The properties above at concrete inputs *)

Module Instances.
Import Eff Browser Portal Samples.

(** X11 at an instance. The button is enabled on an uploaded artifact with a profile, and
    the guard passes. *)
Lemma start_button_matches_guard_witness :
  View.asks_for_requirements
    (snd (Portal.startAnalysis local same braces submitted down)) = false.
Proof.
  exact (proj2 (proj2 (PageFacts.start_button_matches_guard local same braces
                         submitted down)) eq_refl).
Defined.

(** X12 at an instance. With a score of 75 the export button is enabled. *)
Lemma export_button_enabled_when_shown_witness :
  View.export_disabled (setComplianceScore (Some 75%Z) initial) = false.
Proof.
  exact (proj1 (PageFacts.export_button_enabled_when_shown local same braces
                  (setComplianceScore (Some 75%Z) initial) down) eq_refl).
Defined.

(** X14 at an instance. A paste that is not JSON is refused. *)
Lemma paste_refused_before_upload_witness :
  fst (Upload.handlePasteUpload local same braces no_json down
         (Upload.Page initial None "not json"))
  = Upload.Page initial None "not json".
Proof.
  refine (proj1 (PageFacts.paste_refused_before_upload local same braces no_json down
                   (Upload.Page initial None "not json") _)).
  right. eexists. reflexivity.
Defined.

(** X15 at an instance. A second upload that fails keeps the artifact of the first. *)
Lemma failed_upload_keeps_previous_artifact_witness :
  artifactId
    (Upload.core
       (fst (Upload.handleFileUpload local same braces
               (Some (Upload.File "second.json" "application/json")) down
               (Upload.Page submitted
                  (Some (Upload.File "first.json" "application/json"))
                  EmptyString))))
  = Some "a1".
Proof.
  rewrite (proj1 (PageFacts.failed_upload_keeps_previous_artifact local same braces
                    (Upload.File "second.json" "application/json") down
                    (Upload.Page submitted
                       (Some (Upload.File "first.json" "application/json"))
                       EmptyString)
                    (Exn "TypeError" "Failed to fetch") eq_refl)).
  reflexivity.
Defined.


(** X2 at an instance. Every operation is routed; here the submission. *)
Lemma requests_are_routed_witness :
  exists rq,
    fetches (trace (Api.perform local same braces
                      (Api.VerificationSubmit "a1" "default" "ADDR") down)) = [rq]
    /\ init_method (rq_init rq) = Some "POST".
Proof.
  destruct (ClientFacts.requests_are_routed local same braces
              (Api.VerificationSubmit "a1" "default" "ADDR") down)
    as (rq & Hf & _ & Hm & _).
  exists rq. split; [exact Hf | exact Hm].
Defined.

(** X5 at an instance. Reports that cannot be fetched leave the state alone. *)
Lemma loadFindings_without_links_witness :
  loadFindings (Some "abc") unused submitted = submitted.
Proof.
  refine (PollingFacts.loadFindings_without_links (Some "abc") unused submitted _).
  right. left. eexists. reflexivity.
Defined.

(** X6 at an instance. Verified links are stored although the document cannot be read. *)
Lemma loadFindings_stores_verified_links_witness :
  oscalLinks
    (loadFindings (Some "abc")
       (FindingsEnv
          (Ok (Js.VObj [("initial", Js.VObj [("directory_url", Js.VStr "https://gw/i")]);
                        ("verified", Js.VObj [("directory_url", Js.VStr "https://gw/v")])]))
          (Throw (Exn "TypeError" "Failed to fetch")))
       submitted)
  = Js.VObj [("directory_url", Js.VStr "https://gw/v")].
Proof.
  exact (proj1 (PollingFacts.loadFindings_stores_verified_links "abc"
                  (FindingsEnv
                     (Ok (Js.VObj
                            [("initial", Js.VObj [("directory_url", Js.VStr "https://gw/i")]);
                             ("verified", Js.VObj [("directory_url", Js.VStr "https://gw/v")])]))
                     (Throw (Exn "TypeError" "Failed to fetch")))
                  submitted _ eq_refl eq_refl eq_refl)).
Defined.


(** X9 at an instance. Two answers, three requests at most. *)
Lemma one_request_per_answer_witness :
  length (request_times
            ([(0%Z, StatusRequest "abc")]
             ++ snd (run (Closure "abc" (Some Pending))
                         (Poller 0 0 None Awaiting 1 submitted)
                         [Settles 10 pending_answer unused; TimerFires; TimerFires;
                          Settles 10 pending_answer unused; TimerFires]))%list)
  <= 3.
Proof.
  exact (PollingFacts.one_request_per_answer 0 None 1 submitted
           (Closure "abc" (Some Pending)) (Poller 0 0 None Awaiting 1 submitted)
           [(0%Z, StatusRequest "abc")]
           [Settles 10 pending_answer unused; TimerFires; TimerFires;
            Settles 10 pending_answer unused; TimerFires] eq_refl).
Defined.

(** X10 at an instance. An answer with code 2 ends the loop on a terminal badge. *)
Lemma stop_shows_terminal_status_witness :
  Poll.is_terminal
    (verificationStatus
       (view (fst (tick_resume (Closure "abc" (Some Pending))
                     (Ok (Js.VObj [("status_code", Js.VNum 2);
                                   ("status", Js.VStr "Failed")]))
                     unused (Poller 10 0 None Awaiting 1 submitted)))))
  = true.
Proof.
  exact (proj1 (PollingFacts.stop_shows_terminal_status
                  (Closure "abc" (Some Pending))
                  (Js.VObj [("status_code", Js.VNum 2); ("status", Js.VStr "Failed")])
                  unused (Poller 10 0 None Awaiting 1 submitted) eq_refl eq_refl)).
Defined.

(** X24 at an instance. A connect that the user cancels is not logged. *)
Lemma rejections_leave_the_session_witness :
  Wallet.apply (Wallet.Connect (Wallet.Rejected true) true)
               (Wallet.Session ["ALICE"] (Some "ALICE"))
  = Wallet.Session ["ALICE"] (Some "ALICE").
Proof.
  exact (proj1 (WalletViewFacts.rejections_leave_the_session
                  (Wallet.Session ["ALICE"] (Some "ALICE")) true true true [])).
Defined.


End Instances.
